(** * Provenance architecture demo: a shallow embedding of the Go server

    The first part translates the server, one module for each source file
    or library it leans on:
    - [GoStrings], [Filepath], [GoSort], [Regexp]: the functions of Go's
      [strings], [path/filepath], [sort] and [regexp] packages that the
      server calls;
    - [Release]: the package index records and [getReleaseType]
      (pypi.go, rebuilder.go);
    - [DSSE]: the signing envelope (dsse.go);
    - [InToto], [Policy]: the statement and policy records;
    - [Monitor]: the build monitor (monitor.go);
    - [CloudBuild], [Rebuilder]: the rebuild pipeline (rebuilder.go);
    - [PolicyStore]: the policy fetches (policy.go);
    - [Upload]: the upload handler (main.go).
    External services (the package index, the source host, the CI
    provider, the builder, the key service, decoders and hashes) are
    variables of a section: a function of the server is a function of the
    answers they give.  Error messages are kept without the details the
    source formats into them.

    The second part states and proves the properties. *)

From Stdlib Require Import ZArith List Ascii String Bool Lia.
From Stdlib Require Import Sorting.Sorted Sorting.Permutation.
From Stdlib Require Import Numbers.DecimalString.
From Stdlib Require OrdersEx.
From Stdlib Require DecimalNat.
From stdpp Require Import gmap strings.
Import ListNotations.

Local Open Scope string_scope.

(** ** Go's [strings] package, over byte strings *)

Module GoStrings.

(** [strings.HasPrefix(s, prefix)]. *)
Definition HasPrefix (s prefix : string) : bool := String.prefix prefix s.

(** [strings.HasSuffix(s, suffix)]:
    [len(s) >= len(suffix) && s[len(s)-len(suffix):] == suffix]. *)
Definition HasSuffix (s suffix : string) : bool :=
  (String.length suffix <=? String.length s)%nat
  && String.eqb
       (substring (String.length s - String.length suffix)
                  (String.length suffix) s)
       suffix.

(** [strings.TrimSuffix(s, suffix)]. *)
Definition TrimSuffix (s suffix : string) : string :=
  if HasSuffix s suffix
  then substring 0 (String.length s - String.length suffix) s
  else s.

(** [strings.TrimPrefix(s, prefix)]. *)
Definition TrimPrefix (s prefix : string) : string :=
  if HasPrefix s prefix
  then substring (String.length prefix)
                 (String.length s - String.length prefix) s
  else s.

(** [strings.Split(s, sep)] for a separator of one byte.  The result is
    never empty: splitting the empty string gives one empty field. *)
Fixpoint Split (s : string) (sep : ascii) : list string :=
  match s with
  | EmptyString => [EmptyString]
  | String a s' =>
      if Ascii.eqb a sep then EmptyString :: Split s' sep
      else match Split s' sep with
           | [] => [String a EmptyString]
           | h :: t => String a h :: t
           end
  end.

(** [bytes.Contains] / [strings.Contains]. *)
Fixpoint Contains (s sub : string) : bool :=
  String.prefix sub s
  || match s with
     | EmptyString => false
     | String _ s' => Contains s' sub
     end.

(** A string holds no occurrence of the byte [c]. *)
Fixpoint free_of (c : ascii) (s : string) : Prop :=
  match s with
  | EmptyString => True
  | String a s' => a <> c /\ free_of c s'
  end.

(** The last byte of a string. *)
Fixpoint lastByte (s : string) : option ascii :=
  match s with
  | EmptyString => None
  | String c EmptyString => Some c
  | String _ s' => lastByte s'
  end.

End GoStrings.

(** ** Release catalog (rebuilder.go, pypi.go) *)

Module Release.
Import GoStrings.

Inductive ReleaseType : Set :=
| unknownReleaseType
| sourceZip
| sourceGztar
| wheelAny
| wheelManylinux
| wheelMusllinux
| wheelMacos
| wheelWin.

Definition ReleaseType_eqb (a b : ReleaseType) : bool :=
  match a, b with
  | unknownReleaseType, unknownReleaseType
  | sourceZip, sourceZip
  | sourceGztar, sourceGztar
  | wheelAny, wheelAny
  | wheelManylinux, wheelManylinux
  | wheelMusllinux, wheelMusllinux
  | wheelMacos, wheelMacos
  | wheelWin, wheelWin => true
  | _, _ => false
  end.

(** The inner [switch] of [getReleaseType], on the platform string. *)
Definition platformType (platform : string) : ReleaseType :=
  if String.eqb platform "any" then wheelAny
  else if HasPrefix platform "manylinux" then wheelManylinux
  else if HasPrefix platform "musllinux" then wheelMusllinux
  else if HasPrefix platform "macos" then wheelMacos
  else if HasPrefix platform "win" then wheelWin
  else unknownReleaseType.

(** [platform := strings.Split(segs[len(segs)-1], ".")[0]] where
    [segs := strings.Split(strings.TrimSuffix(releaseFile, ".whl"), "-")]. *)
Definition wheelPlatform (releaseFile : string) : string :=
  let segs := Split (TrimSuffix releaseFile ".whl") "-" in
  List.hd EmptyString (Split (List.last segs EmptyString) ".").

Definition getReleaseType (releaseFile : string) : ReleaseType :=
  if HasSuffix releaseFile ".tar.gz" then sourceGztar
  else if HasSuffix releaseFile ".zip" then sourceZip
  else if HasSuffix releaseFile ".whl" then platformType (wheelPlatform releaseFile)
  else unknownReleaseType.

(** pypi.go: [Digests] and [Release].  Times are instants, as integers. *)
Record Digests := { MD5 : string; SHA256 : string }.

Record Release := {
  digests : Digests;
  Filename : string;
  PackageType : string;
  PythonVersion : string;
  URL : string;
  UploadTime : Z
}.

Record PyPiProject := {
  LatestVersion : string;
  Releases : gmap string (list Release)
}.

(** [proj.Releases[version]]: a missing key reads as the nil slice. *)
Definition releasesOf (proj : PyPiProject) (version : string) : list Release :=
  default [] (Releases proj !! version).

(** The version a request resolves to: [opt.Version] unless it is nil or
    empty, and the index's latest version then. *)
Definition resolveVersion (proj : PyPiProject) (v : option string) : string :=
  match v with
  | None => LatestVersion proj
  | Some v' => if String.eqb v' "" then LatestVersion proj else v'
  end.

End Release.

(** ** Results of fallible calls *)

(** A Go call returning [(T, error)]. *)
Inductive result (A : Type) : Type :=
| Ok (a : A)
| Err (msg : string).
Arguments Ok {A} a.
Arguments Err {A} msg.

(** What a call of a handler-level function does: it returns a value,
    returns an error, ends the process ([log.Fatal], a run-time panic), or
    is still waiting for an external operation. *)
Inductive outcome (A : Type) : Type :=
| Return (a : A)
| Error (msg : string)
| Fatal (msg : string)
| Blocked.
Arguments Return {A} a.
Arguments Error {A} msg.
Arguments Fatal {A} msg.
Arguments Blocked {A}.

Definition obind {A B} (m : outcome A) (k : A -> outcome B) : outcome B :=
  match m with
  | Return a => k a
  | Error e => Error e
  | Fatal e => Fatal e
  | Blocked => Blocked
  end.

(** [if err != nil { return nil, err }] *)
Definition orReturn {A} (r : result A) : outcome A :=
  match r with Ok a => Return a | Err e => Error e end.

(** [if err != nil { log.Fatal(err) }] *)
Definition orFatal {A} (r : result A) : outcome A :=
  match r with Ok a => Return a | Err e => Fatal e end.

Declare Scope outcome_scope.
Delimit Scope outcome_scope with outcome.
Notation "'do' x '<-' m 'in' k" := (obind m (fun x => k))
  (at level 10, x name, m at level 100, k at level 200) : outcome_scope.

(** ** Attestation signer (dsse.go) *)

Module DSSE.

(** [%d] of a length. *)
Definition itoa (n : nat) : string := NilEmpty.string_of_uint (Nat.to_uint n).

(** *** [encoding/base64], [StdEncoding] *)

Definition encodeStd : string :=
  "ABCDEFGHIJKLMNOPQRSTUVWXYZabcdefghijklmnopqrstuvwxyz0123456789+/".

Definition StdPadding : ascii := "="%char.

(** [enc.encode[v & 0x3F]] *)
Definition enc6 (v : N) : ascii :=
  match String.get (N.to_nat (N.land v 63)) encodeStd with
  | Some c => c
  | None => StdPadding
  end.

Definition byteN (a : ascii) : N := N_of_ascii a.

(** [Encoding.Encode]: three source bytes give four characters; a
    remainder of one or two bytes is padded. *)
Fixpoint EncodeToString (src : string) : string :=
  match src with
  | EmptyString => EmptyString
  | String a EmptyString =>
      let val := N.shiftl (byteN a) 16 in
      String (enc6 (N.shiftr val 18))
        (String (enc6 (N.shiftr val 12))
           (String StdPadding (String StdPadding EmptyString)))
  | String a (String b EmptyString) =>
      let val := N.lor (N.shiftl (byteN a) 16) (N.shiftl (byteN b) 8) in
      String (enc6 (N.shiftr val 18))
        (String (enc6 (N.shiftr val 12))
           (String (enc6 (N.shiftr val 6))
              (String StdPadding EmptyString)))
  | String a (String b (String c rest)) =>
      let val := N.lor (N.lor (N.shiftl (byteN a) 16) (N.shiftl (byteN b) 8))
                       (byteN c) in
      String (enc6 (N.shiftr val 18))
        (String (enc6 (N.shiftr val 12))
           (String (enc6 (N.shiftr val 6))
              (String (enc6 val) (EncodeToString rest))))
  end.

Definition inTotoPayloadType : string := "application/vnd.in-toto+json".

Record Signature := { KeyID : string; Sig : string }.

Record DSSE := {
  PayloadType : string;
  Payload : string;
  Signatures : list Signature
}.

(** [fmt.Sprintf("DSSEv1 %d %s %d %s", len(t), t, len(p), p)] *)
Definition pae (payloadType encodedPayload : string) : string :=
  "DSSEv1 " ++ itoa (String.length payloadType) ++ " " ++ payloadType
  ++ " " ++ itoa (String.length encodedPayload) ++ " " ++ encodedPayload.

(** A request received by the external key management service. *)
Record SignRequest := { reqName : string; reqData : string }.

(** A request for a key to sign the encoding of a payload, written out. *)
Definition paeRequest (kmsKey payload : string) : SignRequest :=
  {| reqName := kmsKey;
     reqData := "DSSEv1 28 application/vnd.in-toto+json "
                ++ itoa (String.length (EncodeToString payload))
                ++ " " ++ EncodeToString payload |}.

Section Signer.
(** The key management service: whether a client can be created, and the
    answer of [AsymmetricSign] to a request. *)
Variable NewKeyManagementClient : result unit.
Variable AsymmetricSign : SignRequest -> result string.
(** The [kms_key] flag. *)
Variable kmsKey : string.

(** [kmsSign], with the requests sent to the service so far threaded
    through: a request is recorded when it is sent. *)
Definition kmsSign (keyName payload : string) (sent : list SignRequest)
  : result string * list SignRequest :=
  match NewKeyManagementClient with
  | Err e => (Err e, sent)
  | Ok _ =>
      let req := {| reqName := keyName; reqData := payload |} in
      (AsymmetricSign req, (sent ++ [req])%list)
  end.

Definition NewDSSE (payload : string) (sent : list SignRequest)
  : result DSSE * list SignRequest :=
  let encodedPayload := EncodeToString payload in
  let encoded := pae inTotoPayloadType encodedPayload in
  match kmsSign kmsKey encoded sent with
  | (Err e, sent') => (Err e, sent')
  | (Ok sig, sent') =>
      (Ok {| PayloadType := inTotoPayloadType;
             Payload := encodedPayload;
             Signatures :=
               [{| KeyID := "https://cloudkms.googleapis.com/" ++ kmsKey;
                   Sig := EncodeToString sig |}] |},
       sent')
  end.
End Signer.

End DSSE.

(** ** in-toto statements (github.com/in-toto/in-toto-golang/in_toto) *)

Module InToto.

Record Subject := { Name : string; Digest : gmap string string }.

Record ProvenanceBuilder := { ID : string }.

Record ProvenanceRecipe := {
  RecipeType : string;
  DefinedInMaterial : option Z;
  EntryPoint : string;
  RecipeArguments : list string;
  Environment : list string
}.

Record ProvenanceComplete := {
  CompleteArguments : bool;
  CompleteEnvironment : bool;
  CompleteMaterials : bool
}.

Record ProvenanceMetadata := {
  BuildStartedOn : Z;
  BuildFinishedOn : Z;
  Completeness : ProvenanceComplete;
  Reproducible : bool
}.

Record ProvenanceMaterial := { URI : string; MaterialDigest : gmap string string }.

Record ProvenancePredicate := {
  Builder : ProvenanceBuilder;
  Recipe : ProvenanceRecipe;
  Metadata : ProvenanceMetadata;
  Materials : list ProvenanceMaterial
}.

Record StatementHeader := {
  StatementType : string;
  PredicateType : string;
  Subject_ : list Subject
}.

Record ProvenanceStatement := {
  Header : StatementHeader;
  Predicate : ProvenancePredicate
}.

Definition Subjects (stmt : ProvenanceStatement) : list Subject :=
  Subject_ (Header stmt).

End InToto.

(** ** Policy documents (policy.go) *)

Module Policy.

Record Rebuilder := { PackageRoot : string }.
Record ProvenanceUpload := { AuthorizedBuilders : list string }.
Record ArtifactSpec := { SpecName : string; Patterns : list string }.
Record CompletionSpec := { Job : string; Step : string }.
Record GitHubActions := {
  Workflow : string;
  Artifacts : list ArtifactSpec;
  RequireSucceeded : option CompletionSpec
}.
Record BuildMonitor := { Actions : GitHubActions }.

Record Policy := {
  Repo : string;
  buildMonitor : option BuildMonitor;
  rebuilder : option Rebuilder;
  provenanceUpload : option ProvenanceUpload;
  PolicyDigest : string;
  Scope : string;
  Package : string
}.

End Policy.

(** ** [sort.Slice] *)

Module GoSort.
Section Slice.
Context {A : Type} (less : A -> A -> bool).

Fixpoint insert (x : A) (l : list A) : list A :=
  match l with
  | [] => [x]
  | y :: t => if less x y then x :: y :: t else y :: insert x t
  end.

(** [sort.Slice(l, less)].  The library promises no order among elements
    that [less] does not separate; this model keeps their original
    order. *)
Fixpoint Slice (l : list A) : list A :=
  match l with
  | [] => []
  | x :: t => insert x (Slice t)
  end.

(** [a] may stand before [b]. *)
Definition ordered (a b : A) : Prop := less b a = false.
End Slice.
End GoSort.

(** ** Build monitor (monitor.go) *)

Module Monitor.
Import GoStrings Release InToto Policy.
Local Open Scope outcome_scope.

Record MonitorOptions := { Options : GitHubActions; Version : option string }.

(** The records of the CI provider's API that the monitor reads. *)
Record github_Workflow := { wfID : option Z; wfName : string; wfPath : string }.
Record Workflows := { TotalCount : Z; WorkflowList : list github_Workflow }.
Record TaskStep := { stepName : string; stepConclusion : string }.
Record WorkflowJob := {
  jobName : string;
  jobConclusion : string;
  Steps : list TaskStep
}.
Record Artifact := {
  artName : string;
  Expired : bool;
  ArchiveDownloadURL : string
}.
Record WorkflowRun := {
  runID : Z;
  CreatedAt : Z;
  UpdatedAt : Z;
  HeadRepositoryHTMLURL : string;
  HeadBranch : string;
  HeadSHA : string
}.

(** An entry of a downloaded archive: its name, and what reading it gives:
    the bytes, an error of [Open] (returned), or a failure of the copy (the
    process ends). *)
Record ZipFile := { zName : string; zData : outcome string }.

(** [time.Time.Before] and [time.Time.After]. *)
Definition Before (t u : Z) : bool := (t <? u)%Z.
Definition After (t u : Z) : bool := (u <? t)%Z.

(** [r.GetCreatedAt().Time.Before(uploaded) &&
     r.GetUpdatedAt().Time.After(uploaded)] *)
Definition inWindow (r : WorkflowRun) (uploaded : Z) : bool :=
  Before (CreatedAt r) uploaded && After (UpdatedAt r) uploaded.

(** [releasedFiles[r.Filename] = r.UploadTime] over the releases. *)
Definition releasedFilesOf (rs : list Release) : gmap string Z :=
  fold_left (fun m r => <[Filename r := UploadTime r]> m) rs ∅.

(** Lines 73-78: the flag is set when some upload time is in the window. *)
Definition runTimely (r : WorkflowRun) (releasedFiles : gmap string Z) : bool :=
  existsb (fun kv => inWindow r (snd kv)) (map_to_list releasedFiles).

(** Lines 159-167: the upload time of the release file of that very name. *)
Definition fileTimely (r : WorkflowRun) (releasedFiles : gmap string Z)
    (fname : string) : bool :=
  match releasedFiles !! fname with
  | Some uploaded => inWindow r uploaded
  | None => false
  end.

(** Lines 83-97: the completion gate, as [(found, succeeded)]. *)
Definition stepGate (spec : CompletionSpec) (st : bool * bool)
    (steps : list TaskStep) : bool * bool :=
  fold_left
    (fun st s =>
       if String.eqb (stepName s) (Step spec)
       then (true, String.eqb (stepConclusion s) "success")
       else st)
    steps st.

Definition jobGate (spec : CompletionSpec) (jobs : list WorkflowJob)
  : bool * bool :=
  fold_left
    (fun st j =>
       if String.eqb (jobName j) (Job spec)
       then
         let st' := if String.eqb (Step spec) ""
                    then (true, String.eqb (jobConclusion j) "success")
                    else st in
         stepGate spec st' (Steps j)
       else st)
    jobs (false, false).

(** Lines 110-115.  [match = &spec] stores the address of the loop's one
    variable [spec]; when the loop is over that variable holds the last
    element of [opt.Artifacts], whichever element had the artifact's name.
    The state is the variable and whether [match] was set. *)
Definition matchSpec (specs : list ArtifactSpec) (name : string)
  : option ArtifactSpec :=
  let '(spec, set) :=
    fold_left
      (fun (st : option ArtifactSpec * bool) spec =>
         (Some spec, snd st || String.eqb (SpecName spec) name))
      specs (None, false) in
  if set then spec else None.

(** Lines 82-105: whether the run passes the completion gate, when the
    policy has one: the gate's target was found and succeeded. *)
Definition gated (opt : MonitorOptions) (js : list WorkflowJob) : bool :=
  match RequireSucceeded (Options opt) with
  | None => true
  | Some spec => let '(found, succeeded) := jobGate spec js in
                 found && succeeded
  end.

Section World.
(** The external services, as the answers they give. *)
Variable pypiMetadata : string -> outcome PyPiProject.
Variable ListWorkflows : string -> string -> result Workflows.
Variable ListWorkflowRunsByID : string -> string -> Z -> result (list WorkflowRun).
Variable ListWorkflowJobs : string -> string -> Z -> result (list WorkflowJob).
Variable ListWorkflowRunArtifacts : string -> string -> Z -> list Artifact.
(** Lines 123-145: parse the URL, request it with the token, require
    status 200, read the body and open it as a zip archive. *)
Variable fetchArchive : Artifact -> result (list ZipFile).
(** [filepath.Match(pattern, name)] *)
Variable Match : string -> string -> result bool.
(** [hex.EncodeToString(sha256(bytes))] *)
Variable sha256hex : string -> string.

(** Lines 147-154: every pattern is tried; a malformed one is an error. *)
Fixpoint matchPatterns (patterns : list string) (name : string)
    (matched : bool) : outcome bool :=
  match patterns with
  | [] => Return matched
  | path :: rest =>
      do m <- orReturn (Match path name) in
      matchPatterns rest name (matched || m)
  end.

Definition subjectOf (f : ZipFile) (content : string) : Subject :=
  {| Name := zName f; Digest := {[ "sha256" := sha256hex content ]} |}.

(** Lines 146-184: the entries of one archive. *)
Fixpoint scanFiles (r : WorkflowRun) (releasedFiles : gmap string Z)
    (spec : ArtifactSpec) (files : list ZipFile) (subjects : list Subject)
  : outcome (list Subject) :=
  match files with
  | [] => Return subjects
  | f :: rest =>
      do matched <- matchPatterns (Patterns spec) (zName f) false in
      if negb matched then scanFiles r releasedFiles spec rest subjects
      else if negb (fileTimely r releasedFiles (zName f))
      then scanFiles r releasedFiles spec rest subjects
      else
        do content <- zData f in
        scanFiles r releasedFiles spec rest
          (subjects ++ [subjectOf f content])%list
  end.

(** Lines 109-185: the artifacts of one run, giving the subjects and the
    [expired] flag; an expired artifact leaves the loop. *)
Fixpoint scanArtifacts (r : WorkflowRun) (releasedFiles : gmap string Z)
    (specs : list ArtifactSpec) (arts : list Artifact)
    (subjects : list Subject) : outcome (list Subject * bool) :=
  match arts with
  | [] => Return (subjects, false)
  | a :: rest =>
      match matchSpec specs (artName a) with
      | None => scanArtifacts r releasedFiles specs rest subjects
      | Some spec =>
          if Expired a then Return (subjects, true)
          else
            do files <- orReturn (fetchArchive a) in
            do subjects' <- scanFiles r releasedFiles spec files subjects in
            scanArtifacts r releasedFiles specs rest subjects'
      end
  end.

Definition less (a b : Subject) : bool := String.ltb (Name a) (Name b).

Definition statement (wf : github_Workflow) (r : WorkflowRun)
    (subjects : list Subject) : ProvenanceStatement :=
  {| Header :=
       {| StatementType := "https://in-toto.io/Statement/v0.1";
          PredicateType := "https://slsa.dev/provenance/v0.1";
          Subject_ := subjects |};
     Predicate :=
       {| Builder :=
            {| ID := "https://attestations.github.com/actions-workflow/unknown-runner@v1" |};
          Recipe :=
            {| RecipeType := "https://slsa.dev/workflows/GitHubActionsWorkflow";
               DefinedInMaterial := Some 0%Z;
               EntryPoint := wfPath wf;
               RecipeArguments := [];
               Environment := [] |};
          Metadata :=
            {| BuildStartedOn := CreatedAt r;
               BuildFinishedOn := UpdatedAt r;
               Completeness :=
                 {| CompleteArguments := false;
                    CompleteEnvironment := false;
                    CompleteMaterials := false |};
               Reproducible := false |};
          Materials :=
            [{| URI := "git+" ++ HeadRepositoryHTMLURL r ++ "@" ++ HeadBranch r;
                MaterialDigest := {[ "sha1" := HeadSHA r ]} |}] |} |}.

(** The body of the loop over the runs (lines 69-224): [None] stands for
    [continue], [Some stmt] for [return &stmt, nil]. *)
Definition examineRun (owner repo : string) (opt : MonitorOptions)
    (releasedFiles : gmap string Z) (wf : github_Workflow) (r : WorkflowRun)
  : outcome (option ProvenanceStatement) :=
  do js <- orFatal (ListWorkflowJobs owner repo (runID r)) in
  if negb (runTimely r releasedFiles) then Return None
  else
    if negb (gated opt js) then Return None
    else
      do sa <- scanArtifacts r releasedFiles (Artifacts (Options opt))
                 (ListWorkflowRunArtifacts owner repo (runID r)) [] in
      let '(subjects, expired) := sa in
      if (expired : bool) then Return None
      else if (List.length subjects =? 0)%nat then Return None
      else Return (Some (statement wf r (GoSort.Slice less subjects))).

Fixpoint scanRuns (owner repo : string) (opt : MonitorOptions)
    (releasedFiles : gmap string Z) (wf : github_Workflow)
    (runs : list WorkflowRun) : outcome (option ProvenanceStatement) :=
  match runs with
  | [] => Return None
  | r :: rest =>
      do found <- examineRun owner repo opt releasedFiles wf r in
      match found with
      | Some stmt => Return (Some stmt)
      | None => scanRuns owner repo opt releasedFiles wf rest
      end
  end.

(** Lines 55-60: the last workflow of that name stays in [wf]. *)
Definition findWorkflow (name : string) (wfs : list github_Workflow)
  : github_Workflow :=
  fold_left (fun wf w => if String.eqb (wfName w) name then w else wf) wfs
    {| wfID := None; wfName := ""; wfPath := "" |}.

Definition MonitorBuild (pkg repo : string) (opt : MonitorOptions)
  : outcome (option ProvenanceStatement) :=
  if negb (HasPrefix repo "github.com/")
  then Error "Non-github repos not yet supported"
  else
    let parts := Split repo "/" in
    match nth_error parts 1, nth_error parts 2 with
    | Some owner, Some repo' =>
        do project <- pypiMetadata pkg in
        let version := resolveVersion project (Version opt) in
        let releasedFiles := releasedFilesOf (releasesOf project version) in
        do wfs <- orFatal (ListWorkflows owner repo') in
        if (TotalCount wfs =? 0)%Z then Error "No workflows found"
        else
          let wf := findWorkflow (Workflow (Options opt)) (WorkflowList wfs) in
          match wfID wf with
          | None => Error "No workflow match"
          | Some id =>
              do rs <- orFatal (ListWorkflowRunsByID owner repo' id) in
              scanRuns owner repo' opt releasedFiles wf rs
          end
    | _, _ => Fatal "index out of range"
    end.

(** Lines 30-67 went through: the repository is on the supported host
    and names an owner and a repository, the index answered, the workflow
    was found and its runs were listed. *)
Definition prepared (pkg repo : string) (opt : MonitorOptions)
    (owner name : string) (releasedFiles : gmap string Z)
    (wf : github_Workflow) (runs : list WorkflowRun) : Prop :=
  HasPrefix repo "github.com/" = true
  /\ nth_error (Split repo "/") 1 = Some owner
  /\ nth_error (Split repo "/") 2 = Some name
  /\ exists project wfs id,
       pypiMetadata pkg = Return project
       /\ releasedFiles
          = releasedFilesOf
              (releasesOf project (resolveVersion project (Version opt)))
       /\ ListWorkflows owner name = Ok wfs
       /\ TotalCount wfs <> 0%Z
       /\ wf = findWorkflow (Workflow (Options opt)) (WorkflowList wfs)
       /\ wfID wf = Some id
       /\ ListWorkflowRunsByID owner name id = Ok runs.
End World.

(** Subjects in ascending order of their names. *)
Definition byName (a b : Subject) : Prop := String.leb (Name a) (Name b) = true.

End Monitor.

(** ** [path/filepath] on a Unix system *)

Module Filepath.
Import GoStrings.

Definition Separator : ascii := "/"%char.

(** The elements kept by [Clean], last first: empty elements and [.] go;
    [..] removes the element before it, stays at the start of a relative
    path and goes at the start of a rooted one. *)
Fixpoint cleanElems (rooted : bool) (elems : list string) (kept : list string)
  : list string :=
  match elems with
  | [] => kept
  | e :: rest =>
      if String.eqb e "" || String.eqb e "." then cleanElems rooted rest kept
      else if String.eqb e ".." then
        match kept with
        | k :: kept' =>
            if String.eqb k ".." then cleanElems rooted rest (e :: kept)
            else cleanElems rooted rest kept'
        | [] => if rooted then cleanElems rooted rest kept
                else cleanElems rooted rest [e]
        end
      else cleanElems rooted rest (e :: kept)
  end.

(** [filepath.Clean] *)
Definition Clean (path : string) : string :=
  let rooted := HasPrefix path "/" in
  let body := String.concat "/" (rev (cleanElems rooted (Split path Separator) [])) in
  let out := if rooted then "/" ++ body else body in
  if String.eqb out "" then "." else out.

(** [filepath.Join]: leading empty elements are dropped, the rest is joined
    with the separator and cleaned. *)
Fixpoint Join (elem : list string) : string :=
  match elem with
  | [] => ""
  | e :: rest =>
      if String.eqb e "" then Join rest
      else Clean (String.concat "/" elem)
  end.

End Filepath.

(** ** The tag pattern of the rebuilder, and a matcher for it ([regexp])

    Strings are matched byte by byte, which is what [regexp] does on ASCII
    input. *)

Module Regexp.

Inductive regex : Type :=
| Void
| Eps
| Class (negated : bool) (ranges : list (ascii * ascii))
| Cat (a b : regex)
| Alt (a b : regex)
| Star (a : regex).

Definition inRange (c : ascii) (r : ascii * ascii) : bool :=
  (N_of_ascii (fst r) <=? N_of_ascii c)%N && (N_of_ascii c <=? N_of_ascii (snd r))%N.

Definition classHas (negated : bool) (ranges : list (ascii * ascii)) (c : ascii)
  : bool :=
  xorb negated (existsb (inRange c) ranges).

Fixpoint nullable (r : regex) : bool :=
  match r with
  | Void => false
  | Eps => true
  | Class _ _ => false
  | Cat a b => nullable a && nullable b
  | Alt a b => nullable a || nullable b
  | Star _ => true
  end.

(** The derivative of [r] by the byte [c]. *)
Fixpoint deriv (c : ascii) (r : regex) : regex :=
  match r with
  | Void => Void
  | Eps => Void
  | Class n rs => if classHas n rs c then Eps else Void
  | Cat a b =>
      if nullable a then Alt (Cat (deriv c a) b) (deriv c b)
      else Cat (deriv c a) b
  | Alt a b => Alt (deriv c a) (deriv c b)
  | Star a => Cat (deriv c a) (Star a)
  end.

(** Whether the whole of [s] is in the language of [r]. *)
Fixpoint matches (r : regex) (s : string) : bool :=
  match s with
  | EmptyString => nullable r
  | String c s' => matches (deriv c r) s'
  end.

(** The strings of the language of a pattern. *)
Inductive Lang : regex -> string -> Prop :=
| LangEps : Lang Eps ""
| LangClass (n : bool) (rs : list (ascii * ascii)) (c : ascii) :
    classHas n rs c = true -> Lang (Class n rs) (String c "")
| LangCat (a b : regex) (s t : string) :
    Lang a s -> Lang b t -> Lang (Cat a b) (s ++ t)
| LangAltL (a b : regex) (s : string) : Lang a s -> Lang (Alt a b) s
| LangAltR (a b : regex) (s : string) : Lang b s -> Lang (Alt a b) s
| LangStarNil (a : regex) : Lang (Star a) ""
| LangStarApp (a : regex) (s t : string) :
    Lang a s -> Lang (Star a) t -> Lang (Star a) (s ++ t).

Definition Lit (c : ascii) : regex := Class false [(c, c)].
Definition Opt (r : regex) : regex := Alt Eps r.
Definition single (c : ascii) : ascii * ascii := (c, c).

(** [.] without the [s] flag: any byte but the line feed. *)
Definition Dot : regex := Class true [single "010"%char].

(** The characters with a meaning of their own in a pattern. *)
Definition isMeta (c : ascii) : bool :=
  existsb (Ascii.eqb c)
    ["\"; "+"; "*"; "?"; "("; ")"; "["; "]"; "{"; "}"; "|"; "^"; "$"]%char.

(** The version string read as a pattern, which is how
    [fmt.Sprintf] places it between the two fixed parts: [.] is the
    wildcard, any other byte that is not a metacharacter stands for itself.
    A version holding another metacharacter is outside this model. *)
Fixpoint versionPattern (version : string) : option regex :=
  match version with
  | EmptyString => Some Eps
  | String c rest =>
      if isMeta c then None
      else
        match versionPattern rest with
        | None => None
        | Some r =>
            Some (Cat (if Ascii.eqb c "."%char then Dot else Lit c) r)
        end
  end.

(** The part before the version: an optional group of any bytes followed
    by one byte that is not a digit, anchored at the start. *)
Definition tagPrefix : regex :=
  Opt (Cat (Star Dot) (Class true [("0", "9")]%char)).

(** The part after the version: an optional group of one byte that is none
    of [a], [b], [d], [p], [-], [.] followed by any bytes, anchored at the
    end. *)
Definition tagSuffix : regex :=
  Opt (Cat (Class true (map single ["a"; "b"; "d"; "p"; "-"; "."]%char))
           (Star Dot)).

(** [regexp.MustCompile(fmt.Sprintf(pattern, version))], the version placed
    between the two fixed parts. *)
Definition tagRegexp (version : string) : option regex :=
  match versionPattern version with
  | None => None
  | Some v => Some (Cat tagPrefix (Cat v tagSuffix))
  end.

(** [re.MatchString(s)] for a pattern anchored at both ends. *)
Definition MatchString (re : regex) (s : string) : bool := matches re s.

End Regexp.

(** ** The external build service (Cloud Build) *)

Module CloudBuild.

Record BuildStep := {
  StepName : string;
  Entrypoint : string;
  Args : list string
}.

Record Build := {
  Substitutions : list (string * string);
  BuildSteps : list BuildStep
}.

Record Operation := {
  OpName : string;
  Done : bool;
  OpError : option string
}.

Fixpoint lookup (name : string) (subs : list (string * string)) : option string :=
  match subs with
  | [] => None
  | (k, v) :: rest => if String.eqb k name then Some v else lookup name rest
  end.

(** The service replaces [${NAME}] by the value of the substitution
    [NAME]; [name] holds the characters read since an opening brace. *)
Fixpoint expand (subs : list (string * string)) (s : string)
    (name : option string) : string :=
  match s with
  | EmptyString =>
      match name with None => "" | Some n => "${" ++ n end
  | String c s' =>
      match name with
      | Some n =>
          if Ascii.eqb c "}"%char
          then match lookup n subs with
               | Some v => v
               | None => "${" ++ n ++ "}"
               end ++ expand subs s' None
          else expand subs s' (Some (n ++ String c ""))
      | None =>
          if Ascii.eqb c "$"%char
          then match s' with
               | String b s'' =>
                   if Ascii.eqb b "{"%char then expand subs s'' (Some "")
                   else String c (expand subs s' None)
               | EmptyString => String c ""
               end
          else String c (expand subs s' None)
      end
  end.

Definition substitute (subs : list (string * string)) (s : string) : string :=
  expand subs s None.

End CloudBuild.

(** ** Rebuild pipeline (rebuilder.go) *)

Module Rebuilder.
Import GoStrings Release InToto Filepath Regexp CloudBuild.
Local Open Scope outcome_scope.

Record RebuilderOptions := {
  Types : list ReleaseType;
  PackageRoot : option string;
  Version : option string
}.

(** An entry of the published wheel: its name and what reading it gives. *)
Record WheelFile := { wName : string; wData : result string }.

(** Lines 79-90.  A release is appended once for each requested type it
    has; a release for Python 2 is never appended. *)
Definition toRebuild (releases : list Release) (types : list ReleaseType)
  : list Release :=
  flat_map
    (fun r =>
       flat_map
         (fun t =>
            if String.eqb (PythonVersion r) "py2" then []
            else if ReleaseType_eqb t (getReleaseType (Filename r)) then [r]
            else [])
         types)
    releases.

(** Lines 104-110: the first tag, in listing order, that the pattern
    matches; the empty string when there is none. *)
Fixpoint selectTag (re : regex) (tags : list string) : string :=
  match tags with
  | [] => ""
  | t :: rest => if MatchString re t then t else selectTag re rest
  end.

(** Lines 186-197: the pinned tools, from the wheel's two metadata files. *)
Definition setuptoolsPin (metadata : string) : string :=
  if Contains metadata "License-File" then "==58.3.0" else "==56.2.0".

(** The commands of the build step, which the source joins with [&&] in one
    raw string handed to [/bin/sh -c]; line breaks and indentation between
    them are left out. *)
Definition buildScript : list string :=
  [ "apk add python3 py3-pip git";
    "mkdir env";
    "python3 -m venv env";
    "env/bin/pip3 install setuptools${_SETUPTOOLS} wheel${_WHEEL}";
    "cd repo/${_PACKAGEROOT}";
    "/workspace/env/bin/python3.9 setup.py build bdist_wheel" ].

Definition diffScript : list string :=
  [ "apk add python3 py3-pip libmagic libarchive unzip";
    "env/bin/pip3 install diffoscope";
    "env/bin/diffoscope ${_FILENAME} repo/${_PACKAGEROOT}/dist/${_FILENAME}" ].

(** Lines 199-243: the build handed to the external builder. *)
Definition wheelBuild (project : string) (wheel : Release)
    (repo tag setuptools wheelPin packageRoot : string) : Build :=
  {| Substitutions :=
       [ ("_FILENAME", Filename wheel);
         ("_URL", URL wheel);
         ("_REPO", repo);
         ("_TAG", tag);
         ("_SETUPTOOLS", setuptools);
         ("_WHEEL", wheelPin);
         ("_PACKAGEROOT", packageRoot) ];
     BuildSteps :=
       [ {| StepName := "gcr.io/cloud-builders/git";
            Entrypoint := "";
            Args := ["clone"; "--branch"; "${_TAG}"; "--single-branch";
                     "https://${_REPO}"; "repo"] |};
         {| StepName := "gcr.io/cloud-builders/curl";
            Entrypoint := "";
            Args := ["--output"; "${_FILENAME}"; "${_URL}"] |};
         {| StepName := "alpine";
            Entrypoint := "/bin/sh";
            Args := ["-c"; String.concat " && " buildScript] |};
         {| StepName := "gcr.io/" ++ project ++ "/transfer_metadata";
            Entrypoint := "";
            Args := ["${_FILENAME}"; "repo/${_PACKAGEROOT}/dist/${_FILENAME}"] |};
         {| StepName := "alpine";
            Entrypoint := "/bin/sh";
            Args := ["-c"; String.concat " && " diffScript] |} ] |}.

(** The program a step runs when it names no entry point: the one of its
    image. *)
Definition stepProgram (st : BuildStep) : string :=
  if String.eqb (Entrypoint st) "" then
    if String.eqb (StepName st) "gcr.io/cloud-builders/git" then "git"
    else if String.eqb (StepName st) "gcr.io/cloud-builders/curl" then "curl"
    else StepName st
  else Entrypoint st.

(** The command lines the builder runs for a build: for a step without a
    script, its program and arguments; for a [/bin/sh -c] step, the
    commands of its script; all after substitution. *)
Definition stepCommands (subs : list (string * string)) (script : list string)
    (st : BuildStep) : list string :=
  if String.eqb (Entrypoint st) "/bin/sh"
  then map (substitute subs) script
  else [String.concat " " (stepProgram st :: map (substitute subs) (Args st))].

Definition executedCommands (b : Build) : list string :=
  match BuildSteps b with
  | [clone; fetch; build; transfer; diff] =>
      (stepCommands (Substitutions b) [] clone
       ++ stepCommands (Substitutions b) [] fetch
       ++ stepCommands (Substitutions b) buildScript build
       ++ stepCommands (Substitutions b) [] transfer
       ++ stepCommands (Substitutions b) diffScript diff)%list
  | _ => []
  end.

(** Lines 280-286: the arguments written into the recipe. *)
Definition recipeArguments (tag repo python setuptools wheelPin packageRoot : string)
  : list string :=
  [ "git clone --branch=" ++ tag ++ " --single-branch " ++ repo;
    python ++ " -m venv /tmp/env";
    "/tmp/env/bin/pip3 install setuptools" ++ setuptools ++ " wheel" ++ wheelPin;
    "cd " ++ packageRoot;
    "/tmp/env/bin/" ++ python ++ " setup.py build bdist_wheel" ].

(** Lines 269-302: the statement of a rebuilt wheel. *)
Definition wheelStatement (wheel : Release)
    (repo tag packageRoot python setuptools wheelPin hash : string)
    (start finish : Z) : ProvenanceStatement :=
  {| Header :=
       {| StatementType := "https://in-toto.io/Statement/v0.1";
          PredicateType := "https://slsa.dev/provenance/v0.1";
          Subject_ :=
            [{| Name := Filename wheel;
                Digest := {[ "sha256" := SHA256 (digests wheel) ]} |}] |};
     Predicate :=
       {| Builder := {| ID := "https://demo.slsa.dev/rebuilder@v1" |};
          Recipe :=
            {| RecipeType := "https://slsa.github.com/workflow@v1";
               DefinedInMaterial := None;
               EntryPoint := packageRoot ++ "/setup.py";
               RecipeArguments :=
                 recipeArguments tag repo python setuptools wheelPin packageRoot;
               Environment := [] |};
          Metadata :=
            {| BuildStartedOn := start;
               BuildFinishedOn := finish;
               Completeness :=
                 {| CompleteArguments := true;
                    CompleteEnvironment := false;
                    CompleteMaterials := false |};
               Reproducible := false |};
          Materials :=
            [{| URI := "git+https://" ++ repo ++ "@" ++ tag;
                MaterialDigest := {[ "sha1" := hash ]} |}] |} |}.

(** What the loop over the wheel's entries keeps (lines 149-185). *)
Record Inspect := { metadata : string; wheelInfo : string; python : string }.

Section World.
(** Flags. *)
Variable project : string.
(** [regexp]'s [FindStringSubmatch] of a pattern on a string: empty when
    there is no match, else the match and its groups. *)
Variable FindStringSubmatch : string -> string -> list string.
(** The package index, the source host and the builder. *)
Variable pypiMetadata : string -> outcome PyPiProject.
Variable get : string -> outcome string.
Variable zipNewReader : string -> result (list WheelFile).
Variable ListTags : string -> string -> result (list string).
Variable GetContents : string -> string -> string -> string -> option string.
Variable GetCommitSHA1 : string -> string -> string -> result string.
Variable BuildsCreate : string -> Build -> result Operation.
(** The answers of [Operations.Get], in the order of the polls. *)
Variable polls : list (result Operation).
(** [time.Now()] at the start and after the last poll. *)
Variable start finish : Z.

Definition pthRe : string := "[^-]+-[^-]+-py(\d+\.\d+)-nspkg.pth".
Definition generatorRe : string := "Generator: bdist_wheel \(([\.\d]*)\)".
Definition repoRe : string := "github.com/([^/]*)/([^/]*)".

(** One entry of the wheel (lines 152-184).  A [break] in a [switch]
    leaves the [switch] only. *)
Definition inspectFile (st : Inspect) (f : WheelFile) : outcome Inspect :=
  if HasSuffix (wName f) ".dist-info/METADATA" then
    do bytes <- orFatal (wData f) in
    Return {| metadata := bytes; wheelInfo := wheelInfo st; python := python st |}
  else if HasSuffix (wName f) ".dist-info/WHEEL" then
    do bytes <- orFatal (wData f) in
    Return {| metadata := metadata st; wheelInfo := bytes; python := python st |}
  else if HasSuffix (wName f) "-nspkg.pth" then
    match FindStringSubmatch pthRe (wName f) with
    | [] => Return st
    | segs =>
        match nth_error segs 1 with
        | None => Fatal "index out of range"
        | Some version =>
            if negb (String.eqb version "3.9")
            then Error "Unsupported python version"
            else Return {| metadata := metadata st; wheelInfo := wheelInfo st;
                           python := "python" ++ version |}
        end
    end
  else Return st.

Fixpoint inspectFiles (st : Inspect) (files : list WheelFile) : outcome Inspect :=
  match files with
  | [] => Return st
  | f :: rest => do st' <- inspectFile st f in inspectFiles st' rest
  end.

(** Lines 247-253: poll until the operation is done. *)
Fixpoint waitDone (op : Operation) (answers : list (result Operation))
  : outcome Operation :=
  if Done op then Return op
  else match answers with
       | [] => Blocked
       | a :: rest => do op' <- orFatal a in waitDone op' rest
       end.

Definition rebuildWheel (wheel : Release) (pkg repo tag packageRoot : string)
  : outcome ProvenanceStatement :=
  do origWhl <- get (URL wheel) in
  do files <- orFatal (zipNewReader origWhl) in
  do st <- inspectFiles {| metadata := ""; wheelInfo := ""; python := "python3.9" |}
             files in
  if (String.length (metadata st) =? 0)%nat then Fatal "No METADATA found"
  else
    match nth_error (FindStringSubmatch generatorRe (wheelInfo st)) 1 with
    | None => Fatal "index out of range"
    | Some generator =>
        let wheelPin := "==" ++ generator in
        let setuptools := setuptoolsPin (metadata st) in
        do op <- orReturn
                   (BuildsCreate project
                      (wheelBuild project wheel repo tag setuptools wheelPin
                         packageRoot)) in
        do op' <- waitDone op polls in
        match OpError op' with
        | Some errTxt => Error errTxt
        | None =>
            let parts := Split repo "/" in
            match nth_error parts 1, nth_error parts 2 with
            | Some owner, Some name =>
                do hash <- orFatal (GetCommitSHA1 owner name tag) in
                Return (wheelStatement wheel repo tag packageRoot (python st)
                          setuptools wheelPin hash start finish)
            | _, _ => Fatal "index out of range"
            end
        end
    end.

(** Lines 127-138: the rebuilds, in order; the first failure ends them. *)
Fixpoint rebuildAll (pkg repo tag packageDir version : string)
    (rs : list Release) (stmts : list ProvenanceStatement)
  : outcome (list ProvenanceStatement) :=
  match rs with
  | [] => Return stmts
  | r :: rest =>
      match getReleaseType (Filename r) with
      | wheelAny =>
          do prov <- rebuildWheel r pkg repo tag packageDir in
          rebuildAll pkg repo tag packageDir version rest (stmts ++ [prov])%list
      | _ => Error "Release type not supported"
      end
  end.

Definition Rebuild (pkg repo : string) (opt : RebuilderOptions)
  : outcome (list ProvenanceStatement) :=
  do proj <- pypiMetadata pkg in
  let version := resolveVersion proj (Version opt) in
  let rs := toRebuild (releasesOf proj version) (Types opt) in
  if (List.length rs =? 0)%nat then Error "No release to rebuild"
  else
    let groups := FindStringSubmatch repoRe repo in
    match nth_error groups 1, nth_error groups 2 with
    | Some repoOwner, Some repoName =>
        match tagRegexp version with
        | None => Fatal "regexp: pattern outside the modelled fragment"
        | Some re =>
            do tags <- orReturn (ListTags repoOwner repoName) in
            let tag := selectTag re tags in
            if String.eqb tag "" then Error "No tag found"
            else
              let packageDir :=
                match PackageRoot opt with
                | None => "."
                | Some root => if String.eqb root "" then "." else root
                end in
              match GetContents repoOwner repoName
                      (Join [packageDir; "setup.py"]) tag with
              | None => Error "No setup.py file found in package root"
              | Some _ => rebuildAll pkg repo tag packageDir version rs []
              end
        end
    | _, _ => Fatal "index out of range"
    end.
End World.

End Rebuilder.

(** ** Policy store (policy.go) *)

Module PolicyStore.
Import GoStrings Filepath Policy.
Local Open Scope outcome_scope.

(** The file tree of a checked-out revision (an in-memory file system). *)
#[warnings="-register-all"] Inductive node : Type :=
| File (content : string)
| Dir (entries : list (string * node)).

Definition IsDir (n : node) : bool :=
  match n with Dir _ => true | File _ => false end.

Fixpoint child (name : string) (entries : list (string * node)) : option node :=
  match entries with
  | [] => None
  | (n, c) :: rest => if String.eqb n name then Some c else child name rest
  end.

Fixpoint lookupNode (n : node) (elems : list string) : option node :=
  match elems with
  | [] => Some n
  | e :: rest =>
      match n with
      | File _ => None
      | Dir entries =>
          match child e entries with
          | None => None
          | Some c => lookupNode c rest
          end
      end
  end.

(** The elements of a path below the root of the tree. *)
Definition elemsOf (path : string) : list string :=
  let c := Clean path in
  if String.eqb c "." then [] else Split c Separator.

(** [gitfs.ReadDir(dir)] *)
Definition ReadDir (fs : node) (dir : string) : result (list (string * node)) :=
  match lookupNode fs (elemsOf dir) with
  | Some (Dir entries) => Ok entries
  | _ => Err "file does not exist"
  end.

(** [gitfs.Open(path)] followed by [ioutil.ReadAll]. *)
Definition ReadFile (fs : node) (path : string) : result string :=
  match lookupNode fs (elemsOf path) with
  | Some (File content) => Ok content
  | _ => Err "file does not exist"
  end.

(** The number of nodes of a tree: a bound on the directories the walk
    can visit. *)
Fixpoint size (n : node) : nat :=
  match n with
  | File _ => 1
  | Dir entries =>
      S ((fix sizes (es : list (string * node)) : nat :=
            match es with
            | [] => 0
            | (_, c) :: rest => size c + sizes rest
            end) entries)
  end.

(** Lines 94-103: one entry of a directory listing. *)
Definition visit (dir : string) (st : list string * list string)
    (f : string * node) : list string * list string :=
  let '(dirs, paths) := st in
  if IsDir (snd f) then ((dirs ++ [Join [dir; fst f]])%list, paths)
  else if String.eqb (fst f) "policy.yaml"
       then (dirs, (paths ++ [Join [dir; fst f]])%list)
       else (dirs, paths).

(** Lines 87-104: the loop over the stack of directories; each round takes
    the last directory off the stack. *)
Fixpoint walk (rounds : nat) (fs : node) (dirs paths : list string)
  : outcome (list string) :=
  match dirs with
  | [] => Return paths
  | _ :: _ =>
      match rounds with
      | O => Blocked
      | S rounds' =>
          let dir := List.last dirs "" in
          let dirs' := removelast dirs in
          do files <- orReturn (ReadDir fs dir) in
          let '(dirs'', paths') := fold_left (visit dir) files (dirs', paths) in
          walk rounds' fs dirs'' paths'
      end
  end.

Section World.
(** Flags. *)
Variable policyRepoOwner policyRepoName policyRepoDir : string.
(** [git.Clone] of a branch of a repository, [GetContents] of a file at a
    revision, the YAML decoder and the hash. *)
Variable Clone : string -> string -> result node.
Variable GetContent : string -> string -> string -> string -> result string.
Variable yamlUnmarshal : string -> result Policy.
Variable sha256hex : string -> string.

Definition withIdentity (np : Policy) (content scope pkg : string) : Policy :=
  {| Repo := Repo np;
     buildMonitor := buildMonitor np;
     rebuilder := rebuilder np;
     provenanceUpload := provenanceUpload np;
     PolicyDigest := sha256hex content;
     Scope := scope;
     Package := pkg |}.

Definition fetchPolicy (scope pkg ref : string) : result Policy :=
  match GetContent policyRepoOwner policyRepoName
          (Join [policyRepoDir; scope; pkg; "policy.yaml"]) ref with
  | Err e => Err e
  | Ok content =>
      match yamlUnmarshal content with
      | Err e => Err e
      | Ok np => Ok (withIdentity np content scope pkg)
      end
  end.

(** Lines 106-122: one policy for each path found. *)
Fixpoint parsePolicies (fs : node) (paths : list string)
    (policies : list Policy) : outcome (list Policy) :=
  match paths with
  | [] => Return policies
  | path :: rest =>
      do content <- orReturn (ReadFile fs path) in
      do np <- orReturn (yamlUnmarshal content) in
      let parts := Split path Separator in
      match nth_error parts 0, nth_error parts 1 with
      | Some scope, Some pkg =>
          parsePolicies fs rest
            (policies ++ [withIdentity np content scope pkg])%list
      | _, _ => Fatal "index out of range"
      end
  end.

Definition fetchPolicies (ref : string) : outcome (list Policy) :=
  do gitfs <- orReturn
                (Clone ("https://github.com/" ++ policyRepoOwner ++ "/"
                        ++ policyRepoName ++ ".git") ref) in
  do paths <- walk (size gitfs) gitfs [policyRepoDir] [] in
  parsePolicies gitfs paths [].
End World.

End PolicyStore.

(** ** Upload handler (main.go) *)

Module Upload.
Import GoStrings Policy.
Local Open Scope outcome_scope.

Record Request := {
  Authorization : string;
  formScope : string;
  formPkg : string;
  formVersion : string;
  formProvenance : string
}.

(** A value of a claim: a string, or anything else. *)
Inductive claim : Type :=
| ClaimString (s : string)
| ClaimOther.

(** What the handler answers: [http.Error(rw, msg, code)], or the document
    it stores. *)
Record Document := {
  docKey : string;
  docPackage : string;
  docVersion : string;
  docRaw : string;
  docDSSE : string
}.

Inductive reply : Type :=
| HttpError (msg : string) (code : Z)
| Stored (doc : Document).

Section World.
Variable ParseUnverified : string -> result (gmap string claim).
Variable fetchPolicy : string -> string -> string -> result Policy.
(** Decoding and canonical encoding of the uploaded statement, the
    signer, the encoder of the envelope and the store. *)
Variable Statement Envelope : Type.
Variable jsonUnmarshal : string -> result Statement.
Variable EncodeCanonical : Statement -> result string.
Variable NewDSSE : string -> result Envelope.
Variable jsonMarshal : Envelope -> result string.
Variable firestoreNewClient : result unit.
Variable firestoreSet : Document -> result unit.

Definition authenticatedUser (r : Request) : outcome (string * string) :=
  let assertion := TrimPrefix (Authorization r) "bearer " in
  if (String.length assertion =? 0)%nat then Error "No auth header found"
  else
    do claims <- orReturn (ParseUnverified assertion) in
    match claims !! "email", claims !! "sub" with
    | Some (ClaimString email), Some (ClaimString userID) =>
        Return (email, userID)
    | _, _ => Fatal "interface conversion: interface {} is not string"
    end.

(** Lines 50-53: [match = match || authorized == email] over the list. *)
Definition authorized (builders : list string) (email : string) : bool :=
  fold_left (fun m a => m || String.eqb a email) builders false.

(** Lines 58-91: what follows the authorization. *)
Definition store (req : Request) : outcome reply :=
  match jsonUnmarshal (formProvenance req) with
  | Err _ => Return (HttpError "Malformed provenance" 400)
  | Ok stmt =>
      match EncodeCanonical stmt with
      | Err _ => Return (HttpError "Failed to canonicalize provenance" 400)
      | Ok stmtBytes =>
          do dsse <- orFatal (NewDSSE stmtBytes) in
          do dsseBytes <- orFatal (jsonMarshal dsse) in
          match firestoreNewClient with
          | Err _ => Return (HttpError "Internal Error" 500)
          | Ok _ =>
              let doc := {| docKey := formPkg req ++ "!" ++ formVersion req;
                            docPackage := formPkg req;
                            docVersion := formVersion req;
                            docRaw := stmtBytes;
                            docDSSE := dsseBytes |} in
              match firestoreSet doc with
              | Err _ => Return (HttpError "Internal Error" 500)
              | Ok _ => Return (Stored doc)
              end
          end
      end
  end.

Definition HandleUpload (req : Request) : outcome reply :=
  match authenticatedUser req with
  | Error _ => Return (HttpError "Authorization parse failed" 403)
  | Fatal m => Fatal m
  | Blocked => Blocked
  | Return (email, _) =>
      match fetchPolicy (formScope req) (formPkg req) "main" with
      | Err _ => Return (HttpError "Failed to fetch policy" 500)
      | Ok policy =>
          match provenanceUpload policy with
          | None =>
              Return (HttpError "Policy does not define provenance_upload" 400)
          | Some pu =>
              if negb (authorized (AuthorizedBuilders pu) email)
              then Return (HttpError "Builder not authorized" 403)
              else store req
          end
      end
  end.
End World.


End Upload.

(** ** The release classification as section 4.2 words it *)

Module ReleaseSpec.
Import GoStrings Release.

(** The platform tag is the last [-] separated segment before the
    extension, taken whole. *)
Definition classify (filename : string) : ReleaseType :=
  if HasSuffix filename ".tar.gz" then sourceGztar
  else if HasSuffix filename ".zip" then sourceZip
  else if HasSuffix filename ".whl" then
    platformType
      (List.last (Split (TrimSuffix filename ".whl") "-") EmptyString)
  else unknownReleaseType.

End ReleaseSpec.

(** ** The tag selection as section 4.3 words it *)

Module RebuildSpec.

Definition isDigit (c : ascii) : bool :=
  (N_of_ascii "0" <=? N_of_ascii c)%N && (N_of_ascii c <=? N_of_ascii "9")%N.

(** The bytes the pattern bars after the version: the first letters of the
    pre-release, development and post-release markers, and the two
    separators. *)
Definition isMarker (c : ascii) : bool :=
  existsb (Ascii.eqb c) ["a"; "b"; "d"; "p"; "-"; "."]%char.

(** A tag is accepted for a version when it is an optional prefix ending
    in a byte that is no digit, then the version itself, then nothing or a
    suffix whose first byte is no marker. *)
Definition tagAccepted (version tag : string) : Prop :=
  exists pre suf,
    tag = pre ++ version ++ suf
    /\ (pre = "" \/ exists q c, pre = q ++ String c "" /\ isDigit c = false)
    /\ (suf = "" \/ exists c r, suf = String c r /\ isMarker c = false).

(** A version in which every byte stands for itself in a pattern. *)
Definition plainVersion (version : string) : bool :=
  forallb (fun c => negb (Ascii.eqb c ".") && negb (Regexp.isMeta c))
    (list_ascii_of_string version).

(** The line feed, which the wildcard of a pattern does not match. *)
Definition LF : ascii := "010"%char.

End RebuildSpec.

(** ** Views of the build monitor's loops *)

Module MonitorViews.
Import GoStrings Release InToto Policy Monitor.


(** The last element of a list, if any. *)
Definition lastOf {A : Type} (l : list A) : option A :=
  List.last (map Some l) None.

(** Whether an archive entry is kept as a subject: some pattern matches its
    name and the release file of its name was uploaded in the run's
    window. *)
Definition keptEntry (matchB : string -> string -> bool) (r : WorkflowRun)
    (releasedFiles : gmap string Z) (spec : ArtifactSpec) (f : ZipFile) : bool :=
  existsb (fun pattern => matchB pattern (zName f)) (Patterns spec)
  && fileTimely r releasedFiles (zName f).

End MonitorViews.

(** ** The decoding table of the base64 alphabet *)

Module DSSEViews.
Import DSSE.

(** The position of a byte in a string, counted from [i]. *)
Fixpoint indexFrom (c : ascii) (s : string) (i : N) : option N :=
  match s with
  | EmptyString => None
  | String d s' => if Ascii.eqb c d then Some i else indexFrom c s' (N.succ i)
  end.

(** [decodeMap] of the standard encoding: the value of an alphabet byte. *)
Definition decodeMap (c : ascii) : option N := indexFrom c encodeStd 0.

(** The values of six bits. *)
Definition sextets : list N := map N.of_nat (seq 0 64).

End DSSEViews.

(** ** Views on the policy tree *)

Module PolicyViews.
Import GoStrings Filepath PolicyStore.

(** The names a git tree gives its entries: not empty, not [.] or [..],
    and without a separator. *)
Fixpoint noSeparator (s : string) : bool :=
  match s with
  | EmptyString => true
  | String a s' => negb (Ascii.eqb a Separator) && noSeparator s'
  end.

Definition plainName (name : string) : bool :=
  negb (String.eqb name "") && negb (String.eqb name ".")
  && negb (String.eqb name "..") && noSeparator name.

Fixpoint distinct (names : list string) : bool :=
  match names with
  | [] => true
  | n :: rest => negb (existsb (String.eqb n) rest) && distinct rest
  end.

(** A tree in which every directory lists plain names, each once. *)
Fixpoint wellFormed (n : node) : bool :=
  match n with
  | File _ => true
  | Dir entries =>
      forallb plainName (map fst entries) && distinct (map fst entries)
      && (fix all (es : list (string * node)) : bool :=
            match es with
            | [] => true
            | (_, c) :: rest => wellFormed c && all rest
            end) entries
  end.

(** The path of the directory or file reached from the root of the tree
    by a list of names. *)
Definition pathOf (elems : list string) : string :=
  match elems with
  | [] => "."
  | _ :: _ => String.concat "/" elems
  end.

(** The files named [policy.yaml] that a directory lists. *)
Definition ownPolicies (entries : list (string * node)) (elems : list string)
  : list (list string) :=
  map (fun f => (elems ++ [fst f])%list)
    (List.filter (fun f => negb (IsDir (snd f)) && String.eqb (fst f) "policy.yaml")
       entries).

(** The files named [policy.yaml] in and below a node reached by
    [elems]: those of the directory itself, then those below its
    directories, the directory listed last first. *)
Fixpoint policyFiles (n : node) (elems : list string) : list (list string) :=
  match n with
  | File _ => []
  | Dir entries =>
      (ownPolicies entries elems
       ++ (fix below (es : list (string * node)) : list (list string) :=
             match es with
             | [] => []
             | (name, c) :: rest =>
                 below rest ++ policyFiles c (elems ++ [name])
             end) entries)%list
  end.

(** The number of directories in a tree. *)
Fixpoint dirCount (n : node) : nat :=
  match n with
  | File _ => 0
  | Dir entries =>
      S ((fix counts (es : list (string * node)) : nat :=
            match es with
            | [] => 0
            | (_, c) :: rest => dirCount c + counts rest
            end) entries)
  end.

(** The directories that a directory lists, with the names that reach
    them. *)
Definition subdirs (entries : list (string * node)) (elems : list string)
  : list (list string * node) :=
  map (fun f => ((elems ++ [fst f])%list, snd f))
    (List.filter (fun f => IsDir (snd f)) entries).

(** A stack of directories still to be read. *)
Definition stackPaths (stack : list (list string * node)) : list string :=
  map (fun s => pathOf (fst s)) stack.

Definition stackFiles (stack : list (list string * node))
  : list (list string) :=
  concat (map (fun s => policyFiles (snd s) (fst s)) (rev stack)).

Definition stackCount (stack : list (list string * node)) : nat :=
  list_sum (map (fun s => dirCount (snd s)) stack).

(** A directory on the stack: plain names lead to it from the root. *)
Definition good (fs : node) (s : list string * node) : Prop :=
  Forall (fun e => plainName e = true) (fst s)
  /\ lookupNode fs (fst s) = Some (snd s)
  /\ IsDir (snd s) = true
  /\ wellFormed (snd s) = true.

(** What the bulk fetch makes of the file reached by [elems]: the decoded
    file with the hash of its content, and the first two names of its
    path. *)
Definition parsed (yamlUnmarshal : string -> result Policy.Policy)
    (sha256hex : string -> string) (fs : node) (elems : list string)
    (p : Policy.Policy) : Prop :=
  exists content np,
    lookupNode fs elems = Some (File content)
    /\ yamlUnmarshal content = Ok np
    /\ p = withIdentity sha256hex np content (nth 0 elems "") (nth 1 elems "").

End PolicyViews.

(** ** The archive metadata tool ([tools/transfer_metadata.go]) *)

Module TransferMetadata.
Local Open Scope outcome_scope.

(** [zip.File]: the name, the four header fields that the tool copies,
    and the rest of the entry (the other header fields and the content),
    which the tool does not look at. *)
Record File := {
  Name : string;
  Modified : Z;
  ModifiedTime : Z;
  ModifiedDate : Z;
  ExternalAttrs : Z;
  Entry : string
}.

(** [for _, f := range files { m[f.Name] = f }] *)
Definition indexByName (files : list File) : gmap string File :=
  fold_left (fun m f => <[Name f := f]> m) files ∅.

(** Lines 62-65. *)
Definition withMetadata (f s : File) : File :=
  {| Name := Name f;
     Modified := Modified s;
     ModifiedTime := ModifiedTime s;
     ModifiedDate := ModifiedDate s;
     ExternalAttrs := ExternalAttrs s;
     Entry := Entry f |}.

(** The entries of the destination are updated in place; the result is
    the list of the destination after the call. *)
Definition transferMetadata (source dest : list File) : list File :=
  let sourceByName := indexByName source in
  map (fun f =>
         match sourceByName !! Name f with
         | Some s => withMetadata f s
         | None => f
         end)
    dest.

(** Lines 80-86: one entry of the source. *)
Definition place (st : list File * gmap string File) (f : File)
  : list File * gmap string File :=
  match snd st !! Name f with
  | None => st
  | Some d => ((fst st ++ [d])%list, delete (Name f) (snd st))
  end.

Section World.
(** The order in which [range] goes through a map: any order. *)
Variable rangeMap : gmap string File -> list File.
(** The files, the archive reader and the archive writer. *)
Variable ReadFile : string -> result string.
Variable NewReader : string -> result (list File).
Variable Create : string -> result unit.
Variable Copy : File -> result unit.

Definition transferFileOrder (source dest : list File) : list File :=
  let destByName := indexByName dest in
  let st := fold_left place source ([], destByName) in
  (fst st ++ rangeMap (snd st))%list.

(** Lines 45-51: the entries written so far are threaded through. *)
Fixpoint copyAll (files written : list File) : outcome (list File) :=
  match files with
  | [] => Return written
  | f :: rest =>
      do _ <- orFatal (Copy f) in
      copyAll rest (written ++ [f])%list
  end.

(** [main]; the result is the list of entries written to the
    destination. *)
Definition main (args : list string) : outcome (list File) :=
  match args with
  | [_; sourcePath; destPath] =>
      do source <- orFatal (ReadFile sourcePath) in
      do sourceZip <- orFatal (NewReader source) in
      do dest <- orFatal (ReadFile destPath) in
      do destZip <- orFatal (NewReader dest) in
      let destZip' := transferMetadata sourceZip destZip in
      let destZip'' := transferFileOrder sourceZip destZip' in
      do _ <- orFatal (Create destPath) in
      copyAll destZip'' []
  | _ => Fatal "Usage: transfer_metadata <source> <dest>"
  end.
End World.

(** An entry's name is among the names of a list. *)
Definition named (files : list File) (n : string) : bool :=
  existsb (String.eqb n) (map Name files).

(** The last entry of a list that bears a name. *)
Definition lastNamed (files : list File) (n : string) : option File :=
  find (fun f => String.eqb (Name f) n) (rev files).

(** The order in which [range] goes through a map is some order of its
    values. *)
Definition anyOrder (rangeMap : gmap string File -> list File) : Prop :=
  forall m, Permutation (rangeMap m) (map snd (map_to_list m)).

(** A table in which every entry is kept under its own name. *)
Definition keyed (m : gmap string File) : Prop :=
  forall n f, m !! n = Some f -> Name f = n.

(** A name has an entry in a table. *)
Definition present (m : gmap string File) (n : string) : bool :=
  match m !! n with Some _ => true | None => false end.

End TransferMetadata.

(** ** The rebuild and monitor handlers (main.go) *)

Module Handlers.
Import GoStrings Filepath Release InToto Policy.
Local Open Scope outcome_scope.

(** [filepath.Base]: the last element of a path, trailing separators
    apart; [.] for the empty path and the separator for a path of
    separators only. *)
Fixpoint dropEmpty (elems : list string) : list string :=
  match elems with
  | e :: rest => if String.eqb e "" then dropEmpty rest else elems
  | [] => []
  end.

Definition Base (path : string) : string :=
  if String.eqb path "" then "."
  else match dropEmpty (rev (Split path Separator)) with
       | [] => "/"
       | e :: _ => e
       end.

(** The fields of the request's form that the two handlers read. *)
Record Form := {
  fScope : string;
  fPkg : string;
  fVersion : string;
  fRef : string
}.

(** The record of a run that is added to a collection. *)
Record RunRecord := {
  recPackage : string;
  recVersion : string;
  recStatus : string;
  recMessage : string;
  recPolicyVersion : string;
  recExecutorVersion : string;
  recStartTime : Z;
  recEndTime : Z
}.

Definition withStatus (r : RunRecord) (status message : string) : RunRecord :=
  {| recPackage := recPackage r;
     recVersion := recVersion r;
     recStatus := status;
     recMessage := message;
     recPolicyVersion := recPolicyVersion r;
     recExecutorVersion := recExecutorVersion r;
     recStartTime := recStartTime r;
     recEndTime := recEndTime r |}.

Definition withVersion (r : RunRecord) (version : string) : RunRecord :=
  {| recPackage := recPackage r;
     recVersion := version;
     recStatus := recStatus r;
     recMessage := recMessage r;
     recPolicyVersion := recPolicyVersion r;
     recExecutorVersion := recExecutorVersion r;
     recStartTime := recStartTime r;
     recEndTime := recEndTime r |}.

(** What a handler has done when it returns: the error it answered with
    [http.Error], if any; the attestation it has set; and the record it
    has handed to [Add], if any. *)
Record Effects := {
  answered : option (string * Z);
  attested : option Upload.Document;
  recorded : option RunRecord
}.

Definition answer (msg : string) (code : Z) : Effects :=
  {| answered := Some (msg, code); attested := None; recorded := None |}.

(** [strings.Split(filepath.Base(name), "-")[1]] *)
Definition versionField (name : string) : outcome string :=
  match nth_error (Split (Base name) "-") 1 with
  | Some v => Return v
  | None => Fatal "index out of range"
  end.

Section World.
Variable fetchPolicy : string -> string -> string -> result Policy.
Variable firestoreNewClient : result unit.
(** The two builders.  A list returned by [Rebuild] stands for the
    pointer to it, which is not nil. *)
Variable Rebuild :
  string -> string -> Rebuilder.RebuilderOptions ->
  outcome (list ProvenanceStatement).
Variable MonitorBuild :
  string -> string -> Monitor.MonitorOptions ->
  outcome (option ProvenanceStatement).
(** The encoder, the signer and the store. *)
Variable Envelope : Type.
Variable EncodeCanonical : ProvenanceStatement -> result string.
Variable NewDSSE : string -> result Envelope.
Variable jsonMarshal : Envelope -> result string.
Variable firestoreSet : Upload.Document -> result unit.
(** [K_REVISION] and the clock before and after the build. *)
Variable K_REVISION : string.
Variable startTime endTime : Z.

Definition newRecord (form : Form) (policy : Policy) : RunRecord :=
  {| recPackage := fPkg form;
     recVersion := fVersion form;
     recStatus := "";
     recMessage := "";
     recPolicyVersion := PolicyDigest policy;
     recExecutorVersion := K_REVISION;
     recStartTime := startTime;
     recEndTime := endTime |}.

(** The inner [switch] on the version, in both handlers. *)
Definition checkVersion (form : Form) (record : RunRecord)
    (builtVersion : string) : outcome RunRecord :=
  if String.eqb (fVersion form) "" then Return (withVersion record builtVersion)
  else if negb (String.eqb builtVersion (fVersion form))
       then Fatal "Requested version differs from actual"
       else Return record.

(** The encoding, the signature and the write of the attestation; [final]
    is what is done to the record after the write. *)
Definition attest (form : Form) (stmt : ProvenanceStatement)
    (record : RunRecord) (final : RunRecord -> RunRecord) : outcome Effects :=
  do stmtBytes <- orFatal (EncodeCanonical stmt) in
  do dsse <- orFatal (NewDSSE stmtBytes) in
  do dsseBytes <- orFatal (jsonMarshal dsse) in
  let doc := {| Upload.docKey := fPkg form ++ "!" ++ recVersion record;
                Upload.docPackage := fPkg form;
                Upload.docVersion := recVersion record;
                Upload.docRaw := stmtBytes;
                Upload.docDSSE := dsseBytes |} in
  match firestoreSet doc with
  | Err _ => Return (answer "Internal Error" 500)
  | Ok _ =>
      Return {| answered := None;
                attested := Some doc;
                recorded := Some (final record) |}
  end.

Definition HandleRebuild (form : Form) : outcome Effects :=
  let ref := if String.eqb (fRef form) "" then "main" else fRef form in
  match fetchPolicy (fScope form) (fPkg form) ref with
  | Err _ => Return (answer "Failed to fetch policy" 500)
  | Ok policy =>
      match rebuilder policy with
      | None => Return (answer "Policy does not define rebuilder" 400)
      | Some rb =>
          match firestoreNewClient with
          | Err _ => Return (answer "Internal Error" 500)
          | Ok _ =>
              let record := newRecord form policy in
              match
                Rebuild (fPkg form) (Repo policy)
                  {| Rebuilder.Types := [wheelAny];
                     Rebuilder.PackageRoot := Some (PackageRoot rb);
                     Rebuilder.Version := Some (fVersion form) |}
              with
              | Blocked => Blocked
              | Fatal m => Fatal m
              | Error e =>
                  if HasPrefix e "Rebuild contained diffs"
                  then Return {| answered := Some ("Rebuild contained diffs", 409%Z);
                                 attested := None;
                                 recorded := Some (withStatus record "failed" e) |}
                  else Return {| answered := Some ("Failed to rebuild", 500%Z);
                                 attested := None;
                                 recorded :=
                                   Some (withStatus record "error"
                                           "Failed to rebuild") |}
              | Return stmts =>
                  (* [stmts == nil && len( *stmts) == 0] is false: the
                     pointer is not nil. *)
                  if negb (List.length stmts =? 1)%nat
                  then Fatal "Unexpected returned statements"
                  else
                    match stmts with
                    | [] => Fatal "index out of range"
                    | stmt :: _ =>
                        match Subjects stmt with
                        | [] => Fatal "index out of range"
                        | subj :: _ =>
                            do builtVersion <- versionField (Name subj) in
                            do record' <- checkVersion form record builtVersion in
                            attest form stmt record'
                              (fun r => withStatus r "success" (recMessage r))
                        end
                    end
              end
          end
      end
  end.

(** Lines 253-260: the version in the name of the first wheel among the
    subjects, or the empty string. *)
Definition builtVersionOf (subjects : list Subject) : outcome string :=
  match find (fun subj => HasSuffix (Name subj) ".whl") subjects with
  | None => Return ""
  | Some subj => versionField (Name subj)
  end.

Definition HandleMonitor (form : Form) : outcome Effects :=
  let ref := if String.eqb (fRef form) "" then "main" else fRef form in
  match fetchPolicy (fScope form) (fPkg form) ref with
  | Err _ => Return (answer "Failed to fetch policy" 500)
  | Ok policy =>
      match buildMonitor policy with
      | None => Return (answer "Policy does not define build_monitor" 400)
      | Some bm =>
          match firestoreNewClient with
          | Err _ => Return (answer "Internal Error" 500)
          | Ok _ =>
              let record := newRecord form policy in
              match
                MonitorBuild (fPkg form) (Repo policy)
                  {| Monitor.Options := Actions bm;
                     Monitor.Version := Some (fVersion form) |}
              with
              | Blocked => Blocked
              | Fatal m => Fatal m
              | Error _ =>
                  Return {| answered := Some ("Failed to monitor build", 500%Z);
                            attested := None;
                            recorded :=
                              Some (withStatus record "error"
                                      "Failed to monitor build") |}
              | Return None =>
                  Return {| answered := Some ("No build found", 404%Z);
                            attested := None;
                            recorded :=
                              Some (withStatus record "failure" "No build found") |}
              | Return (Some stmt) =>
                  do builtVersion <- builtVersionOf (Subjects stmt) in
                  do record' <- checkVersion form record builtVersion in
                  attest form stmt record' (fun r => r)
              end
          end
      end
  end.
End World.

End Handlers.

(** ** Fixtures: concrete services and inputs for the examples *)

Module Fixtures.
Import GoStrings Release InToto Policy.

(** A signer that answers the encoding of the payload [abc] only. *)
Definition paeOnly (req : DSSE.SignRequest) : result string :=
  if String.eqb (DSSE.reqData req)
       "DSSEv1 28 application/vnd.in-toto+json 4 YWJj"
  then Ok "sig" else Err "unexpected bytes".

(** *** A package, a workflow and one run for the build monitor *)

Definition release (name : string) (uploaded : Z) : Release :=
  {| digests := {| MD5 := ""; SHA256 := "" |};
     Filename := name;
     PackageType := "";
     PythonVersion := "py3";
     URL := "https://files.example/" ++ name;
     UploadTime := uploaded |}.

(** Three files of version 1.0, uploaded at 150, 160 and 500. *)
Definition project : PyPiProject :=
  {| LatestVersion := "1.0";
     Releases :=
       {[ "1.0" := [ release "b-1.0-py3-none-any.whl" 150;
                     release "a-1.0.tar.gz" 160;
                     release "c-1.0.zip" 500 ] ]} |}.

Definition workflows : Monitor.Workflows :=
  {| Monitor.TotalCount := 1;
     Monitor.WorkflowList :=
       [{| Monitor.wfID := Some 7%Z;
           Monitor.wfName := "release";
           Monitor.wfPath := ".github/workflows/release.yml" |}] |}.

(** A run from 100 to 200. *)
Definition run1 : Monitor.WorkflowRun :=
  {| Monitor.runID := 1;
     Monitor.CreatedAt := 100;
     Monitor.UpdatedAt := 200;
     Monitor.HeadRepositoryHTMLURL := "https://github.com/o/n";
     Monitor.HeadBranch := "main";
     Monitor.HeadSHA := "c0ffee" |}.

Definition dist : Monitor.Artifact :=
  {| Monitor.artName := "dist";
     Monitor.Expired := false;
     Monitor.ArchiveDownloadURL := "https://api.example/dist.zip" |}.

Definition archive : list Monitor.ZipFile :=
  [ {| Monitor.zName := "b-1.0-py3-none-any.whl"; Monitor.zData := Return "B" |};
    {| Monitor.zName := "c-1.0.zip"; Monitor.zData := Return "C" |};
    {| Monitor.zName := "a-1.0.tar.gz"; Monitor.zData := Return "A" |} ].

Definition monitorOptions : Monitor.MonitorOptions :=
  {| Monitor.Options :=
       {| Workflow := "release";
          Artifacts := [{| SpecName := "dist"; Patterns := ["*"] |}];
          RequireSucceeded := None |};
     Monitor.Version := None |}.

(** Stand-ins for the pattern matcher and the hash. *)
Definition matchStar (pattern name : string) : result bool :=
  Ok (String.eqb pattern "*" || String.eqb pattern name).
Definition tagged (content : string) : string := "sha256:" ++ content.

(** A run from 300 to 400, in which nothing was uploaded, and a run whose
    jobs cannot be listed. *)
Definition run0 : Monitor.WorkflowRun :=
  {| Monitor.runID := 0;
     Monitor.CreatedAt := 300;
     Monitor.UpdatedAt := 400;
     Monitor.HeadRepositoryHTMLURL := "https://github.com/o/n";
     Monitor.HeadBranch := "main";
     Monitor.HeadSHA := "decade" |}.

Definition run2 : Monitor.WorkflowRun :=
  {| Monitor.runID := 2;
     Monitor.CreatedAt := 100;
     Monitor.UpdatedAt := 200;
     Monitor.HeadRepositoryHTMLURL := "https://github.com/o/n";
     Monitor.HeadBranch := "main";
     Monitor.HeadSHA := "facade" |}.

Definition jobsOf (owner repo : string) (id : Z) : result (list Monitor.WorkflowJob) :=
  if (id =? 2)%Z then Err "unavailable" else Ok [].

Definition releasedFiles : gmap string Z :=
  Monitor.releasedFilesOf (releasesOf project "1.0").

Definition releaseWorkflow : Monitor.github_Workflow :=
  Monitor.findWorkflow "release" (Monitor.WorkflowList workflows).

(** The build monitor on a listing of runs, with a given answer to the
    download of an archive. *)
Definition monitorWith (runs : list Monitor.WorkflowRun)
    (fetch : Monitor.Artifact -> result (list Monitor.ZipFile))
  : outcome (option ProvenanceStatement) :=
  Monitor.MonitorBuild
    (fun _ => Return project)
    (fun _ _ => Ok workflows)
    (fun _ _ _ => Ok runs)
    jobsOf
    (fun _ _ _ => [dist])
    fetch matchStar tagged
    "pkg" "github.com/o/n" monitorOptions.

Definition examineWith (fetch : Monitor.Artifact -> result (list Monitor.ZipFile))
    (r : Monitor.WorkflowRun) : outcome (option ProvenanceStatement) :=
  Monitor.examineRun jobsOf (fun _ _ _ => [dist]) fetch matchStar tagged
    "o" "n" monitorOptions releasedFiles releaseWorkflow r.

(** The archive downloads, or the download is refused. *)
Definition downloads (a : Monitor.Artifact) : result (list Monitor.ZipFile) :=
  Ok archive.
Definition refused (a : Monitor.Artifact) : result (list Monitor.ZipFile) :=
  Err "Bad response code".

(** *** A wheel of idna 3.3 and the services of a rebuild that succeeds *)

Definition idnaWheel : Release :=
  {| digests := {| MD5 := "md5-of-index"; SHA256 := "sha256-of-index" |};
     Filename := "idna-3.3-py3-none-any.whl";
     PackageType := "bdist_wheel";
     PythonVersion := "py3";
     URL := "https://files.example/idna-3.3-py3-none-any.whl";
     UploadTime := 0 |}.

Definition idnaProject : PyPiProject :=
  {| LatestVersion := "3.3"; Releases := {[ "3.3" := [idnaWheel] ]} |}.

Definition idnaFiles : list Rebuilder.WheelFile :=
  [ {| Rebuilder.wName := "idna-3.3.dist-info/METADATA";
       Rebuilder.wData := Ok "Metadata-Version: 2.1 License-File: LICENSE.md" |};
    {| Rebuilder.wName := "idna-3.3.dist-info/WHEEL";
       Rebuilder.wData := Ok "Generator: bdist_wheel (0.37.0)" |} ].

(** The answers of the pattern library on the strings of this rebuild. *)
Definition submatch (pattern s : string) : list string :=
  if String.eqb pattern Rebuilder.generatorRe
  then ["Generator: bdist_wheel (0.37.0)"; "0.37.0"]
  else if String.eqb pattern Rebuilder.repoRe
       then ["github.com/kjd/idna"; "kjd"; "idna"]
       else [].

Definition pending : CloudBuild.Operation :=
  {| CloudBuild.OpName := "operations/build-1";
     CloudBuild.Done := false;
     CloudBuild.OpError := None |}.
Definition finished : CloudBuild.Operation :=
  {| CloudBuild.OpName := "operations/build-1";
     CloudBuild.Done := true;
     CloudBuild.OpError := None |}.

Definition idnaBuild : CloudBuild.Build :=
  Rebuilder.wheelBuild "demo" idnaWheel "github.com/kjd/idna" "v3.3"
    "==58.3.0" "==0.37.0" ".".

Definition rebuildIdnaWheel : outcome ProvenanceStatement :=
  Rebuilder.rebuildWheel "demo" submatch
    (fun _ => Return "bytes of the published wheel")
    (fun _ => Ok idnaFiles)
    (fun _ _ _ => Ok "sha1-of-tag")
    (fun _ _ => Ok pending)
    [Ok pending; Ok finished]
    10 20
    idnaWheel "idna" "github.com/kjd/idna" "v3.3" ".".

Definition rebuildIdna (tags : list string) : outcome (list ProvenanceStatement) :=
  Rebuilder.Rebuild "demo" submatch
    (fun _ => Return idnaProject)
    (fun _ => Return "bytes of the published wheel")
    (fun _ => Ok idnaFiles)
    (fun _ _ => Ok tags)
    (fun _ _ _ _ => Some "setup.py")
    (fun _ _ _ => Ok "sha1-of-tag")
    (fun _ _ => Ok pending)
    [Ok pending; Ok finished]
    10 20
    "idna" "github.com/kjd/idna"
    {| Rebuilder.Types := [wheelAny];
       Rebuilder.PackageRoot := Some "";
       Rebuilder.Version := Some "3.3" |}.

(** *** A policy repository with its policies under [policy/] *)

Definition idnaPolicyText : string := "repo: github.com/kjd/idna".

Definition policyTree : PolicyStore.node :=
  PolicyStore.Dir
    [ ("README.md", PolicyStore.File "demo");
      ("policy",
       PolicyStore.Dir
         [ ("pypi",
            PolicyStore.Dir
              [ ("idna",
                 PolicyStore.Dir
                   [ ("policy.yaml", PolicyStore.File idnaPolicyText) ]) ]) ]) ].

(** The same policies at the root of the repository. *)
Definition rootTree : PolicyStore.node :=
  PolicyStore.Dir
    [ ("pypi",
       PolicyStore.Dir
         [ ("idna",
            PolicyStore.Dir
              [ ("policy.yaml", PolicyStore.File idnaPolicyText) ]) ]) ].

(** A decoder that keeps the text of the document as the repository. *)
Definition decode (content : string) : result Policy :=
  Ok {| Repo := content;
        buildMonitor := None;
        rebuilder := None;
        provenanceUpload := None;
        PolicyDigest := "";
        Scope := "";
        Package := "" |}.

Definition fetchAll (tree : PolicyStore.node) (policyRepoDir : string)
  : outcome (list Policy) :=
  PolicyStore.fetchPolicies "slsa-framework" "provenance-architecture-demo"
    policyRepoDir (fun _ _ => Ok tree) decode tagged "main".

Definition fetchOne (tree : PolicyStore.node) (policyRepoDir scope pkg : string)
  : result Policy :=
  PolicyStore.fetchPolicy "slsa-framework" "provenance-architecture-demo"
    policyRepoDir (fun _ _ path _ => PolicyStore.ReadFile tree path)
    decode tagged scope pkg "main".

(** *** An upload by a builder that the policy lists *)

Definition aliceClaims : gmap string Upload.claim :=
  {[ "email" := Upload.ClaimString "alice@example.com";
     "sub" := Upload.ClaimString "1001" ]}.

Definition malloryClaims : gmap string Upload.claim :=
  {[ "email" := Upload.ClaimString "mallory@example.com";
     "sub" := Upload.ClaimString "1002" ]}.

Definition parseToken (assertion : string) : result (gmap string Upload.claim) :=
  if String.eqb assertion "token-of-alice" then Ok aliceClaims
  else if String.eqb assertion "token-of-mallory" then Ok malloryClaims
  else if String.eqb assertion "token-without-email" then Ok ∅
  else Err "token contains an invalid number of segments".

Definition uploadPolicy : Policy :=
  {| Repo := "github.com/kjd/idna";
     buildMonitor := None;
     rebuilder := None;
     provenanceUpload :=
       Some {| AuthorizedBuilders := ["bob@example.com"; "alice@example.com"] |};
     PolicyDigest := "";
     Scope := "pypi";
     Package := "idna" |}.

Definition uploadRequest (authorization : string) : Upload.Request :=
  {| Upload.Authorization := authorization;
     Upload.formScope := "pypi";
     Upload.formPkg := "idna";
     Upload.formVersion := "3.3";
     Upload.formProvenance := "{}" |}.

Definition handleUpload (authorization : string) : outcome Upload.reply :=
  Upload.HandleUpload parseToken (fun _ _ _ => Ok uploadPolicy)
    unit unit
    (fun _ => Ok tt) (fun _ => Ok "canonical") (fun _ => Ok tt)
    (fun _ => Ok "envelope") (Ok tt) (fun _ => Ok tt)
    (uploadRequest authorization).

(** *** A wheel with a namespace package file for another interpreter *)

Definition nspkgFiles : list Rebuilder.WheelFile :=
  idnaFiles
  ++ [ {| Rebuilder.wName := "ns_pkg-1.0-py3.10-nspkg.pth";
          Rebuilder.wData := Ok "import sys" |} ].

Definition submatchNspkg (pattern s : string) : list string :=
  if String.eqb pattern Rebuilder.pthRe
  then ["ns_pkg-1.0-py3.10-nspkg.pth"; "3.10"]
  else submatch pattern s.

(** A project whose only release of the version is built for Python 2. *)
Definition py2Project : PyPiProject :=
  {| LatestVersion := "3.3";
     Releases :=
       {[ "3.3" := [ {| digests := {| MD5 := ""; SHA256 := "" |};
                        Filename := "idna-3.3-py2-none-any.whl";
                        PackageType := "bdist_wheel";
                        PythonVersion := "py2";
                        URL := "";
                        UploadTime := 0 |} ] ]} |}.

(** *** A policy file at the top of the repository *)

Definition topTree : PolicyStore.node :=
  PolicyStore.Dir
    [ ("policy.yaml", PolicyStore.File idnaPolicyText);
      ("pypi",
       PolicyStore.Dir
         [ ("idna",
            PolicyStore.Dir
              [ ("policy.yaml", PolicyStore.File idnaPolicyText) ]) ]) ].

(** *** Two archives of the same files, built apart *)

Definition entry (name : string) (modified attrs : Z) (content : string)
  : TransferMetadata.File :=
  {| TransferMetadata.Name := name;
     TransferMetadata.Modified := modified;
     TransferMetadata.ModifiedTime := modified mod 65536;
     TransferMetadata.ModifiedDate := modified / 65536;
     TransferMetadata.ExternalAttrs := attrs;
     TransferMetadata.Entry := content |}.

Definition publishedZip : list TransferMetadata.File :=
  [ entry "idna/__init__.py" 1633000000 2175008768 "published init";
    entry "idna/core.py" 1633000001 2175008768 "published core";
    entry "idna-3.3.dist-info/RECORD" 1633000002 2175008768 "published record" ].

Definition rebuiltZip : list TransferMetadata.File :=
  [ entry "idna-3.3.dist-info/RECORD" 1640000000 2176057344 "rebuilt record";
    entry "idna/core.py" 1640000001 2176057344 "rebuilt core";
    entry "idna/__init__.py" 1640000002 2176057344 "rebuilt init" ].

(** The table's entries in the order of their keys. *)
Definition keyOrder (m : gmap string TransferMetadata.File)
  : list TransferMetadata.File :=
  map snd (map_to_list m).

Definition archives (path : string) : result string :=
  if String.eqb path "published.whl" then Ok "published"
  else if String.eqb path "rebuilt.whl" then Ok "rebuilt"
  else Err "no such file".

Definition readZip (bytes : string) : result (list TransferMetadata.File) :=
  if String.eqb bytes "published" then Ok publishedZip
  else if String.eqb bytes "rebuilt" then Ok rebuiltZip
  else Err "zip: not a valid zip file".

(** *** The handlers over the rebuild and the monitor of the examples *)

Definition rebuildWith (tags : list string) (pkg repo : string)
    (opt : Rebuilder.RebuilderOptions) : outcome (list ProvenanceStatement) :=
  Rebuilder.Rebuild "demo" submatch
    (fun _ => Return idnaProject)
    (fun _ => Return "bytes of the published wheel")
    (fun _ => Ok idnaFiles)
    (fun _ _ => Ok tags)
    (fun _ _ _ _ => Some "setup.py")
    (fun _ _ _ => Ok "sha1-of-tag")
    (fun _ _ => Ok pending)
    [Ok pending; Ok finished]
    10 20
    pkg repo opt.

Definition monitorBuildWith (runs : list Monitor.WorkflowRun) (pkg repo : string)
    (opt : Monitor.MonitorOptions) : outcome (option ProvenanceStatement) :=
  Monitor.MonitorBuild
    (fun _ => Return project)
    (fun _ _ => Ok workflows)
    (fun _ _ _ => Ok runs)
    jobsOf
    (fun _ _ _ => [dist])
    downloads matchStar tagged
    pkg repo opt.

Definition handlerPolicy : Policy :=
  {| Repo := "github.com/kjd/idna";
     buildMonitor := None;
     rebuilder := Some {| PackageRoot := "" |};
     provenanceUpload := None;
     PolicyDigest := "digest-of-policy";
     Scope := "pypi";
     Package := "idna" |}.

Definition monitorPolicy : Policy :=
  {| Repo := "github.com/o/n";
     buildMonitor := Some {| Actions := Monitor.Options monitorOptions |};
     rebuilder := None;
     provenanceUpload := None;
     PolicyDigest := "digest-of-policy";
     Scope := "pypi";
     Package := "pkg" |}.

Definition handleRebuild (rebuild : string -> string -> Rebuilder.RebuilderOptions ->
                                    outcome (list ProvenanceStatement))
    (version : string) : outcome Handlers.Effects :=
  Handlers.HandleRebuild (fun _ _ _ => Ok handlerPolicy) (Ok tt) rebuild unit
    (fun _ => Ok "canonical") (fun _ => Ok tt) (fun _ => Ok "envelope")
    (fun _ => Ok tt) "revision-1" 10 20
    {| Handlers.fScope := "pypi"; Handlers.fPkg := "idna";
       Handlers.fVersion := version; Handlers.fRef := "" |}.

Definition handleMonitor (runs : list Monitor.WorkflowRun) (version : string)
  : outcome Handlers.Effects :=
  Handlers.HandleMonitor (fun _ _ _ => Ok monitorPolicy) (Ok tt)
    (monitorBuildWith runs) unit
    (fun _ => Ok "canonical") (fun _ => Ok tt) (fun _ => Ok "envelope")
    (fun _ => Ok tt) "revision-1" 10 20
    {| Handlers.fScope := "pypi"; Handlers.fPkg := "pkg";
       Handlers.fVersion := version; Handlers.fRef := "" |}.

End Fixtures.

(** * Properties *)

#[local] Arguments String.append !_ _ / : simpl nomatch.

(** ** Facts on strings *)

Module StringFacts.
Import GoStrings.

Lemma length_app (a b : string) :
  String.length (a ++ b) = String.length a + String.length b.
Proof. induction a as [|c a IH]; simpl; [reflexivity | now rewrite IH]. Qed.

Lemma app_nil_r (a : string) : a ++ "" = a.
Proof. induction a as [|c a IH]; simpl; [reflexivity | now rewrite IH]. Qed.

Lemma app_assoc (a b c : string) : (a ++ b) ++ c = a ++ (b ++ c).
Proof. induction a as [|x a IH]; simpl; [reflexivity | now rewrite IH]. Qed.

Lemma substring_all (s : string) : substring 0 (String.length s) s = s.
Proof. induction s as [|c s IH]; simpl; [reflexivity | now rewrite IH]. Qed.

Lemma substring_app_l (p s : string) :
  substring 0 (String.length p) (p ++ s) = p.
Proof.
  induction p as [|c p IH]; simpl.
  - destruct s; reflexivity.
  - now rewrite IH.
Qed.

Lemma substring_app_r (p s : string) (m : nat) :
  substring (String.length p) m (p ++ s) = substring 0 m s.
Proof. induction p as [|c p IH]; simpl; [reflexivity | exact IH]. Qed.

Lemma substring_split (s : string) (k : nat) :
  k <= String.length s ->
  substring 0 k s ++ substring k (String.length s - k) s = s.
Proof.
  revert k. induction s as [|c s IH]; intros k Hk; simpl in *.
  - destruct k; [reflexivity | lia].
  - destruct k as [|k]; simpl.
    + now rewrite substring_all.
    + rewrite IH by lia. reflexivity.
Qed.

Lemma HasSuffix_app (p suf : string) : HasSuffix (p ++ suf) suf = true.
Proof.
  unfold HasSuffix. rewrite length_app.
  replace (String.length p + String.length suf - String.length suf)
    with (String.length p) by lia.
  rewrite substring_app_r, substring_all, String.eqb_refl.
  rewrite andb_true_r. apply Nat.leb_le. lia.
Qed.

Lemma HasSuffix_inv (s suf : string) :
  HasSuffix s suf = true ->
  s = substring 0 (String.length s - String.length suf) s ++ suf.
Proof.
  unfold HasSuffix. intros H. apply andb_true_iff in H as [Hlen Heq].
  apply Nat.leb_le in Hlen. apply String.eqb_eq in Heq.
  rewrite <- (substring_split s (String.length s - String.length suf)) at 1
    by lia.
  replace (String.length s - (String.length s - String.length suf))
    with (String.length suf) by lia.
  now rewrite Heq.
Qed.

Lemma HasSuffix_iff (s suf : string) :
  HasSuffix s suf = true <-> exists p, s = p ++ suf.
Proof.
  split.
  - intros H. eexists. apply (HasSuffix_inv _ _ H).
  - intros [p ->]. apply HasSuffix_app.
Qed.

Lemma TrimSuffix_app (p suf : string) : TrimSuffix (p ++ suf) suf = p.
Proof.
  unfold TrimSuffix. rewrite HasSuffix_app, length_app.
  replace (String.length p + String.length suf - String.length suf)
    with (String.length p) by lia.
  apply substring_app_l.
Qed.

Lemma lastByte_app (p s : string) :
  s <> "" -> lastByte (p ++ s) = lastByte s.
Proof.
  intros Hs. induction p as [|c p IH]; simpl; [reflexivity |].
  rewrite <- IH. destruct (p ++ s) eqn:E; [| reflexivity].
  destruct p; simpl in E; [contradiction | discriminate].
Qed.

Lemma suffix_clash (p q s t : string) :
  s <> "" -> t <> "" -> lastByte s <> lastByte t -> p ++ s <> q ++ t.
Proof.
  intros Hs Ht Hne E. apply Hne.
  rewrite <- (lastByte_app p s Hs), <- (lastByte_app q t Ht). now rewrite E.
Qed.

Lemma prefix_iff (p s : string) :
  String.prefix p s = true <-> exists r, s = p ++ r.
Proof.
  revert s. induction p as [|c p IH]; intros s.
  - destruct s; simpl; split; eauto.
  - destruct s as [|d s]; simpl.
    + split; [discriminate | intros [r Hr]; discriminate].
    + destruct (ascii_dec c d) as [->|Hne].
      * rewrite IH. split; intros [r Hr]; exists r; congruence.
      * split; [discriminate |]. intros [r Hr]. congruence.
Qed.

(** [Split] never gives the empty list. *)
Lemma Split_cons (s : string) (c : ascii) :
  exists h t, Split s c = h :: t.
Proof.
  induction s as [|a s IH]; simpl; eauto.
  destruct (Ascii.eqb a c); eauto.
  destruct IH as (h & t & ->). eauto.
Qed.

Lemma Split_free (s : string) (c : ascii) : free_of c s -> Split s c = [s].
Proof.
  induction s as [|a s IH]; simpl; [reflexivity |].
  intros [Hne Hfree]. apply Ascii.eqb_neq in Hne. rewrite Hne, IH by assumption.
  reflexivity.
Qed.

Lemma hd_Split_app (t r : string) (c : ascii) :
  free_of c t -> List.hd "" (Split (t ++ String c r) c) = t.
Proof.
  induction t as [|a t IH]; simpl.
  - now rewrite Ascii.eqb_refl.
  - intros [Hne Hfree]. apply Ascii.eqb_neq in Hne. rewrite Hne.
    specialize (IH Hfree).
    destruct (Split_cons (t ++ String c r) c) as (h & tl & E).
    rewrite E in *. simpl in *. now subst.
Qed.

Lemma Split_sep_two (p t : string) (c : ascii) :
  exists h h2 tl, Split (p ++ String c t) c = h :: h2 :: tl.
Proof.
  induction p as [|a p IH]; simpl.
  - rewrite Ascii.eqb_refl. destruct (Split_cons t c) as (h & tl & ->). eauto.
  - destruct IH as (h & h2 & tl & ->). destruct (Ascii.eqb a c); eauto.
Qed.

Lemma last_Split_app (p t : string) (c : ascii) :
  free_of c t -> List.last (Split (p ++ String c t) c) "" = t.
Proof.
  intros Hfree. induction p as [|a p IH]; simpl.
  - rewrite Ascii.eqb_refl, (Split_free _ _ Hfree). reflexivity.
  - destruct (Split_sep_two p t c) as (h & h2 & tl & E).
    rewrite E in *. destruct (Ascii.eqb a c); exact IH.
Qed.

End StringFacts.

(** ** Release catalog *)

Module ReleaseFacts.
Import GoStrings Release StringFacts.

Lemma HasSuffix_clash (p s t : string) :
  s <> "" -> t <> "" -> lastByte s <> lastByte t ->
  HasSuffix (p ++ s) t = false.
Proof.
  intros Hs Ht Hne. destruct (HasSuffix (p ++ s) t) eqn:E; [| reflexivity].
  apply HasSuffix_iff in E as [q E]. now apply suffix_clash in E.
Qed.

Lemma HasSuffix_none (f suf : string) :
  (forall p, f <> p ++ suf) -> HasSuffix f suf = false.
Proof.
  intros H. destruct (HasSuffix f suf) eqn:E; [| reflexivity].
  apply HasSuffix_iff in E as [p E]. now apply H in E.
Qed.

Lemma getReleaseType_whl (stem : string) :
  getReleaseType (stem ++ ".whl")
  = platformType (List.hd "" (Split (List.last (Split stem "-") "") ".")).
Proof.
  unfold getReleaseType, wheelPlatform.
  rewrite (HasSuffix_clash stem ".whl" ".tar.gz") by (simpl; congruence).
  rewrite (HasSuffix_clash stem ".whl" ".zip") by (simpl; congruence).
  now rewrite HasSuffix_app, TrimSuffix_app.
Qed.

(** The last [-] separated segment of a stem. *)
Lemma last_segment (pre seg : string) :
  pre = "" \/ (exists q, pre = q ++ "-") -> free_of "-" seg ->
  List.last (Split (pre ++ seg) "-") "" = seg.
Proof.
  intros [-> | [q ->]] Hfree.
  - simpl. now rewrite Split_free.
  - rewrite app_assoc. simpl. now apply last_Split_app.
Qed.

(** The part of a segment before its first dot. *)
Lemma first_field (seg t rest : string) :
  seg = t \/ seg = t ++ "." ++ rest -> free_of "." t ->
  List.hd "" (Split seg ".") = t.
Proof.
  intros [-> | ->] Hfree.
  - now rewrite Split_free.
  - simpl. now apply hd_Split_app.
Qed.

Lemma platformType_prefixed (r : string) :
  platformType ("manylinux" ++ r) = wheelManylinux
  /\ platformType ("musllinux" ++ r) = wheelMusllinux
  /\ platformType ("macos" ++ r) = wheelMacos
  /\ platformType ("win" ++ r) = wheelWin.
Proof.
  unfold platformType, HasPrefix. simpl. destruct r; repeat split.
Qed.

Lemma platformType_other (t : string) :
  t <> "any" ->
  (forall r, t <> "manylinux" ++ r) -> (forall r, t <> "musllinux" ++ r) ->
  (forall r, t <> "macos" ++ r) -> (forall r, t <> "win" ++ r) ->
  platformType t = unknownReleaseType.
Proof.
  intros Hany H1 H2 H3 H4. unfold platformType, HasPrefix.
  apply String.eqb_neq in Hany. rewrite Hany.
  assert (Hp : forall p, (forall r, t <> p ++ r) -> String.prefix p t = false).
  { intros p Hp. destruct (String.prefix p t) eqn:E; [| reflexivity].
    apply prefix_iff in E as [r E]. now apply Hp in E. }
  now rewrite !Hp.
Qed.

(** C5, as the code decides it.  [getReleaseType] is a total function of
    the file name: a name ending in [.tar.gz] is a source tarball; a name
    ending in [.zip] is a source zip; for a name ending in [.whl] the
    platform is the part before the first dot of the last [-] separated
    segment of the name without its extension, and the platform [any]
    gives wheel-any, a platform starting with [manylinux], [musllinux],
    [macos] or [win] gives the wheel type of that name, compared byte for
    byte; every other name, and every other platform, gives unknown. *)
Theorem getReleaseType_decides (f : string) :
  (forall p, f = p ++ ".tar.gz" -> getReleaseType f = sourceGztar)
  /\ (forall p, f = p ++ ".zip" -> getReleaseType f = sourceZip)
  /\ (forall pre seg t rest,
        f = pre ++ seg ++ ".whl" ->
        pre = "" \/ (exists q, pre = q ++ "-") -> free_of "-" seg ->
        seg = t \/ seg = t ++ "." ++ rest -> free_of "." t ->
        getReleaseType f = platformType t)
  /\ ((forall p, f <> p ++ ".tar.gz") -> (forall p, f <> p ++ ".zip") ->
      (forall p, f <> p ++ ".whl") -> getReleaseType f = unknownReleaseType)
  /\ platformType "any" = wheelAny
  /\ (forall r, platformType ("manylinux" ++ r) = wheelManylinux)
  /\ (forall r, platformType ("musllinux" ++ r) = wheelMusllinux)
  /\ (forall r, platformType ("macos" ++ r) = wheelMacos)
  /\ (forall r, platformType ("win" ++ r) = wheelWin)
  /\ (forall t, t <> "any" ->
        (forall r, t <> "manylinux" ++ r) -> (forall r, t <> "musllinux" ++ r) ->
        (forall r, t <> "macos" ++ r) -> (forall r, t <> "win" ++ r) ->
        platformType t = unknownReleaseType).
Proof.
  repeat split; try (intros r; apply (platformType_prefixed r)).
  - intros p ->. unfold getReleaseType. now rewrite HasSuffix_app.
  - intros p ->. unfold getReleaseType.
    rewrite (HasSuffix_clash p ".zip" ".tar.gz") by (simpl; congruence).
    now rewrite HasSuffix_app.
  - intros pre seg t rest -> Hpre Hseg Ht Hfree.
    rewrite <- app_assoc, getReleaseType_whl.
    rewrite (last_segment _ _ Hpre Hseg).
    now rewrite (first_field _ _ _ Ht Hfree).
  - intros H1 H2 H3. unfold getReleaseType.
    now rewrite !HasSuffix_none.
  - apply platformType_other.
Qed.

Lemma getReleaseType_decides_witness :
  getReleaseType "pkg-1.0-py3-none-any.whl" = wheelAny
  /\ getReleaseType "p-1-cp39-cp39-manylinux1_x86_64.manylinux2010_x86_64.whl"
     = wheelManylinux.
Proof.
  split.
  - destruct (getReleaseType_decides "pkg-1.0-py3-none-any.whl")
      as (_ & _ & H & _).
    apply (H "pkg-1.0-py3-none-" "any" "any" "").
    + reflexivity.
    + right. exists "pkg-1.0-py3-none". reflexivity.
    + simpl. repeat split; discriminate.
    + left. reflexivity.
    + simpl. repeat split; discriminate.
  - destruct (getReleaseType_decides
                "p-1-cp39-cp39-manylinux1_x86_64.manylinux2010_x86_64.whl")
      as (_ & _ & H & _).
    apply (H "p-1-cp39-cp39-" "manylinux1_x86_64.manylinux2010_x86_64"
             "manylinux1_x86_64" "manylinux2010_x86_64").
    + reflexivity.
    + right. exists "p-1-cp39-cp39". reflexivity.
    + simpl. repeat split; discriminate.
    + right. reflexivity.
    + simpl. repeat split; discriminate.
Defined.

(** The three names of section 8. *)
Lemma getReleaseType_examples :
  getReleaseType "pkg-1.0-py3-none-any.whl" = wheelAny
  /\ getReleaseType "pkg-1.0.tar.gz" = sourceGztar
  /\ getReleaseType "pkg.unknown" = unknownReleaseType.
Proof. repeat split. Qed.

(** Where the code leaves section 4.2: a last segment [any.win32] is cut
    at its dot, so the platform is [any]; taken whole it is no known
    platform. *)
Lemma getReleaseType_cuts_at_dot :
  getReleaseType "pkg-1.0-py3-none-any.win32.whl"
  <> ReleaseSpec.classify "pkg-1.0-py3-none-any.win32.whl".
Proof. vm_compute. discriminate. Qed.

End ReleaseFacts.

(** ** Attestation signer *)

Module DSSEFacts.
Import GoStrings DSSE StringFacts Fixtures.

(** RFC 4648, section 10. *)
Example EncodeToString_vectors :
  map EncodeToString [""; "f"; "fo"; "foo"; "foob"; "fooba"; "foobar"]
  = [""; "Zg=="; "Zm8="; "Zm9v"; "Zm9vYg=="; "Zm9vYmE="; "Zm9vYmFy"].
Proof. reflexivity. Qed.

(** The vector of section 8. *)
Example pae_golden :
  EncodeToString "abc" = "YWJj"
  /\ pae inTotoPayloadType (EncodeToString "abc")
     = "DSSEv1 28 application/vnd.in-toto+json 4 YWJj".
Proof. split; reflexivity. Qed.

Lemma EncodeToString_length_bound (n : nat) (s : string) :
  String.length s <= n -> String.length s <= String.length (EncodeToString s).
Proof.
  revert s. induction n as [|n IH]; intros s Hn.
  - destruct s; simpl in *; lia.
  - destruct s as [|a [|b [|c rest]]]; simpl; try lia.
    assert (H : String.length rest <= String.length (EncodeToString rest)).
    { apply IH. simpl in Hn. lia. }
    simpl in H. lia.
Qed.

(** Base64 never shortens. *)
Lemma EncodeToString_length (s : string) :
  String.length s <= String.length (EncodeToString s).
Proof. now apply (EncodeToString_length_bound (String.length s)). Qed.

Lemma pae_length (t e : string) :
  String.length (pae t e)
  = 10 + String.length (itoa (String.length t)) + String.length t
    + String.length (itoa (String.length e)) + String.length e.
Proof. unfold pae. rewrite !length_app. simpl. lia. Qed.

(** The signed bytes are longer than the payload, so they are never the
    payload. *)
Lemma pae_not_payload (payload : string) :
  pae inTotoPayloadType (EncodeToString payload) <> payload.
Proof.
  intros E. apply (f_equal String.length) in E.
  rewrite pae_length in E.
  pose proof (EncodeToString_length payload). lia.
Qed.

Section Signer.
Variable NewKeyManagementClient : result unit.
Variable AsymmetricSign : SignRequest -> result string.
Variable kmsKey : string.

Lemma NewDSSE_sent (payload : string) (sent : list SignRequest) :
  snd (NewDSSE NewKeyManagementClient AsymmetricSign kmsKey payload sent) = sent
  \/ snd (NewDSSE NewKeyManagementClient AsymmetricSign kmsKey payload sent)
     = (sent ++ [paeRequest kmsKey payload])%list.
Proof.
  unfold NewDSSE, kmsSign.
  destruct NewKeyManagementClient; [right | left; reflexivity].
  destruct (AsymmetricSign _); reflexivity.
Qed.

(** C1.  When the signing operation gives an envelope for a payload, the
    key service has received exactly one more request, for the configured
    key, whose bytes are the encoding
    [DSSEv1 28 application/vnd.in-toto+json <len> <base64 payload>]
    with the length in decimal and single spaces between the fields;
    these bytes are never the payload itself; the envelope's one
    signature is the base64 of the service's answer to that request under
    the key's resource name; its payload is the base64 of the payload and
    its type the in-toto type. *)
Theorem NewDSSE_signs_pae (payload : string) (sent sent' : list SignRequest)
    (d : DSSE) :
  NewDSSE NewKeyManagementClient AsymmetricSign kmsKey payload sent = (Ok d, sent') ->
  sent' = (sent ++ [paeRequest kmsKey payload])%list
  /\ reqData (paeRequest kmsKey payload) = pae inTotoPayloadType (EncodeToString payload)
  /\ reqData (paeRequest kmsKey payload) <> payload
  /\ (exists sig,
        AsymmetricSign (paeRequest kmsKey payload) = Ok sig
        /\ Signatures d
           = [{| KeyID := "https://cloudkms.googleapis.com/" ++ kmsKey;
                 Sig := EncodeToString sig |}])
  /\ Payload d = EncodeToString payload
  /\ PayloadType d = "application/vnd.in-toto+json".
Proof.
  unfold NewDSSE, kmsSign. intros H.
  assert (Hreq : reqData (paeRequest kmsKey payload)
                 = pae inTotoPayloadType (EncodeToString payload))
    by reflexivity.
  destruct NewKeyManagementClient as [[]|e]; [| discriminate].
  change {| reqName := kmsKey;
            reqData := pae inTotoPayloadType (EncodeToString payload) |}
    with (paeRequest kmsKey payload) in H.
  destruct (AsymmetricSign (paeRequest kmsKey payload)) as [sig|e] eqn:Hsig;
    [| discriminate].
  injection H as <- <-.
  repeat split; try reflexivity.
  - rewrite Hreq. apply pae_not_payload.
  - exists sig. split; reflexivity.
Qed.
End Signer.

Lemma NewDSSE_signs_pae_witness :
  exists d,
    NewDSSE (Ok tt) paeOnly "key" "abc" [] = (Ok d, [paeRequest "key" "abc"])
    /\ reqData (paeRequest "key" "abc")
       = "DSSEv1 28 application/vnd.in-toto+json 4 YWJj"
    /\ Payload d = "YWJj".
Proof.
  eexists. split; [reflexivity |].
  destruct (NewDSSE_signs_pae (Ok tt) paeOnly "key" "abc" [] _ _ eq_refl)
    as (_ & _ & _ & _ & Hp & _).
  split; [reflexivity | exact Hp].
Defined.

End DSSEFacts.

(** ** [sort.Slice] *)

Module GoSortFacts.
Import GoSort.

Section Slice.
Context {A : Type} (less : A -> A -> bool).

(** [less] never holds both ways. *)
Hypothesis less_asym : forall a b, less a b = true -> less b a = false.

Lemma insert_perm (x : A) (l : list A) : Permutation (x :: l) (insert less x l).
Proof.
  induction l as [|y t IH]; simpl; [reflexivity |].
  destruct (less x y); [reflexivity |].
  rewrite perm_swap. now constructor.
Qed.

Lemma Slice_perm (l : list A) : Permutation l (Slice less l).
Proof.
  induction l as [|x t IH]; simpl; [constructor |].
  rewrite <- insert_perm. now constructor.
Qed.

Lemma insert_HdRel (a x : A) (l : list A) :
  ordered less a x -> HdRel (ordered less) a l -> HdRel (ordered less) a (insert less x l).
Proof.
  intros Hax Hl. destruct l as [|y t]; simpl; [now constructor |].
  destruct (less x y); constructor; [assumption |].
  now inversion Hl.
Qed.

Lemma insert_sorted (x : A) (l : list A) :
  Sorted (ordered less) l -> Sorted (ordered less) (insert less x l).
Proof.
  induction l as [|y t IH]; simpl; intros Hs.
  - repeat constructor.
  - destruct (less x y) eqn:E.
    + constructor; [assumption |]. constructor. now apply less_asym.
    + inversion Hs as [|? ? Ht Hhd]; subst.
      constructor; [now apply IH |]. now apply insert_HdRel.
Qed.

Lemma Slice_sorted (l : list A) : Sorted (ordered less) (Slice less l).
Proof.
  induction l as [|x t IH]; simpl; [constructor |]. now apply insert_sorted.
Qed.

Lemma Slice_nonempty (l : list A) : l <> [] -> Slice less l <> [].
Proof.
  intros Hl E. apply Hl. apply Permutation_nil.
  symmetry. rewrite <- E. apply Slice_perm.
Qed.
End Slice.

Lemma ltb_asym (a b : string) : String.ltb a b = true -> String.ltb b a = false.
Proof.
  unfold String.ltb. rewrite (String.compare_antisym b a).
  destruct (String.compare a b); simpl; congruence.
Qed.

Lemma not_ltb_leb (a b : string) : String.ltb b a = false -> String.leb a b = true.
Proof.
  unfold String.ltb, String.leb. rewrite (String.compare_antisym b a).
  destruct (String.compare a b); simpl; congruence.
Qed.

End GoSortFacts.

(** ** Build monitor *)

Module MonitorFacts.
Import GoStrings Release InToto Policy GoSort Monitor GoSortFacts.

Lemma inWindow_strict (r : WorkflowRun) (uploaded : Z) :
  inWindow r uploaded = true <-> (CreatedAt r < uploaded < UpdatedAt r)%Z.
Proof.
  unfold inWindow, Before, After.
  rewrite andb_true_iff, !Z.ltb_lt. reflexivity.
Qed.

Lemma runTimely_iff (r : WorkflowRun) (releasedFiles : gmap string Z) :
  runTimely r releasedFiles = true
  <-> exists fname uploaded,
        releasedFiles !! fname = Some uploaded
        /\ (CreatedAt r < uploaded < UpdatedAt r)%Z.
Proof.
  unfold runTimely. rewrite existsb_exists. split.
  - intros ([fname uploaded] & Hin & Hw). exists fname, uploaded.
    apply list_elem_of_In, elem_of_map_to_list in Hin.
    split; [assumption | now apply inWindow_strict].
  - intros (fname & uploaded & Hl & Hw). exists (fname, uploaded).
    split; [| now apply inWindow_strict].
    now apply list_elem_of_In, elem_of_map_to_list.
Qed.

Lemma fileTimely_iff (r : WorkflowRun) (releasedFiles : gmap string Z)
    (fname : string) :
  fileTimely r releasedFiles fname = true
  <-> exists uploaded,
        releasedFiles !! fname = Some uploaded
        /\ (CreatedAt r < uploaded < UpdatedAt r)%Z.
Proof.
  unfold fileTimely. destruct (releasedFiles !! fname) as [u|].
  - rewrite inWindow_strict. split; [eauto |].
    intros (u' & E & H). now injection E as ->.
  - split; [discriminate | intros (u & E & _); discriminate].
Qed.

Section World.
Variable pypiMetadata : string -> outcome PyPiProject.
Variable ListWorkflows : string -> string -> result Workflows.
Variable ListWorkflowRunsByID : string -> string -> Z -> result (list WorkflowRun).
Variable ListWorkflowJobs : string -> string -> Z -> result (list WorkflowJob).
Variable ListWorkflowRunArtifacts : string -> string -> Z -> list Artifact.
Variable fetchArchive : Artifact -> result (list ZipFile).
Variable Match : string -> string -> result bool.
Variable sha256hex : string -> string.

(** Every subject the scan of an archive adds is named after an entry whose
    release file of the same name was uploaded inside the run's window. *)
Lemma scanFiles_retained (r : WorkflowRun) (releasedFiles : gmap string Z)
    (spec : ArtifactSpec) (files : list ZipFile) (subjects out : list Subject) :
  scanFiles Match sha256hex r releasedFiles spec files subjects = Return out ->
  exists added,
    out = (subjects ++ added)%list
    /\ Forall (fun s => fileTimely r releasedFiles (Name s) = true) added.
Proof.
  revert subjects. induction files as [|f rest IH]; intros subjects; simpl.
  - intros [= <-]. exists []. split; [now rewrite List.app_nil_r | constructor].
  - destruct (matchPatterns Match (Patterns spec) (zName f) false) as [m| | |];
      simpl; try discriminate.
    destruct m; simpl; [| apply IH].
    destruct (fileTimely r releasedFiles (zName f)) eqn:Ht; simpl; [| apply IH].
    destruct (zData f) as [content| | |]; simpl; try discriminate.
    intros H. apply IH in H as (added & -> & Hall).
    exists (subjectOf sha256hex f content :: added). split.
    + now rewrite <- List.app_assoc.
    + constructor; assumption.
Qed.

Lemma scanArtifacts_retained (r : WorkflowRun) (releasedFiles : gmap string Z)
    (specs : list ArtifactSpec) (arts : list Artifact)
    (subjects out : list Subject) (expired : bool) :
  scanArtifacts fetchArchive Match sha256hex r releasedFiles specs arts subjects
  = Return (out, expired) ->
  Forall (fun s => fileTimely r releasedFiles (Name s) = true) subjects ->
  Forall (fun s => fileTimely r releasedFiles (Name s) = true) out.
Proof.
  revert subjects. induction arts as [|a rest IH]; intros subjects; simpl.
  - now intros [= <- <-].
  - destruct (matchSpec specs (artName a)) as [spec|]; [| apply IH].
    destruct (Expired a); [now intros [= <- <-] |].
    destruct (fetchArchive a) as [files|]; simpl; [| discriminate].
    destruct (scanFiles Match sha256hex r releasedFiles spec files subjects)
      as [subjects'| | |] eqn:Hs; simpl; try discriminate.
    intros H Hall. apply (IH _ H).
    apply scanFiles_retained in Hs as (added & -> & Hadd).
    apply Forall_app. now split.
Qed.

(** A run gives a statement exactly when its jobs list, it is timely, the
    gate (if any) is passed, the scan of its artifacts ends without error
    and without an expired artifact, and some subject remains. *)
Lemma examineRun_Some (owner repo : string) (opt : MonitorOptions)
    (releasedFiles : gmap string Z) (wf : github_Workflow) (r : WorkflowRun)
    (stmt : ProvenanceStatement) :
  examineRun ListWorkflowJobs ListWorkflowRunArtifacts fetchArchive Match
    sha256hex owner repo opt releasedFiles wf r = Return (Some stmt)
  <-> exists js subjects,
        ListWorkflowJobs owner repo (runID r) = Ok js
        /\ runTimely r releasedFiles = true
        /\ gated opt js = true
        /\ scanArtifacts fetchArchive Match sha256hex r releasedFiles
             (Artifacts (Options opt))
             (ListWorkflowRunArtifacts owner repo (runID r)) []
           = Return (subjects, false)
        /\ subjects <> []
        /\ stmt = statement wf r (Slice less subjects).
Proof.
  unfold examineRun. split.
  - destruct (ListWorkflowJobs owner repo (runID r)) as [js|e] eqn:Hjs; simpl;
      [| discriminate].
    destruct (runTimely r releasedFiles) eqn:Ht; simpl; [| discriminate].
    destruct (gated opt js) eqn:Hg; simpl; [| discriminate].
    destruct (scanArtifacts _ _ _ _ _ _ _ _) as [[subjects expired]| | |]
      eqn:Hs; simpl; try discriminate.
    destruct expired; [discriminate |].
    destruct subjects as [|s subjects]; simpl; [discriminate |].
    intros [= <-]. exists js, (s :: subjects). repeat split; trivial.
    discriminate.
  - intros (js & subjects & Hjs & Ht & Hg & Hs & Hne & ->).
    rewrite Hjs. simpl. rewrite Ht, Hg. simpl. rewrite Hs. simpl.
    destruct subjects; [contradiction | reflexivity].
Qed.

(** A run is passed over exactly when its jobs list and it is not timely,
    or fails the gate, or its scan ends without error on an expired
    artifact or with no subject. *)
Lemma examineRun_None (owner repo : string) (opt : MonitorOptions)
    (releasedFiles : gmap string Z) (wf : github_Workflow) (r : WorkflowRun) :
  examineRun ListWorkflowJobs ListWorkflowRunArtifacts fetchArchive Match
    sha256hex owner repo opt releasedFiles wf r = Return None
  <-> exists js,
        ListWorkflowJobs owner repo (runID r) = Ok js
        /\ (runTimely r releasedFiles = false
            \/ gated opt js = false
            \/ exists subjects expired,
                 scanArtifacts fetchArchive Match sha256hex r releasedFiles
                   (Artifacts (Options opt))
                   (ListWorkflowRunArtifacts owner repo (runID r)) []
                 = Return (subjects, expired)
                 /\ (expired = true \/ subjects = [])).
Proof.
  unfold examineRun. split.
  - destruct (ListWorkflowJobs owner repo (runID r)) as [js|e] eqn:Hjs; simpl;
      [| discriminate].
    intros H. exists js. split; [reflexivity |].
    destruct (runTimely r releasedFiles) eqn:Ht; simpl in H; [| now left].
    destruct (gated opt js) eqn:Hg; simpl in H; [| now right; left].
    right. right.
    destruct (scanArtifacts _ _ _ _ _ _ _ _) as [[subjects expired]| | |]
      eqn:Hs; simpl in H; try discriminate.
    exists subjects, expired. split; [reflexivity |].
    destruct expired; [now left |]. right.
    destruct subjects; [reflexivity | discriminate].
  - intros (js & Hjs & H). rewrite Hjs. simpl.
    destruct H as [Ht | [Hg | (subjects & expired & Hs & H)]].
    + now rewrite Ht.
    + rewrite Hg. now destruct (runTimely r releasedFiles).
    + destruct (runTimely r releasedFiles); [| reflexivity]. simpl.
      destruct (gated opt js); [| reflexivity]. simpl.
      rewrite Hs. simpl. destruct H as [-> | ->]; [reflexivity |].
      now destruct expired.
Qed.

Lemma MonitorBuild_prepared (pkg repo : string) (opt : MonitorOptions)
    (owner name : string) (releasedFiles : gmap string Z)
    (wf : github_Workflow) (runs : list WorkflowRun) :
  prepared pypiMetadata ListWorkflows ListWorkflowRunsByID pkg repo opt owner
    name releasedFiles wf runs ->
  MonitorBuild pypiMetadata ListWorkflows ListWorkflowRunsByID ListWorkflowJobs
    ListWorkflowRunArtifacts fetchArchive Match sha256hex pkg repo opt
  = scanRuns ListWorkflowJobs ListWorkflowRunArtifacts fetchArchive Match
      sha256hex owner name opt releasedFiles wf runs.
Proof.
  intros (Hp & Ho & Hn & project & wfs & id & Hpy & -> & Hw & Hc & -> & Hid & Hr).
  unfold MonitorBuild. rewrite Hp, Ho, Hn, Hpy. cbn [negb obind].
  rewrite Hw. cbn [obind orFatal].
  apply Z.eqb_neq in Hc. rewrite Hc, Hid, Hr. reflexivity.
Qed.

Lemma MonitorBuild_Return (pkg repo : string) (opt : MonitorOptions)
    (found : option ProvenanceStatement) :
  MonitorBuild pypiMetadata ListWorkflows ListWorkflowRunsByID ListWorkflowJobs
    ListWorkflowRunArtifacts fetchArchive Match sha256hex pkg repo opt
  = Return found ->
  exists owner name releasedFiles wf runs,
    prepared pypiMetadata ListWorkflows ListWorkflowRunsByID pkg repo opt owner
      name releasedFiles wf runs
    /\ scanRuns ListWorkflowJobs ListWorkflowRunArtifacts fetchArchive Match
         sha256hex owner name opt releasedFiles wf runs = Return found.
Proof.
  unfold MonitorBuild, prepared.
  destruct (HasPrefix repo "github.com/") eqn:Hp; cbn [negb];
    [| discriminate].
  destruct (nth_error (Split repo "/") 1) as [owner|] eqn:Ho;
    destruct (nth_error (Split repo "/") 2) as [name|] eqn:Hn;
    try discriminate.
  destruct (pypiMetadata pkg) as [project| | |] eqn:Hpy; cbn [obind];
    try discriminate.
  destruct (ListWorkflows owner name) as [wfs|] eqn:Hw; cbn [obind orFatal];
    [| discriminate].
  destruct (TotalCount wfs =? 0)%Z eqn:Hc; [discriminate |].
  destruct (wfID (findWorkflow (Workflow (Options opt)) (WorkflowList wfs)))
    as [id|] eqn:Hid; [| discriminate].
  destruct (ListWorkflowRunsByID owner name id) as [runs|] eqn:Hr;
    cbn [obind orFatal]; [| discriminate].
  intros H. exists owner, name. eexists. eexists. exists runs.
  split; [| exact H]. repeat split; trivial.
  exists project, wfs, id. repeat split; trivial. now apply Z.eqb_neq.
Qed.

(** The scan stops at the first run that is not passed over. *)
Lemma scanRuns_app (owner repo : string) (opt : MonitorOptions)
    (releasedFiles : gmap string Z) (wf : github_Workflow)
    (pre rest : list WorkflowRun) :
  (forall r', In r' pre ->
     examineRun ListWorkflowJobs ListWorkflowRunArtifacts fetchArchive Match
       sha256hex owner repo opt releasedFiles wf r' = Return None) ->
  scanRuns ListWorkflowJobs ListWorkflowRunArtifacts fetchArchive Match
    sha256hex owner repo opt releasedFiles wf (pre ++ rest)%list
  = scanRuns ListWorkflowJobs ListWorkflowRunArtifacts fetchArchive Match
      sha256hex owner repo opt releasedFiles wf rest.
Proof.
  induction pre as [|r pre IH]; intros Hpre; simpl; [reflexivity |].
  rewrite (Hpre r) by now left. simpl. apply IH.
  intros r' Hin. apply Hpre. now right.
Qed.

Lemma scanRuns_Some (owner repo : string) (opt : MonitorOptions)
    (releasedFiles : gmap string Z) (wf : github_Workflow)
    (runs : list WorkflowRun) (stmt : ProvenanceStatement) :
  scanRuns ListWorkflowJobs ListWorkflowRunArtifacts fetchArchive Match
    sha256hex owner repo opt releasedFiles wf runs = Return (Some stmt) ->
  exists pre r post,
    runs = (pre ++ r :: post)%list
    /\ (forall r', In r' pre ->
          examineRun ListWorkflowJobs ListWorkflowRunArtifacts fetchArchive
            Match sha256hex owner repo opt releasedFiles wf r' = Return None)
    /\ examineRun ListWorkflowJobs ListWorkflowRunArtifacts fetchArchive Match
         sha256hex owner repo opt releasedFiles wf r = Return (Some stmt).
Proof.
  induction runs as [|r runs IH]; simpl; [discriminate |].
  destruct (examineRun _ _ _ _ _ _ _ _ _ _ r) as [[s|]| | |] eqn:Hr; simpl;
    try discriminate.
  - intros [= ->]. exists [], r, runs. repeat split; [| assumption].
    intros r' [].
  - intros H. apply IH in H as (pre & r0 & post & -> & Hpre & Hr0).
    exists (r :: pre), r0, post. repeat split; [| assumption].
    intros r' [<- | Hin]; [assumption | now apply Hpre].
Qed.

(** The patterns applied to an artifact are those of the last
    specification of the policy, whichever specification bears the
    artifact's name. *)
Lemma matchSpec_last (first last : ArtifactSpec) :
  matchSpec [first; last] (SpecName first) = Some last.
Proof.
  unfold matchSpec. simpl. now rewrite String.eqb_refl.
Qed.

(** C2.  An upload time is timely for a run exactly when it lies strictly
    between the run's creation and its last update; at either end it is
    not.  A run that yields a statement has some release file uploaded
    strictly inside its window, and every subject of that statement bears
    the name of a release file whose own upload time lies strictly inside
    the window; a run with no timely upload yields no statement. *)
Theorem monitor_timeliness (owner repo : string) (opt : MonitorOptions)
    (releasedFiles : gmap string Z) (wf : github_Workflow) (r : WorkflowRun) :
  (forall uploaded,
     inWindow r uploaded = true <-> (CreatedAt r < uploaded < UpdatedAt r)%Z)
  /\ inWindow r (CreatedAt r) = false
  /\ inWindow r (UpdatedAt r) = false
  /\ (runTimely r releasedFiles = true
      <-> exists fname uploaded,
            releasedFiles !! fname = Some uploaded
            /\ (CreatedAt r < uploaded < UpdatedAt r)%Z)
  /\ (forall stmt,
        examineRun ListWorkflowJobs ListWorkflowRunArtifacts fetchArchive Match
          sha256hex owner repo opt releasedFiles wf r = Return (Some stmt) ->
        runTimely r releasedFiles = true
        /\ forall s, In s (Subjects stmt) ->
             exists uploaded,
               releasedFiles !! Name s = Some uploaded
               /\ (CreatedAt r < uploaded < UpdatedAt r)%Z).
Proof.
  split; [apply inWindow_strict |].
  split; [unfold inWindow, Before; now rewrite Z.ltb_irrefl |].
  split; [unfold inWindow, After; rewrite Z.ltb_irrefl; apply andb_false_r |].
  split; [apply runTimely_iff |].
  intros stmt H.
  apply examineRun_Some in H as (js & subjects & _ & Ht & _ & Hs & _ & ->).
  split; [assumption |]. intros s Hin. unfold Subjects in Hin. simpl in Hin.
  apply fileTimely_iff.
  apply scanArtifacts_retained in Hs; [| constructor].
  rewrite List.Forall_forall in Hs. apply Hs.
  eapply Permutation_in; [| exact Hin].
  symmetry. apply Slice_perm.
Qed.

(** C3, as the code does it.  Once the workflow's runs are listed, they are
    examined in listing order.  If every run before some run is passed
    over (it is untimely, fails the gate, has an expired artifact or keeps
    no subject, and nothing failed while it was examined) and that run
    yields a statement, the monitor returns that statement, whatever runs
    follow.  If every run is passed over, it returns the not-found result,
    which is no error.  If examining a run fails before any run yielded
    a statement, that error is the result. *)
Theorem MonitorBuild_first_run (pkg repo : string) (opt : MonitorOptions)
    (owner name : string) (releasedFiles : gmap string Z)
    (wf : github_Workflow) (runs : list WorkflowRun) :
  prepared pypiMetadata ListWorkflows ListWorkflowRunsByID pkg repo opt owner
    name releasedFiles wf runs ->
  (forall pre r post stmt,
     runs = (pre ++ r :: post)%list ->
     (forall r', In r' pre ->
        examineRun ListWorkflowJobs ListWorkflowRunArtifacts fetchArchive Match
          sha256hex owner name opt releasedFiles wf r' = Return None) ->
     examineRun ListWorkflowJobs ListWorkflowRunArtifacts fetchArchive Match
       sha256hex owner name opt releasedFiles wf r = Return (Some stmt) ->
     MonitorBuild pypiMetadata ListWorkflows ListWorkflowRunsByID
       ListWorkflowJobs ListWorkflowRunArtifacts fetchArchive Match sha256hex
       pkg repo opt = Return (Some stmt))
  /\ ((forall r', In r' runs ->
         examineRun ListWorkflowJobs ListWorkflowRunArtifacts fetchArchive
           Match sha256hex owner name opt releasedFiles wf r' = Return None) ->
      MonitorBuild pypiMetadata ListWorkflows ListWorkflowRunsByID
        ListWorkflowJobs ListWorkflowRunArtifacts fetchArchive Match sha256hex
        pkg repo opt = Return None)
  /\ (forall pre r post e,
        runs = (pre ++ r :: post)%list ->
        (forall r', In r' pre ->
           examineRun ListWorkflowJobs ListWorkflowRunArtifacts fetchArchive
             Match sha256hex owner name opt releasedFiles wf r' = Return None) ->
        examineRun ListWorkflowJobs ListWorkflowRunArtifacts fetchArchive Match
          sha256hex owner name opt releasedFiles wf r = Error e ->
        MonitorBuild pypiMetadata ListWorkflows ListWorkflowRunsByID
          ListWorkflowJobs ListWorkflowRunArtifacts fetchArchive Match sha256hex
          pkg repo opt = Error e)
  /\ (forall e, @Return (option ProvenanceStatement) None <> Error e).
Proof.
  intros Hprep. rewrite (MonitorBuild_prepared _ _ _ _ _ _ _ _ Hprep).
  repeat split.
  - intros pre r post stmt -> Hpre Hr.
    rewrite (scanRuns_app _ _ _ _ _ _ _ Hpre). simpl. now rewrite Hr.
  - intros Hall. rewrite <- (List.app_nil_r runs).
    now rewrite (scanRuns_app _ _ _ _ _ _ _ Hall).
  - intros pre r post e -> Hpre Hr.
    rewrite (scanRuns_app _ _ _ _ _ _ _ Hpre). simpl. now rewrite Hr.
  - discriminate.
Qed.

End World.

Import Fixtures.

Lemma monitor_timeliness_witness :
  exists stmt,
    examineWith downloads run1 = Return (Some stmt)
    /\ map Name (Subjects stmt) = ["a-1.0.tar.gz"; "b-1.0-py3-none-any.whl"]
    /\ forall s, In s (Subjects stmt) ->
         exists uploaded,
           releasedFiles !! Name s = Some uploaded
           /\ (100 < uploaded < 200)%Z.
Proof.
  eexists. split; [vm_compute; reflexivity |].
  split; [reflexivity |].
  apply (monitor_timeliness jobsOf (fun _ _ _ => [dist]) downloads matchStar
           tagged "o" "n" monitorOptions releasedFiles releaseWorkflow run1).
  vm_compute. reflexivity.
Defined.

Lemma fixture_prepared (runs : list WorkflowRun) :
  prepared (fun _ => Return project) (fun _ _ => Ok workflows)
    (fun _ _ _ => Ok runs) "pkg" "github.com/o/n" monitorOptions "o" "n"
    releasedFiles releaseWorkflow runs.
Proof.
  repeat split. exists project, workflows, 7%Z. repeat split. discriminate.
Defined.

(** The second of three runs yields the statement: the first is untimely,
    and the third, whose examination would end the process, is not
    reached. *)
Lemma MonitorBuild_first_run_witness :
  (exists stmt,
     examineWith downloads run1 = Return (Some stmt)
     /\ monitorWith [run0; run1; run2] downloads = Return (Some stmt))
  /\ examineWith downloads run2 = Fatal "unavailable".
Proof.
  split; [| vm_compute; reflexivity].
  eexists. split; [vm_compute; reflexivity |].
  apply (MonitorBuild_first_run (fun _ => Return project)
           (fun _ _ => Ok workflows) (fun _ _ _ => Ok [run0; run1; run2])
           jobsOf (fun _ _ _ => [dist]) downloads matchStar tagged
           "pkg" "github.com/o/n" monitorOptions "o" "n" releasedFiles
           releaseWorkflow [run0; run1; run2]
           (fixture_prepared [run0; run1; run2]))
    with (pre := [run0]) (r := run1) (post := [run2]).
  - reflexivity.
  - intros r' [<- | []]. vm_compute. reflexivity.
  - vm_compute. reflexivity.
Defined.

(** Where the code leaves C3 as worded: the one run of the listing is
    timely but the download of its archive is refused; no run satisfies the
    constraints, and yet the result is an error, not the not-found
    result. *)
Lemma MonitorBuild_error_is_not_notfound :
  ~ ((forall r, In r [run1] ->
        forall stmt, examineWith refused r <> Return (Some stmt)) ->
     monitorWith [run1] refused = Return None).
Proof.
  intros H.
  assert (E : monitorWith [run1] refused = Error "Bad response code")
    by (vm_compute; reflexivity).
  rewrite E in H. discriminate H.
  intros r [<- | []] stmt. vm_compute. discriminate.
Qed.

(** An error in an earlier run hides a later run that satisfies the
    constraints. *)
Lemma MonitorBuild_error_before_match :
  monitorWith [run2; run1] downloads = Fatal "unavailable"
  /\ exists stmt, examineWith downloads run1 = Return (Some stmt).
Proof. split; [| eexists]; vm_compute; reflexivity. Qed.

End MonitorFacts.

(** ** The pattern matcher *)

Module RegexpFacts.
Import GoStrings Regexp StringFacts.

Lemma nullable_Lang (r : regex) : nullable r = true <-> Lang r "".
Proof.
  induction r as [| |n rs|a IHa b IHb|a IHa b IHb|a IHa]; simpl.
  - split; [discriminate | intros H; inversion H].
  - split; [constructor | reflexivity].
  - split; [discriminate | intros H; inversion H].
  - rewrite andb_true_iff, IHa, IHb. split.
    + intros [Ha Hb]. apply (LangCat a b "" "" Ha Hb).
    + intros H. inversion H as [| |a' b' s t Hs Ht E1 E2| | | |]. subst.
      destruct s; [| discriminate]. destruct t; [| discriminate]. now split.
  - rewrite orb_true_iff, IHa, IHb. split.
    + intros [H | H]; [now apply LangAltL | now apply LangAltR].
    + intros H. inversion H; subst; tauto.
  - split; [constructor | reflexivity].
Qed.

(** A non-empty string of a starred pattern starts with a non-empty string
    of the pattern. *)
Lemma Lang_Star_cons (a : regex) (c : ascii) (s : string) :
  Lang (Star a) (String c s) ->
  exists s1 s2, s = s1 ++ s2 /\ Lang a (String c s1) /\ Lang (Star a) s2.
Proof.
  intros H. remember (Star a) as r eqn:Er. remember (String c s) as w eqn:Ew.
  revert a c s Er Ew.
  induction H as [| | | | | |a' s' t Hs _ Ht IHt]; intros a0 c0 s0 Er Ew;
    try discriminate.
  injection Er as ->.
  destruct s' as [|d s'].
  - simpl in Ew. now apply IHt.
  - simpl in Ew. injection Ew as -> <-. exists s', t. now repeat split.
Qed.

Lemma deriv_Lang (r : regex) (c : ascii) (s : string) :
  Lang (deriv c r) s <-> Lang r (String c s).
Proof.
  revert s. induction r as [| |n rs|a IHa b IHb|a IHa b IHb|a IHa]; intros s;
    simpl.
  - split; intros H; inversion H.
  - split; intros H; inversion H.
  - destruct (classHas n rs c) eqn:E; split; intros H; inversion H; subst.
    + now constructor.
    + constructor.
    + congruence.
  - destruct (nullable a) eqn:Hn.
    + split.
      * intros H. inversion H as [| | |a' b' s' H1| a' b' s' H1| |]; subst.
        -- inversion H1 as [| |a' b' s1 s2 Hs1 Hs2| | | |]; subst.
           apply IHa in Hs1. apply (LangCat a b (String c s1) s2 Hs1 Hs2).
        -- apply IHb in H1. apply nullable_Lang in Hn.
           apply (LangCat a b "" (String c s) Hn H1).
      * intros H. inversion H as [| |a' b' s1 s2 Hs1 Hs2 E1 E2| | | |]; subst.
        destruct s1 as [|d s1]; simpl in E2.
        -- subst s2. apply LangAltR. now apply IHb.
        -- injection E2 as -> <-. apply LangAltL.
           apply LangCat; [now apply IHa | assumption].
    + split.
      * intros H. inversion H as [| |a' b' s1 s2 Hs1 Hs2| | | |]; subst.
        apply IHa in Hs1. apply (LangCat a b (String c s1) s2 Hs1 Hs2).
      * intros H. inversion H as [| |a' b' s1 s2 Hs1 Hs2 E1 E2| | | |]; subst.
        destruct s1 as [|d s1]; simpl in E2.
        -- apply nullable_Lang in Hs1. congruence.
        -- injection E2 as -> <-.
           apply LangCat; [now apply IHa | assumption].
  - split; intros H; inversion H; subst.
    + apply LangAltL. now apply IHa.
    + apply LangAltR. now apply IHb.
    + apply LangAltL. now apply IHa.
    + apply LangAltR. now apply IHb.
  - split.
    + intros H. inversion H as [| |a' b' s1 s2 Hs1 Hs2| | | |]; subst.
      apply IHa in Hs1. apply (LangStarApp a (String c s1) s2 Hs1 Hs2).
    + intros H. apply Lang_Star_cons in H as (s1 & s2 & -> & H1 & H2).
      apply LangCat; [now apply IHa | assumption].
Qed.

(** The matcher decides the language of the pattern. *)
Lemma matches_Lang (r : regex) (s : string) : matches r s = true <-> Lang r s.
Proof.
  revert r. induction s as [|c s IH]; intros r; simpl.
  - apply nullable_Lang.
  - rewrite IH. apply deriv_Lang.
Qed.

Lemma Lang_Class_iff (n : bool) (rs : list (ascii * ascii)) (s : string) :
  Lang (Class n rs) s <-> exists c, s = String c "" /\ classHas n rs c = true.
Proof.
  split.
  - intros H. inversion H; subst. eauto.
  - intros (c & -> & H). now constructor.
Qed.

Lemma Lang_Cat_iff (a b : regex) (w : string) :
  Lang (Cat a b) w <-> exists s t, w = s ++ t /\ Lang a s /\ Lang b t.
Proof.
  split.
  - intros H. inversion H; subst. eauto.
  - intros (s & t & -> & Hs & Ht). now constructor.
Qed.

Lemma Lang_Opt_iff (r : regex) (s : string) :
  Lang (Opt r) s <-> s = "" \/ Lang r s.
Proof.
  unfold Opt. split.
  - intros H. inversion H as [| | |a b s' H1|a b s' H1| |]; subst;
      [left; now inversion H1 | now right].
  - intros [-> | H]; [apply LangAltL; constructor | now apply LangAltR].
Qed.

Lemma inRange_single (c x : ascii) : inRange c (single x) = Ascii.eqb c x.
Proof.
  unfold inRange, single. simpl. destruct (Ascii.eqb_spec c x) as [-> | Hne].
  - now rewrite N.leb_refl.
  - destruct (N.leb_spec (N_of_ascii x) (N_of_ascii c)) as [H1|H1];
      [| reflexivity].
    destruct (N.leb_spec (N_of_ascii c) (N_of_ascii x)) as [H2|H2];
      [| reflexivity].
    exfalso. apply Hne.
    rewrite <- (ascii_N_embedding c), <- (ascii_N_embedding x).
    f_equal. lia.
Qed.

Lemma Dot_iff (c : ascii) : classHas true [single RebuildSpec.LF] c = true <-> c <> RebuildSpec.LF.
Proof.
  unfold classHas. simpl. rewrite inRange_single, orb_false_r.
  destruct (Ascii.eqb_spec c RebuildSpec.LF); simpl; split; congruence.
Qed.

Lemma free_of_app (c : ascii) (a b : string) :
  free_of c (a ++ b) <-> free_of c a /\ free_of c b.
Proof. induction a as [|x a IH]; simpl; [tauto | rewrite IH; tauto]. Qed.

(** The wildcard, starred, matches the strings without a line feed. *)
Lemma Lang_StarDot (s : string) : Lang (Star Dot) s <-> free_of RebuildSpec.LF s.
Proof.
  split.
  - intros H. remember (Star Dot) as r eqn:Er.
    induction H as [| | | | | |a s t Hs _ Ht IHt]; try discriminate.
    + exact I.
    + injection Er as ->. apply free_of_app. split; [| now apply IHt].
      apply Lang_Class_iff in Hs as (c & -> & Hc). apply Dot_iff in Hc.
      simpl. now split.
  - induction s as [|c s IH]; simpl; [constructor |].
    intros [Hc Hs]. apply (LangStarApp Dot (String c "") s); [| now apply IH].
    constructor. now apply Dot_iff.
Qed.

Lemma Lang_tagPrefix (pre : string) :
  Lang tagPrefix pre
  <-> pre = ""
      \/ exists q c, pre = q ++ String c "" /\ free_of RebuildSpec.LF q
                     /\ RebuildSpec.isDigit c = false.
Proof.
  unfold tagPrefix. rewrite Lang_Opt_iff, Lang_Cat_iff.
  apply or_iff_compat_l. split.
  - intros (q & t & -> & Hq & Ht). apply Lang_StarDot in Hq.
    apply Lang_Class_iff in Ht as (c & -> & Hc). exists q, c.
    repeat split; trivial. unfold classHas in Hc. simpl in Hc.
    rewrite orb_false_r in Hc. now apply negb_true_iff in Hc.
  - intros (q & c & -> & Hq & Hc). exists q, (String c "").
    repeat split; [now apply Lang_StarDot |]. constructor.
    unfold classHas. simpl. rewrite orb_false_r. now apply negb_true_iff.
Qed.

Lemma marker_class (c : ascii) :
  classHas true (map single ["a"; "b"; "d"; "p"; "-"; "."]%char) c
  = negb (RebuildSpec.isMarker c).
Proof.
  unfold classHas, RebuildSpec.isMarker. simpl. now rewrite !inRange_single.
Qed.

Lemma Lang_tagSuffix (suf : string) :
  Lang tagSuffix suf
  <-> suf = ""
      \/ exists c r, suf = String c r /\ RebuildSpec.isMarker c = false
                     /\ free_of RebuildSpec.LF r.
Proof.
  unfold tagSuffix. rewrite Lang_Opt_iff, Lang_Cat_iff.
  apply or_iff_compat_l. split.
  - intros (s & r & -> & Hs & Hr). apply Lang_StarDot in Hr.
    apply Lang_Class_iff in Hs as (c & -> & Hc). exists c, r.
    rewrite marker_class in Hc. apply negb_true_iff in Hc. now repeat split.
  - intros (c & r & -> & Hc & Hr). exists (String c ""), r.
    repeat split; [| now apply Lang_StarDot]. constructor.
    rewrite marker_class. now apply negb_true_iff.
Qed.

(** A plain version, read as a pattern, matches itself only. *)
Lemma Lang_plainVersion (v : string) :
  RebuildSpec.plainVersion v = true ->
  exists rv, versionPattern v = Some rv /\ forall s, Lang rv s <-> s = v.
Proof.
  unfold RebuildSpec.plainVersion. induction v as [|c v IH]; simpl.
  - intros _. exists Eps. split; [reflexivity |]. intros s. split.
    + intros H. now inversion H.
    + intros ->. constructor.
  - rewrite !andb_true_iff, !negb_true_iff. intros [[Hdot Hmeta] Hv].
    destruct (IH Hv) as (rv & -> & Hrv). rewrite Hmeta, Hdot.
    eexists. split; [reflexivity |]. intros s.
    rewrite Lang_Cat_iff. split.
    + intros (s1 & s2 & -> & H1 & H2). apply Hrv in H2 as ->.
      apply Lang_Class_iff in H1 as (d & -> & Hd).
      unfold classHas in Hd. simpl in Hd.
      change (c, c) with (single c) in Hd.
      rewrite inRange_single, orb_false_r in Hd.
      apply Ascii.eqb_eq in Hd as ->. reflexivity.
    + intros ->. exists (String c ""), v. repeat split; [| now apply Hrv].
      constructor. unfold classHas. simpl. change (c, c) with (single c).
      now rewrite inRange_single, Ascii.eqb_refl.
Qed.

(** X15.  For a version in which every byte stands for itself in a
    pattern (no dot, no metacharacter) and a tag without line feed, the
    pattern accepts exactly the tags made of an optional prefix ending in a
    non-digit, the version, and nothing or a suffix that does not start
    with one of [a b d p - .]. *)
Lemma tagRegexp_plainVersion (version tag : string) :
  RebuildSpec.plainVersion version = true ->
  free_of RebuildSpec.LF tag ->
  exists re,
    tagRegexp version = Some re
    /\ (MatchString re tag = true <-> RebuildSpec.tagAccepted version tag).
Proof.
  intros Hv Htag. destruct (Lang_plainVersion version Hv) as (rv & Erv & Hrv).
  unfold tagRegexp. rewrite Erv. eexists. split; [reflexivity |].
  unfold MatchString, RebuildSpec.tagAccepted.
  rewrite matches_Lang, Lang_Cat_iff. split.
  - intros (pre & rest & -> & Hpre & Hrest).
    apply Lang_Cat_iff in Hrest as (m & suf & -> & Hm & Hsuf).
    apply Hrv in Hm as ->. exists pre, suf. split; [reflexivity |].
    apply Lang_tagPrefix in Hpre. apply Lang_tagSuffix in Hsuf. split.
    + destruct Hpre as [-> | (q & c & -> & _ & Hc)]; [now left | right; eauto].
    + destruct Hsuf as [-> | (c & r & -> & Hc & _)]; [now left | right; eauto].
  - intros (pre & suf & -> & Hpre & Hsuf).
    apply free_of_app in Htag as [Hfpre Htag].
    apply free_of_app in Htag as [_ Hfsuf].
    exists pre, (version ++ suf). repeat split.
    + apply Lang_tagPrefix.
      destruct Hpre as [-> | (q & c & -> & Hc)]; [now left | right].
      exists q, c. apply free_of_app in Hfpre as [Hq _]. now repeat split.
    + apply Lang_Cat_iff. exists version, suf. repeat split; [now apply Hrv |].
      apply Lang_tagSuffix.
      destruct Hsuf as [-> | (c & r & -> & Hc)]; [now left | right].
      exists c, r. simpl in Hfsuf. destruct Hfsuf as [_ Hr]. now repeat split.
Qed.

End RegexpFacts.

(** ** Rebuild pipeline *)

Module RebuilderFacts.
Import GoStrings Release InToto Filepath Regexp CloudBuild Rebuilder.
Import StringFacts.

Lemma Forall2_Forall_r {A B : Type} (R : A -> B -> Prop) (Q : B -> Prop)
    (l : list A) (l' : list B) :
  Forall2 R l l' ->
  (forall a b, In a l -> R a b -> Q b) ->
  Forall Q l'.
Proof.
  induction 1 as [|a b l l' Hab Hall IH]; intros HQ; constructor.
  - apply (HQ a b); [now left | assumption].
  - apply IH. intros a' b' Hin. apply HQ. now right.
Qed.

Section World.
Variable project : string.
Variable FindStringSubmatch : string -> string -> list string.
Variable pypiMetadata : string -> outcome PyPiProject.
Variable get : string -> outcome string.
Variable zipNewReader : string -> result (list WheelFile).
Variable ListTags : string -> string -> result (list string).
Variable GetContents : string -> string -> string -> string -> option string.
Variable GetCommitSHA1 : string -> string -> string -> result string.
Variable BuildsCreate : string -> Build -> result Operation.
Variable polls : list (result Operation).
Variable start finish : Z.

(** The interpreter named in the recipe is always the one supported
    version: another version found in the wheel ends the rebuild. *)
Lemma inspectFile_python (st st' : Inspect) (f : WheelFile) :
  python st = "python3.9" ->
  inspectFile FindStringSubmatch st f = Return st' ->
  python st' = "python3.9".
Proof.
  intros Hp. unfold inspectFile.
  destruct (HasSuffix (wName f) ".dist-info/METADATA").
  { destruct (wData f); cbn [obind orFatal]; [| discriminate].
    now intros [= <-]. }
  destruct (HasSuffix (wName f) ".dist-info/WHEEL").
  { destruct (wData f); cbn [obind orFatal]; [| discriminate].
    now intros [= <-]. }
  destruct (HasSuffix (wName f) "-nspkg.pth"); [| now intros [= <-]].
  destruct (FindStringSubmatch pthRe (wName f)) as [|s0 segs];
    [now intros [= <-] |].
  destruct (nth_error (s0 :: segs) 1) as [version|]; [| discriminate].
  destruct (String.eqb_spec version "3.9") as [-> | Hne]; cbn [negb];
    [| discriminate].
  now intros [= <-].
Qed.

Lemma inspectFiles_python (files : list WheelFile) (st st' : Inspect) :
  python st = "python3.9" ->
  inspectFiles FindStringSubmatch st files = Return st' ->
  python st' = "python3.9".
Proof.
  revert st. induction files as [|f rest IH]; intros st Hp; simpl.
  - now intros [= <-].
  - destruct (inspectFile FindStringSubmatch st f) as [st1| | |] eqn:E;
      cbn [obind]; try discriminate.
    apply IH. now apply (inspectFile_python st st1 f).
Qed.

(** What a successful rebuild of a wheel went through. *)
Lemma rebuildWheel_Return (wheel : Release) (pkg repo tag packageRoot : string)
    (stmt : ProvenanceStatement) :
  rebuildWheel project FindStringSubmatch get zipNewReader GetCommitSHA1
    BuildsCreate polls start finish wheel pkg repo tag packageRoot
  = Return stmt ->
  exists setuptools generator op hash,
    BuildsCreate project
      (wheelBuild project wheel repo tag setuptools ("==" ++ generator)
         packageRoot) = Ok op
    /\ stmt = wheelStatement wheel repo tag packageRoot "python3.9" setuptools
                ("==" ++ generator) hash start finish.
Proof.
  unfold rebuildWheel.
  destruct (get (URL wheel)) as [origWhl| | |]; cbn [obind]; try discriminate.
  destruct (zipNewReader origWhl) as [files|]; cbn [obind orFatal];
    [| discriminate].
  destruct (inspectFiles FindStringSubmatch _ files) as [st| | |] eqn:Hst;
    cbn [obind]; try discriminate.
  apply inspectFiles_python in Hst; [| reflexivity].
  destruct (String.length (metadata st) =? 0)%nat; [discriminate |].
  destruct (nth_error (FindStringSubmatch generatorRe (wheelInfo st)) 1)
    as [generator|]; [| discriminate].
  destruct (BuildsCreate project _) as [op|] eqn:Hop; cbn [obind orReturn];
    [| discriminate].
  destruct (waitDone op polls) as [op'| | |]; cbn [obind]; try discriminate.
  destruct (OpError op'); [discriminate |].
  destruct (nth_error (Split repo "/") 1) as [owner|];
    destruct (nth_error (Split repo "/") 2) as [name|]; try discriminate.
  destruct (GetCommitSHA1 owner name tag) as [hash|]; cbn [obind orFatal];
    [| discriminate].
  intros [= <-]. rewrite Hst.
  exists (setuptoolsPin (metadata st)), generator, op, hash.
  split; [exact Hop | reflexivity].
Qed.

Lemma rebuildAll_Return (pkg repo tag packageDir version : string)
    (rs : list Release) (stmts out : list ProvenanceStatement) :
  rebuildAll project FindStringSubmatch get zipNewReader GetCommitSHA1
    BuildsCreate polls start finish pkg repo tag packageDir version rs stmts
  = Return out ->
  exists added,
    out = (stmts ++ added)%list
    /\ Forall2
         (fun r stmt =>
            rebuildWheel project FindStringSubmatch get zipNewReader
              GetCommitSHA1 BuildsCreate polls start finish r pkg repo tag
              packageDir = Return stmt)
         rs added.
Proof.
  revert stmts. induction rs as [|r rest IH]; intros stmts; simpl.
  - intros [= <-]. exists []. split; [now rewrite List.app_nil_r | constructor].
  - destruct (getReleaseType (Filename r)); try discriminate.
    destruct (rebuildWheel _ _ _ _ _ _ _ _ _ r pkg repo tag packageDir)
      as [prov| | |] eqn:Hr; cbn [obind]; try discriminate.
    intros H. apply IH in H as (added & -> & Hall).
    exists (prov :: added). split; [now rewrite <- List.app_assoc |].
    now constructor.
Qed.

Lemma toRebuild_In (releases : list Release) (types : list ReleaseType)
    (r : Release) :
  In r (toRebuild releases types) ->
  In r releases /\ PythonVersion r <> "py2".
Proof.
  unfold toRebuild. rewrite in_flat_map. intros (r0 & Hin & Hr).
  rewrite in_flat_map in Hr. destruct Hr as (t & _ & Hr).
  destruct (String.eqb_spec (PythonVersion r0) "py2") as [|Hne]; [destruct Hr |].
  destruct (ReleaseType_eqb t (getReleaseType (Filename r0))); [| destruct Hr].
  destruct Hr as [<- | []]. now split.
Qed.

(** What a successful call of [Rebuild] went through. *)
Lemma Rebuild_Return (pkg repo : string) (opt : RebuilderOptions)
    (stmts : list ProvenanceStatement) :
  Rebuild project FindStringSubmatch pypiMetadata get zipNewReader ListTags
    GetContents GetCommitSHA1 BuildsCreate polls start finish pkg repo opt
  = Return stmts ->
  exists proj re tags packageDir,
    pypiMetadata pkg = Return proj
    /\ tagRegexp (resolveVersion proj (Version opt)) = Some re
    /\ selectTag re tags <> ""
    /\ Forall2
         (fun r stmt =>
            rebuildWheel project FindStringSubmatch get zipNewReader
              GetCommitSHA1 BuildsCreate polls start finish r pkg repo
              (selectTag re tags) packageDir = Return stmt)
         (toRebuild (releasesOf proj (resolveVersion proj (Version opt)))
            (Types opt))
         stmts.
Proof.
  unfold Rebuild.
  destruct (pypiMetadata pkg) as [proj| | |] eqn:Hp; cbn [obind];
    try discriminate.
  destruct (List.length _ =? 0)%nat; [discriminate |].
  destruct (nth_error (FindStringSubmatch repoRe repo) 1) as [owner|];
    destruct (nth_error (FindStringSubmatch repoRe repo) 2) as [name|];
    try discriminate.
  destruct (tagRegexp (resolveVersion proj (Version opt))) as [re|] eqn:Hre;
    [| discriminate].
  destruct (ListTags owner name) as [tags|]; cbn [obind orReturn];
    [| discriminate].
  destruct (String.eqb_spec (selectTag re tags) "") as [|Hne]; [discriminate |].
  destruct (GetContents _ _ _ _); [| discriminate].
  intros H. apply rebuildAll_Return in H as (added & -> & Hall).
  exists proj, re, tags. eexists. repeat split; trivial. exact Hall.
Qed.

(** C8, as the code does it.  On a successful rebuild of a wheel, a build
    was handed to the external builder whose substitutions carry the tag,
    the repository, the two pinned tool versions and the package root, and
    the recipe's argument list is five command lines in a fixed form built
    from those same five values and the one supported interpreter: the
    clone at the tag, the creation of the environment, the installation of
    the pinned tools, the change to the package root and the build step. *)
Theorem recipe_arguments_recorded (wheel : Release)
    (pkg repo tag packageRoot : string) (stmt : ProvenanceStatement) :
  rebuildWheel project FindStringSubmatch get zipNewReader GetCommitSHA1
    BuildsCreate polls start finish wheel pkg repo tag packageRoot
  = Return stmt ->
  exists setuptools wheelPin build op,
    build = wheelBuild project wheel repo tag setuptools wheelPin packageRoot
    /\ BuildsCreate project build = Ok op
    /\ lookup "_TAG" (Substitutions build) = Some tag
    /\ lookup "_REPO" (Substitutions build) = Some repo
    /\ lookup "_SETUPTOOLS" (Substitutions build) = Some setuptools
    /\ lookup "_WHEEL" (Substitutions build) = Some wheelPin
    /\ lookup "_PACKAGEROOT" (Substitutions build) = Some packageRoot
    /\ RecipeArguments (Recipe (Predicate stmt))
       = [ "git clone --branch=" ++ tag ++ " --single-branch " ++ repo;
           "python3.9 -m venv /tmp/env";
           "/tmp/env/bin/pip3 install setuptools" ++ setuptools ++ " wheel"
             ++ wheelPin;
           "cd " ++ packageRoot;
           "/tmp/env/bin/python3.9 setup.py build bdist_wheel" ].
Proof.
  intros H.
  apply rebuildWheel_Return in H as (setuptools & generator & op & hash & Hop & ->).
  exists setuptools, ("==" ++ generator). eexists. exists op.
  split; [reflexivity |]. split; [exact Hop |]. repeat split.
Qed.

(** C10.  The statement of a successfully rebuilt wheel has one subject,
    named by the file name of the published artifact and carrying the
    SHA-256 digest that the package index reports for it; this holds
    whatever bytes the download and the build gave.  Every statement
    returned by [Rebuild] is about a release that the index lists for the
    resolved version. *)
Theorem rebuild_subject_from_index :
  (forall wheel pkg repo tag packageRoot stmt,
     rebuildWheel project FindStringSubmatch get zipNewReader GetCommitSHA1
       BuildsCreate polls start finish wheel pkg repo tag packageRoot
     = Return stmt ->
     Subjects stmt
     = [{| Name := Filename wheel;
           Digest := {[ "sha256" := SHA256 (digests wheel) ]} |}])
  /\ (forall pkg repo opt stmts,
        Rebuild project FindStringSubmatch pypiMetadata get zipNewReader
          ListTags GetContents GetCommitSHA1 BuildsCreate polls start finish
          pkg repo opt = Return stmts ->
        exists proj,
          pypiMetadata pkg = Return proj
          /\ Forall
               (fun stmt =>
                  exists r,
                    In r (releasesOf proj (resolveVersion proj (Version opt)))
                    /\ Subjects stmt
                       = [{| Name := Filename r;
                             Digest := {[ "sha256" := SHA256 (digests r) ]} |}])
               stmts).
Proof.
  assert (Hw : forall wheel pkg repo tag packageRoot stmt,
             rebuildWheel project FindStringSubmatch get zipNewReader
               GetCommitSHA1 BuildsCreate polls start finish wheel pkg repo tag
               packageRoot = Return stmt ->
             Subjects stmt
             = [{| Name := Filename wheel;
                   Digest := {[ "sha256" := SHA256 (digests wheel) ]} |}]).
  { intros wheel pkg repo tag packageRoot stmt H.
    apply rebuildWheel_Return in H as (? & ? & ? & ? & _ & ->). reflexivity. }
  split; [exact Hw |].
  intros pkg repo opt stmts H.
  apply Rebuild_Return in H as (proj & re & tags & dir & Hp & _ & _ & Hall).
  exists proj. split; [exact Hp |].
  apply (Forall2_Forall_r _ _ _ _ Hall).
  intros r stmt Hin Hr. exists r. split; [| now apply Hw in Hr].
  now apply toRebuild_In in Hin.
Qed.

End World.

Import Fixtures.

Lemma recipe_arguments_recorded_witness :
  exists stmt,
    rebuildIdnaWheel = Return stmt
    /\ exists setuptools wheelPin build op,
         build = wheelBuild "demo" idnaWheel "github.com/kjd/idna" "v3.3"
                   setuptools wheelPin "."
         /\ (fun _ _ => Ok pending) "demo" build = Ok op
         /\ lookup "_TAG" (Substitutions build) = Some "v3.3"
         /\ lookup "_REPO" (Substitutions build) = Some "github.com/kjd/idna"
         /\ lookup "_SETUPTOOLS" (Substitutions build) = Some setuptools
         /\ lookup "_WHEEL" (Substitutions build) = Some wheelPin
         /\ lookup "_PACKAGEROOT" (Substitutions build) = Some "."
         /\ RecipeArguments (Recipe (Predicate stmt))
            = [ "git clone --branch=" ++ "v3.3" ++ " --single-branch "
                  ++ "github.com/kjd/idna";
                "python3.9 -m venv /tmp/env";
                "/tmp/env/bin/pip3 install setuptools" ++ setuptools
                  ++ " wheel" ++ wheelPin;
                "cd " ++ ".";
                "/tmp/env/bin/python3.9 setup.py build bdist_wheel" ].
Proof.
  eexists. split; [vm_compute; reflexivity |].
  apply (recipe_arguments_recorded "demo" submatch
           (fun _ => Return "bytes of the published wheel")
           (fun _ => Ok idnaFiles) (fun _ _ _ => Ok "sha1-of-tag")
           (fun _ _ => Ok pending) [Ok pending; Ok finished] 10 20
           idnaWheel "idna" "github.com/kjd/idna" "v3.3" ".").
  vm_compute. reflexivity.
Defined.

(** Where the code leaves C8 as worded: in a rebuild of idna 3.3 that
    succeeds, no argument written into the recipe is a command line of the
    build that was run. *)
Lemma recipe_arguments_not_verbatim :
  exists stmt,
    rebuildIdnaWheel = Return stmt
    /\ idnaBuild
       = wheelBuild "demo" idnaWheel "github.com/kjd/idna" "v3.3"
           (setuptoolsPin "Metadata-Version: 2.1 License-File: LICENSE.md")
           ("==" ++ "0.37.0") "."
    /\ nth 0 (RecipeArguments (Recipe (Predicate stmt))) ""
       = "git clone --branch=v3.3 --single-branch github.com/kjd/idna"
    /\ nth 0 (executedCommands idnaBuild) ""
       = "git clone --branch v3.3 --single-branch https://github.com/kjd/idna repo"
    /\ Forall (fun a => ~ In a (executedCommands idnaBuild))
         (RecipeArguments (Recipe (Predicate stmt))).
Proof.
  eexists. split; [vm_compute; reflexivity |].
  split; [reflexivity |]. split; [reflexivity |]. split; [reflexivity |].
  vm_compute. repeat constructor; intros H;
    repeat (destruct H as [H | H]; [discriminate H |]); exact H.
Qed.

Lemma rebuild_subject_from_index_witness :
  exists stmt,
    rebuildIdnaWheel = Return stmt
    /\ Subjects stmt
       = [{| Name := "idna-3.3-py3-none-any.whl";
             Digest := {[ "sha256" := "sha256-of-index" ]} |}].
Proof.
  eexists. split; [vm_compute; reflexivity |].
  apply (proj1 (rebuild_subject_from_index "demo" submatch
                  (fun _ => Return idnaProject)
                  (fun _ => Return "bytes of the published wheel")
                  (fun _ => Ok idnaFiles) (fun _ _ => Ok ["v3.3"])
                  (fun _ _ _ _ => Some "setup.py")
                  (fun _ _ _ => Ok "sha1-of-tag")
                  (fun _ _ => Ok pending) [Ok pending; Ok finished] 10 20)
           idnaWheel "idna" "github.com/kjd/idna" "v3.3" ".").
  vm_compute. reflexivity.
Defined.

(** The five tags of section 8, for version 3.3. *)
Lemma tag_pattern_examples :
  exists re,
    tagRegexp "3.3" = Some re
    /\ map (MatchString re) ["3.3"; "v3.3"; "3.3.1"; "3.3a1"; "3.3.dev0"]
       = [true; true; false; false; false]
    /\ selectTag re ["3.3.1"; "3.3a1"; "v3.3"; "3.3"] = "v3.3".
Proof. eexists. repeat split; vm_compute; reflexivity. Qed.

Lemma not_tagAccepted_3x3 : ~ RebuildSpec.tagAccepted "3.3" "3x3".
Proof.
  intros (pre & suf & E & _).
  assert (Hlen : String.length "3x3"
                 = String.length pre + (3 + String.length suf)).
  { rewrite E, !length_app. reflexivity. }
  simpl in Hlen.
  destruct pre; [| simpl in Hlen; lia].
  destruct suf; [| simpl in Hlen; lia].
  discriminate E.
Qed.

(** C6 at the failing input.  For version 3.3 the pattern is compiled with
    the dot of the version as the wildcard: the tag [3x3], which does not
    hold the version, matches, and being first in the listing it is the tag
    the rebuild is made from. *)
Theorem tag_pattern_dot_is_wildcard :
  exists re,
    tagRegexp "3.3" = Some re
    /\ MatchString re "3x3" = true
    /\ ~ RebuildSpec.tagAccepted "3.3" "3x3"
    /\ selectTag re ["3x3"; "v3.3"] = "3x3"
    /\ exists stmt,
         rebuildIdna ["3x3"; "v3.3"] = Return [stmt]
         /\ map URI (Materials (Predicate stmt))
            = ["git+https://github.com/kjd/idna@3x3"].
Proof.
  eexists. split; [reflexivity |].
  split; [vm_compute; reflexivity |].
  split; [exact not_tagAccepted_3x3 |].
  split; [vm_compute; reflexivity |].
  eexists. split; vm_compute; reflexivity.
Qed.

End RebuilderFacts.

(** ** The subjects of every statement *)

Module StatementFacts.
Import GoStrings Release InToto Policy GoSort GoSortFacts.
Import Monitor MonitorFacts RebuilderFacts.

(** [String.compare] and the comparison of the library's ordered type of
    strings unfold to the same function. *)
Lemma compare_as_OT (a b : string) :
  String.compare a b = OrdersEx.String_as_OT.compare a b.
Proof. reflexivity. Qed.

Lemma leb_cases (a b : string) :
  String.leb a b = true <-> a = b \/ OrdersEx.String_as_OT.lt a b.
Proof.
  unfold String.leb, OrdersEx.String_as_OT.lt.
  change (OrdersEx.String_as_OT.compare a b) with (String.compare a b).
  destruct (String.compare a b) eqn:E.
  - apply String.compare_eq_iff in E. tauto.
  - tauto.
  - split; [discriminate | intros [-> | H]; [| discriminate]].
    pose proof (String.compare_antisym b b) as Ha. rewrite E in Ha.
    discriminate Ha.
Qed.

Lemma leb_trans (a b c : string) :
  String.leb a b = true -> String.leb b c = true -> String.leb a c = true.
Proof.
  rewrite !leb_cases. intros [-> | Hab] [-> | Hbc]; auto.
  right. now transitivity b.
Qed.

Lemma byName_trans : Relations_1.Transitive byName.
Proof. intros a b c. unfold byName. apply leb_trans. Qed.

Lemma ordered_byName (a b : Subject) : ordered Monitor.less a b -> byName a b.
Proof. unfold ordered, Monitor.less, byName. apply not_ltb_leb. Qed.

Lemma Sorted_weaken {A : Type} (R R' : A -> A -> Prop) (l : list A) :
  (forall a b, R a b -> R' a b) -> Sorted R l -> Sorted R' l.
Proof.
  intros HR. induction 1 as [|a l Hs IH Hhd]; constructor; [assumption |].
  destruct Hhd; constructor. now apply HR.
Qed.

(** Sorting the subjects by name gives the same subjects in ascending
    order of their names. *)
Lemma Slice_byName (subjects : list Subject) :
  Permutation subjects (Slice Monitor.less subjects)
  /\ StronglySorted byName (Slice Monitor.less subjects).
Proof.
  split; [apply Slice_perm |].
  apply Sorted_StronglySorted; [exact byName_trans |].
  apply (Sorted_weaken (ordered Monitor.less)); [exact ordered_byName |].
  apply Slice_sorted. intros a b. apply ltb_asym.
Qed.

Section Worlds.
Variable project : string.
Variable FindStringSubmatch : string -> string -> list string.
Variable pypiMetadata : string -> outcome PyPiProject.
Variable get : string -> outcome string.
Variable zipNewReader : string -> result (list Rebuilder.WheelFile).
Variable ListTags : string -> string -> result (list string).
Variable GetContents : string -> string -> string -> string -> option string.
Variable GetCommitSHA1 : string -> string -> string -> result string.
Variable BuildsCreate : string -> CloudBuild.Build -> result CloudBuild.Operation.
Variable polls : list (result CloudBuild.Operation).
Variable start finish : Z.
Variable ListWorkflows : string -> string -> result Workflows.
Variable ListWorkflowRunsByID : string -> string -> Z -> result (list WorkflowRun).
Variable ListWorkflowJobs : string -> string -> Z -> result (list WorkflowJob).
Variable ListWorkflowRunArtifacts : string -> string -> Z -> list Artifact.
Variable fetchArchive : Artifact -> result (list ZipFile).
Variable Match : string -> string -> result bool.
Variable sha256hex : string -> string.

(** C4.  A statement returned by the build monitor has a subject list that
    is not empty and ascends by name; it is the sorted arrangement of the
    subjects that the scan of one run's artifacts retained.  Every
    statement returned by the rebuild pipeline has a subject list that is
    not empty and ascends by name.  Sorting any list of subjects gives a
    permutation of it that ascends by name. *)
Theorem statement_subjects_sorted :
  (forall pkg repo opt stmt,
     MonitorBuild pypiMetadata ListWorkflows ListWorkflowRunsByID
       ListWorkflowJobs ListWorkflowRunArtifacts fetchArchive Match sha256hex
       pkg repo opt = Return (Some stmt) ->
     Subjects stmt <> []
     /\ StronglySorted byName (Subjects stmt)
     /\ exists owner name releasedFiles r retained,
          scanArtifacts fetchArchive Match sha256hex r releasedFiles
            (Artifacts (Options opt))
            (ListWorkflowRunArtifacts owner name (runID r)) []
          = Return (retained, false)
          /\ Permutation retained (Subjects stmt)
          /\ Subjects stmt = Slice Monitor.less retained)
  /\ (forall pkg repo opt stmts,
        Rebuilder.Rebuild project FindStringSubmatch pypiMetadata get
          zipNewReader ListTags GetContents GetCommitSHA1 BuildsCreate polls
          start finish pkg repo opt = Return stmts ->
        Forall
          (fun stmt =>
             Subjects stmt <> [] /\ StronglySorted byName (Subjects stmt))
          stmts)
  /\ (forall retained : list Subject,
        Permutation retained (Slice Monitor.less retained)
        /\ StronglySorted byName (Slice Monitor.less retained)).
Proof.
  split; [| split; [| exact Slice_byName]].
  - intros pkg repo opt stmt H.
    apply MonitorBuild_Return in H
      as (owner & name & releasedFiles & wf & runs & _ & H).
    apply scanRuns_Some in H as (pre & r & post & _ & _ & H).
    apply examineRun_Some in H as (js & retained & _ & _ & _ & Hs & Hne & ->).
    unfold Subjects. simpl.
    destruct (Slice_byName retained) as [Hperm Hsorted].
    split; [now apply Slice_nonempty |]. split; [exact Hsorted |].
    exists owner, name, releasedFiles, r, retained. now repeat split.
  - intros pkg repo opt stmts H.
    apply Rebuild_Return in H as (proj & re & tags & dir & _ & _ & _ & Hall).
    apply (Forall2_Forall_r _ _ _ _ Hall).
    intros r stmt _ Hr.
    apply rebuildWheel_Return in Hr as (? & ? & ? & ? & _ & ->).
    unfold Subjects. simpl. split; [discriminate |].
    repeat constructor.
Qed.

End Worlds.

Import Fixtures.

(** The archive lists [b], [c], [a]; the statement lists [a], [b]. *)
Lemma statement_subjects_sorted_witness :
  exists stmt,
    monitorWith [run0; run1; run2] downloads = Return (Some stmt)
    /\ map Name (Subjects stmt) = ["a-1.0.tar.gz"; "b-1.0-py3-none-any.whl"]
    /\ Subjects stmt <> []
    /\ StronglySorted byName (Subjects stmt).
Proof.
  eexists. split; [vm_compute; reflexivity |]. split; [reflexivity |].
  destruct (statement_subjects_sorted "demo" submatch (fun _ => Return project)
              (fun _ => Return "") (fun _ => Ok []) (fun _ _ => Ok [])
              (fun _ _ _ _ => None) (fun _ _ _ => Ok "")
              (fun _ _ => Ok pending) [] 0%Z 0%Z
              (fun _ _ => Ok workflows) (fun _ _ _ => Ok [run0; run1; run2])
              jobsOf (fun _ _ _ => [dist]) downloads matchStar tagged)
    as (Hm & _ & _).
  destruct (Hm "pkg" "github.com/o/n" monitorOptions _
              ltac:(vm_compute; reflexivity)) as (Hne & Hs & _).
  split; [exact Hne | exact Hs].
Defined.

End StatementFacts.

(** ** Policy store *)

Module PolicyStoreFacts.
Import GoStrings Filepath Policy PolicyStore Fixtures.

(** With the policies at the root of the repository and the default
    directory, the bulk fetch names scope and package as the single fetch
    does. *)
Lemma fetchPolicies_at_root :
  exists p q,
    fetchAll rootTree "." = Return [p]
    /\ fetchOne rootTree "." "pypi" "idna" = Ok q
    /\ p = q
    /\ Scope p = "pypi" /\ Package p = "idna".
Proof. eexists. eexists. repeat split; vm_compute; reflexivity. Qed.

(** C9 at the failing input.  With the policy directory [policy] of the
    deployment, the file [policy/pypi/idna/policy.yaml] is found and
    parsed, but its policy gets the scope [policy] and the package [pypi]:
    the first two elements of the path, not the two above the file name.
    The single fetch of scope [pypi], package [idna] reads the same file
    and names it rightly. *)
Theorem fetchPolicies_names_from_path_start :
  exists p q,
    fetchAll policyTree "policy" = Return [p]
    /\ Scope p = "policy" /\ Package p = "pypi"
    /\ fetchOne policyTree "policy" "pypi" "idna" = Ok q
    /\ Scope q = "pypi" /\ Package q = "idna"
    /\ Repo p = Repo q /\ PolicyDigest p = PolicyDigest q.
Proof. eexists. eexists. repeat split; vm_compute; reflexivity. Qed.

End PolicyStoreFacts.

(** ** Upload authorization *)

Module UploadFacts.
Import GoStrings Policy Upload.

Lemma authorized_fold (builders : list string) (email : string) (m : bool) :
  fold_left (fun m a => m || String.eqb a email) builders m
  = m || existsb (fun a => String.eqb a email) builders.
Proof.
  revert m. induction builders as [|a rest IH]; intros m; simpl.
  - now rewrite orb_false_r.
  - rewrite IH. now rewrite orb_assoc.
Qed.

(** The builder is authorized exactly when its identity is an element of
    the list, byte for byte. *)
Lemma authorized_iff (builders : list string) (email : string) :
  authorized builders email = true <-> In email builders.
Proof.
  unfold authorized. rewrite authorized_fold. simpl.
  rewrite existsb_exists. split.
  - intros (a & Hin & E). apply String.eqb_eq in E. now subst.
  - intros Hin. exists email. split; [assumption | apply String.eqb_refl].
Qed.

Section World.
Variable ParseUnverified : string -> result (gmap string claim).
Variable fetchPolicy : string -> string -> string -> result Policy.
Variable Statement Envelope : Type.
Variable jsonUnmarshal : string -> result Statement.
Variable EncodeCanonical : Statement -> result string.
Variable NewDSSE : string -> result Envelope.
Variable jsonMarshal : Envelope -> result string.
Variable firestoreNewClient : result unit.
Variable firestoreSet : Document -> result unit.


Lemma length_nonzero (s : string) : s <> "" -> (String.length s =? 0)%nat = false.
Proof. destruct s; simpl; congruence. Qed.



(** A token without an identity ends the handler. *)
Lemma HandleUpload_no_email (req : Request) (claims : gmap string claim) :
  TrimPrefix (Authorization req) "bearer " <> "" ->
  ParseUnverified (TrimPrefix (Authorization req) "bearer ") = Ok claims ->
  claims !! "email" = None ->
  HandleUpload ParseUnverified fetchPolicy Statement Envelope jsonUnmarshal
    EncodeCanonical NewDSSE jsonMarshal firestoreNewClient firestoreSet req
  = Fatal "interface conversion: interface {} is not string".
Proof.
  intros Hne Hparse Hemail. unfold HandleUpload, authenticatedUser.
  rewrite (length_nonzero _ Hne), Hparse. cbn [obind orReturn].
  now rewrite Hemail.
Qed.

End World.

Import Fixtures.


End UploadFacts.

(** ** More on the build monitor *)

Module MonitorMore.
Import GoStrings Release InToto Policy GoSort Monitor MonitorViews.
Import MonitorFacts.

Lemma lastOf_app {A : Type} (l : list A) (x : A) : lastOf (l ++ [x]) = Some x.
Proof.
  unfold lastOf. rewrite map_app. simpl. now rewrite last_last.
Qed.

Lemma lastOf_cons {A : Type} (x : A) (l : list A) :
  lastOf (x :: l) = match lastOf l with Some y => Some y | None => Some x end.
Proof.
  unfold lastOf. revert x. induction l as [|y l IH]; intros x; [reflexivity |].
  change (List.last (map Some (x :: y :: l)) None)
    with (List.last (map Some (y :: l)) None).
  rewrite IH. now destruct (List.last (map Some l) None).
Qed.

Lemma matchSpec_fold (specs : list ArtifactSpec) (name : string)
    (cur : option ArtifactSpec) (set : bool) :
  fold_left
    (fun (st : option ArtifactSpec * bool) spec =>
       (Some spec, snd st || String.eqb (SpecName spec) name))
    specs (cur, set)
  = (match lastOf specs with Some s => Some s | None => cur end,
     set || existsb (fun spec => String.eqb (SpecName spec) name) specs).
Proof.
  revert cur set. induction specs as [|s rest IH]; intros cur set; simpl.
  - now rewrite orb_false_r.
  - rewrite IH. simpl. rewrite orb_assoc. f_equal.
    rewrite lastOf_cons. now destruct (lastOf rest).
Qed.

(** X1.  An artifact of a run is scanned exactly when some specification
    of the policy bears its name, and the specification then applied is the
    last one of the policy's list, whichever one bears the name. *)
Theorem matchSpec_applies_last (specs : list ArtifactSpec) (name : string) :
  matchSpec specs name
  = if existsb (fun spec => String.eqb (SpecName spec) name) specs
    then lastOf specs else None.
Proof.
  unfold matchSpec. rewrite matchSpec_fold. simpl.
  destruct (existsb _ specs) eqn:E; [| reflexivity].
  destruct (lastOf specs) eqn:El; [reflexivity |].
  destruct specs as [|s rest]; [discriminate E |].
  rewrite lastOf_cons in El. now destruct (lastOf rest).
Qed.

Lemma find_app {A : Type} (f : A -> bool) (l l' : list A) :
  find f (l ++ l')
  = match find f l with Some x => Some x | None => find f l' end.
Proof.
  induction l as [|a l IH]; simpl; [reflexivity |]. now destruct (f a).
Qed.

Lemma releasedFiles_fold (rs : list Release) (m : gmap string Z) (name : string) :
  fold_left (fun m r => <[Filename r := UploadTime r]> m) rs m !! name
  = match find (fun r => String.eqb (Filename r) name) (rev rs) with
    | Some r => Some (UploadTime r)
    | None => m !! name
    end.
Proof.
  revert m. induction rs as [|r rest IH]; intros m; simpl; [reflexivity |].
  rewrite IH. rewrite find_app.
  destruct (find _ (rev rest)) as [r'|]; [reflexivity |]. simpl.
  destruct (String.eqb_spec (Filename r) name) as [<- | Hne].
  - now rewrite lookup_insert_eq.
  - now rewrite lookup_insert_ne.
Qed.

Lemma find_none_iff {A : Type} (f : A -> bool) (l : list A) :
  find f l = None <-> forall x, In x l -> f x = false.
Proof.
  split; [apply find_none |].
  induction l as [|a l IH]; simpl; [reflexivity |]. intros H.
  rewrite (H a) by now left. apply IH. intros x Hx. apply H. now right.
Qed.

(** X2.  The table of released files maps a file name to the upload time
    of the last release of the listing that bears it, and has no entry for
    a name that no release bears. *)
Theorem releasedFilesOf_lookup (rs : list Release) :
  (forall name,
     releasedFilesOf rs !! name = None
     <-> forall r, In r rs -> Filename r <> name)
  /\ (forall pre r post,
        rs = (pre ++ r :: post)%list ->
        (forall r', In r' post -> Filename r' <> Filename r) ->
        releasedFilesOf rs !! Filename r = Some (UploadTime r)).
Proof.
  unfold releasedFilesOf. split.
  - intros name. rewrite releasedFiles_fold, lookup_empty.
    destruct (find _ (rev rs)) as [r|] eqn:E.
    + split; [discriminate |]. intros H. apply find_some in E as [Hin Heq].
      apply in_rev in Hin. apply String.eqb_eq in Heq. now apply H in Hin.
    + split; [| reflexivity]. intros _ r Hin.
      rewrite find_none_iff in E. apply in_rev in Hin.
      apply E in Hin. now apply String.eqb_neq.
  - intros pre r post -> Hpost. rewrite releasedFiles_fold.
    rewrite rev_app_distr. simpl. rewrite <- List.app_assoc, find_app.
    assert (E : find (fun r0 => String.eqb (Filename r0) (Filename r)) (rev post)
                = None).
    { apply find_none_iff. intros x Hx. apply in_rev in Hx.
      apply String.eqb_neq. now apply Hpost. }
    rewrite E. simpl. now rewrite String.eqb_refl.
Qed.






Section World.
Variable pypiMetadata : string -> outcome PyPiProject.
Variable ListWorkflows : string -> string -> result Workflows.
Variable ListWorkflowRunsByID : string -> string -> Z -> result (list WorkflowRun).
Variable ListWorkflowJobs : string -> string -> Z -> result (list WorkflowJob).
Variable ListWorkflowRunArtifacts : string -> string -> Z -> list Artifact.
Variable fetchArchive : Artifact -> result (list ZipFile).
Variable Match : string -> string -> result bool.
Variable sha256hex : string -> string.

Lemma matchPatterns_total (matchB : string -> string -> bool)
    (patterns : list string) (name : string) (matched : bool) :
  (forall pattern n, Match pattern n = Ok (matchB pattern n)) ->
  matchPatterns Match patterns name matched
  = Return (matched || existsb (fun pattern => matchB pattern name) patterns).
Proof.
  intros HM. revert matched.
  induction patterns as [|p rest IH]; intros matched; simpl.
  - now rewrite orb_false_r.
  - rewrite HM. cbn [obind orReturn]. rewrite IH. now rewrite orb_assoc.
Qed.

(** X4.  When no pattern is malformed and the kept entries can be read,
    the scan of an archive appends, in the order of the archive, one
    subject for each entry that some pattern matches and whose release
    file was uploaded in the run's window: the entry's name with the hash
    of its bytes. *)
Theorem scanFiles_keeps_matching (matchB : string -> string -> bool)
    (r : WorkflowRun) (releasedFiles : gmap string Z) (spec : ArtifactSpec)
    (files : list ZipFile) (subjects : list Subject) :
  (forall pattern n, Match pattern n = Ok (matchB pattern n)) ->
  (forall f, In f files -> keptEntry matchB r releasedFiles spec f = true ->
             exists content, zData f = Return content) ->
  scanFiles Match sha256hex r releasedFiles spec files subjects
  = Return
      (subjects
       ++ flat_map
            (fun f =>
               if keptEntry matchB r releasedFiles spec f
               then match zData f with
                    | Return content => [subjectOf sha256hex f content]
                    | _ => []
                    end
               else [])
            files)%list.
Proof.
  intros HM. revert subjects.
  induction files as [|f rest IH]; intros subjects Hread; simpl.
  - now rewrite List.app_nil_r.
  - rewrite (matchPatterns_total matchB) by assumption. cbn [obind orb].
    unfold keptEntry at 1.
    destruct (existsb _ (Patterns spec)) eqn:Em; simpl.
    + destruct (fileTimely r releasedFiles (zName f)) eqn:Et; simpl.
      * destruct (Hread f) as [content Hc]; [now left | |].
        { unfold keptEntry. now rewrite Em, Et. }
        rewrite Hc. cbn [obind].
        rewrite IH by (intros f' Hf'; apply Hread; now right).
        now rewrite <- List.app_assoc.
      * apply IH. intros f' Hf'. apply Hread. now right.
    + apply IH. intros f' Hf'. apply Hread. now right.
Qed.

(** X5.  When the scan of a run's artifacts ends without an expired
    artifact, every artifact that bears a declared name was not expired
    and its archive was downloaded: a statement is never made from a run
    with an expired or unavailable declared artifact. *)
Theorem scanArtifacts_complete (r : WorkflowRun) (releasedFiles : gmap string Z)
    (specs : list ArtifactSpec) (arts : list Artifact)
    (subjects out : list Subject) :
  scanArtifacts fetchArchive Match sha256hex r releasedFiles specs arts subjects
  = Return (out, false) ->
  Forall
    (fun a =>
       matchSpec specs (artName a) = None
       \/ (Expired a = false /\ exists files, fetchArchive a = Ok files))
    arts.
Proof.
  revert subjects. induction arts as [|a rest IH]; intros subjects; simpl.
  - constructor.
  - destruct (matchSpec specs (artName a)) as [spec|] eqn:Em.
    + destruct (Expired a) eqn:Ee; [discriminate |].
      destruct (fetchArchive a) as [files|] eqn:Ef; cbn [obind orReturn];
        [| discriminate].
      destruct (scanFiles _ _ _ _ _ _ _) as [subjects'| | |]; cbn [obind];
        try discriminate.
      intros H. constructor; [right; eauto | now apply IH in H].
    + intros H. constructor; [now left | now apply IH in H].
Qed.

(** X6.  A run that is untimely, or does not pass the gate, is passed over
    whatever the download of its archives would give: once its jobs are
    listed, the result does not depend on the archive service, the pattern
    matcher or the hash. *)
Theorem examineRun_skips_before_download (owner repo : string)
    (opt : MonitorOptions) (releasedFiles : gmap string Z)
    (wf : github_Workflow) (r : WorkflowRun) (js : list WorkflowJob) :
  ListWorkflowJobs owner repo (runID r) = Ok js ->
  runTimely r releasedFiles = false \/ gated opt js = false ->
  forall fetch match_ hash,
    examineRun ListWorkflowJobs ListWorkflowRunArtifacts fetch match_ hash
      owner repo opt releasedFiles wf r = Return None.
Proof.
  intros Hjs H fetch match_ hash. unfold examineRun. rewrite Hjs.
  cbn [obind orFatal]. destruct H as [-> | Hg]; [reflexivity |].
  rewrite Hg. now destruct (runTimely r releasedFiles).
Qed.

(** X7.  A repository that is not on the supported host is an error, and
    one on the host that does not name both an owner and a repository ends
    the process, before any service is asked. *)
Theorem MonitorBuild_repo_shape (pkg repo : string) (opt : MonitorOptions) :
  (HasPrefix repo "github.com/" = false ->
   MonitorBuild pypiMetadata ListWorkflows ListWorkflowRunsByID
     ListWorkflowJobs ListWorkflowRunArtifacts fetchArchive Match sha256hex
     pkg repo opt = Error "Non-github repos not yet supported")
  /\ (HasPrefix repo "github.com/" = true ->
      nth_error (Split repo "/") 2 = None ->
      MonitorBuild pypiMetadata ListWorkflows ListWorkflowRunsByID
        ListWorkflowJobs ListWorkflowRunArtifacts fetchArchive Match sha256hex
        pkg repo opt = Fatal "index out of range").
Proof.
  unfold MonitorBuild. split.
  - intros ->. reflexivity.
  - intros -> ->. cbn [negb]. now destruct (nth_error (Split repo "/") 1).
Qed.

End World.

Import Fixtures.

(** A file listed twice has the upload time of its second listing. *)
Lemma releasedFilesOf_lookup_witness :
  releasedFilesOf [release "a-1.0.tar.gz" 160; release "a-1.0.tar.gz" 170]
    !! "a-1.0.tar.gz" = Some 170%Z.
Proof.
  apply (proj2 (releasedFilesOf_lookup
                  [release "a-1.0.tar.gz" 160; release "a-1.0.tar.gz" 170])
           [release "a-1.0.tar.gz" 160] (release "a-1.0.tar.gz" 170) []).
  - reflexivity.
  - intros r' [].
Defined.


Lemma scanFiles_keeps_matching_witness :
  scanFiles matchStar tagged run1 releasedFiles
    {| SpecName := "dist"; Patterns := ["*"] |} archive []
  = Return
      ([]
       ++ flat_map
            (fun f =>
               if keptEntry (fun p n => String.eqb p "*" || String.eqb p n)
                    run1 releasedFiles
                    {| SpecName := "dist"; Patterns := ["*"] |} f
               then match zData f with
                    | Return content => [subjectOf tagged f content]
                    | _ => []
                    end
               else [])
            archive)%list.
Proof.
  apply (scanFiles_keeps_matching matchStar tagged
           (fun p n => String.eqb p "*" || String.eqb p n)).
  - reflexivity.
  - intros f [<- | [<- | [<- | []]]] _; eexists; reflexivity.
Defined.

Lemma scanArtifacts_complete_witness :
  Forall
    (fun a =>
       matchSpec (Artifacts (Options monitorOptions)) (artName a) = None
       \/ (Expired a = false /\ exists files, downloads a = Ok files))
    [dist].
Proof.
  eapply (scanArtifacts_complete downloads matchStar tagged run1 releasedFiles
            (Artifacts (Options monitorOptions)) [dist] []).
  vm_compute. reflexivity.
Defined.

Lemma examineRun_skips_before_download_witness :
  examineRun jobsOf (fun _ _ _ => [dist]) refused matchStar tagged "o" "n"
    monitorOptions releasedFiles releaseWorkflow run0 = Return None.
Proof.
  apply (examineRun_skips_before_download jobsOf (fun _ _ _ => [dist]) "o" "n"
           monitorOptions releasedFiles releaseWorkflow run0 []).
  - reflexivity.
  - left. vm_compute. reflexivity.
Defined.

Lemma MonitorBuild_repo_shape_witness :
  Monitor.MonitorBuild (fun _ => Return project) (fun _ _ => Ok workflows)
    (fun _ _ _ => Ok [run1]) jobsOf (fun _ _ _ => [dist]) downloads
    matchStar tagged "pkg" "github.com/owner" monitorOptions
  = Fatal "index out of range".
Proof.
  apply (MonitorBuild_repo_shape (fun _ => Return project)
           (fun _ _ => Ok workflows) (fun _ _ _ => Ok [run1]) jobsOf
           (fun _ _ _ => [dist]) downloads matchStar tagged "pkg"
           "github.com/owner" monitorOptions); reflexivity.
Defined.

End MonitorMore.

(** ** More on the rebuild pipeline *)

Module RebuilderMore.
Import GoStrings Release InToto Filepath Regexp CloudBuild Rebuilder.
Import StringFacts RegexpFacts RebuilderFacts.

Lemma ReleaseType_eqb_eq (a b : ReleaseType) :
  ReleaseType_eqb a b = true <-> a = b.
Proof. destruct a, b; simpl; split; congruence. Qed.

(** X8.  The releases handed to the rebuild are those of the listing that
    are not built for Python 2 and whose type, read off the file name, is
    among the requested types; with one requested type they are the
    listing filtered, in its order. *)
Theorem toRebuild_selects (releases : list Release) (types : list ReleaseType) :
  (forall r,
     In r (toRebuild releases types)
     <-> In r releases /\ PythonVersion r <> "py2"
         /\ In (getReleaseType (Filename r)) types)
  /\ (forall t,
        toRebuild releases [t]
        = List.filter
            (fun r => negb (String.eqb (PythonVersion r) "py2")
                      && ReleaseType_eqb t (getReleaseType (Filename r)))
            releases).
Proof.
  split.
  - intros r. unfold toRebuild. rewrite in_flat_map. split.
    + intros (r0 & Hin & Hr). rewrite in_flat_map in Hr.
      destruct Hr as (t & Ht & Hr).
      destruct (String.eqb_spec (PythonVersion r0) "py2"); [destruct Hr |].
      destruct (ReleaseType_eqb t (getReleaseType (Filename r0))) eqn:E;
        [| destruct Hr].
      destruct Hr as [<- | []]. apply ReleaseType_eqb_eq in E. now subst.
    + intros (Hin & Hpy & Ht). exists r. split; [assumption |].
      rewrite in_flat_map. exists (getReleaseType (Filename r)).
      split; [assumption |]. apply String.eqb_neq in Hpy. rewrite Hpy.
      assert (E : ReleaseType_eqb (getReleaseType (Filename r))
                    (getReleaseType (Filename r)) = true)
        by now apply ReleaseType_eqb_eq.
      rewrite E. now left.
  - intros t. unfold toRebuild.
    rewrite (flat_map_ext _
               (fun r => if String.eqb (PythonVersion r) "py2" then []
                         else if ReleaseType_eqb t (getReleaseType (Filename r))
                              then [r] else []))
      by (intros r; simpl; apply List.app_nil_r).
    induction releases as [|r rest IH]; simpl; [reflexivity |].
    rewrite IH. destruct (String.eqb (PythonVersion r) "py2"); simpl;
      [reflexivity |].
    now destruct (ReleaseType_eqb t (getReleaseType (Filename r))).
Qed.

(** X9.  The tag selected for the rebuild, when it is not the empty
    string, is an element of the listing that the pattern matches and that
    no matching tag precedes; when no tag matches, the empty string is
    selected. *)
Theorem selectTag_first_match (re : regex) (tags : list string) :
  (forall t,
     selectTag re tags = t -> t <> "" ->
     exists pre post,
       tags = (pre ++ t :: post)%list
       /\ MatchString re t = true
       /\ Forall (fun t' => MatchString re t' = false) pre)
  /\ (Forall (fun t' => MatchString re t' = false) tags ->
      selectTag re tags = "").
Proof.
  split.
  - induction tags as [|t0 rest IH]; simpl; intros t E Hne; [congruence |].
    destruct (MatchString re t0) eqn:Em.
    + subst t0. exists [], rest. repeat split; [assumption | constructor].
    + destruct (IH t E Hne) as (pre & post & -> & Ht & Hpre).
      exists (t0 :: pre), post. repeat split; [assumption |]. now constructor.
  - induction 1 as [|t0 rest Ht _ IH]; simpl; [reflexivity |]. now rewrite Ht.
Qed.

Lemma Lang_versionPattern (version : string) (rv : regex) :
  versionPattern version = Some rv -> Lang rv version.
Proof.
  revert rv. induction version as [|c v IH]; intros rv; simpl.
  - intros [= <-]. constructor.
  - destruct (isMeta c) eqn:Hmeta; [discriminate |].
    destruct (versionPattern v) as [r|]; [| discriminate].
    intros [= <-]. apply (LangCat _ r (String c "") v); [| now apply IH].
    destruct (Ascii.eqb_spec c "."%char) as [-> | Hne]; constructor.
    + reflexivity.
    + unfold classHas. simpl. change (c, c) with (single c).
      now rewrite inRange_single, Ascii.eqb_refl.
Qed.

(** X10.  For every version that holds no pattern metacharacter other than
    the dot, the tag pattern accepts every tag without line feed that is
    an optional prefix ending in a non-digit, the version itself, and
    nothing or a suffix that does not start with one of [a b d p - .]:
    reading the version as a pattern never makes the selection reject
    such a tag. *)
Theorem tagRegexp_accepts_documented (version tag : string) (re : regex) :
  tagRegexp version = Some re ->
  free_of RebuildSpec.LF tag ->
  RebuildSpec.tagAccepted version tag ->
  MatchString re tag = true.
Proof.
  unfold tagRegexp. destruct (versionPattern version) as [rv|] eqn:Erv;
    [| discriminate].
  intros [= <-] Htag (pre & suf & -> & Hpre & Hsuf).
  apply free_of_app in Htag as [Hfpre Htag].
  apply free_of_app in Htag as [_ Hfsuf].
  unfold MatchString. apply matches_Lang.
  apply LangCat; [| apply LangCat].
  - apply Lang_tagPrefix.
    destruct Hpre as [-> | (q & c & -> & Hc)]; [now left | right].
    exists q, c. apply free_of_app in Hfpre as [Hq _]. now repeat split.
  - now apply Lang_versionPattern.
  - apply Lang_tagSuffix.
    destruct Hsuf as [-> | (c & r & -> & Hc)]; [now left | right].
    exists c, r. simpl in Hfsuf. destruct Hfsuf as [_ Hr]. now repeat split.
Qed.

Lemma suffix_not_both (s a b : string) :
  a <> "" -> b <> "" -> lastByte a <> lastByte b ->
  HasSuffix s a = true -> HasSuffix s b = false.
Proof.
  intros Ha Hb Hne H. apply HasSuffix_iff in H as [p ->].
  now apply ReleaseFacts.HasSuffix_clash.
Qed.

Section World.
Variable project : string.
Variable FindStringSubmatch : string -> string -> list string.
Variable pypiMetadata : string -> outcome PyPiProject.
Variable get : string -> outcome string.
Variable zipNewReader : string -> result (list WheelFile).
Variable ListTags : string -> string -> result (list string).
Variable GetContents : string -> string -> string -> string -> option string.
Variable GetCommitSHA1 : string -> string -> string -> result string.
Variable BuildsCreate : string -> Build -> result Operation.
Variable polls : list (result Operation).
Variable start finish : Z.

Lemma waitDone_Return (answers : list (result Operation)) (op op' : Operation) :
  waitDone op answers = Return op' ->
  Done op' = true /\ (op' = op \/ In (Ok op') answers).
Proof.
  revert op. induction answers as [|a rest IH]; intros op; simpl.
  - destruct (Done op) eqn:Ed; [| discriminate].
    intros [= <-]. split; [assumption | now left].
  - destruct (Done op) eqn:Ed.
    + intros [= <-]. split; [assumption | now left].
    + destruct a as [op1|e]; cbn [obind orFatal]; [| discriminate].
      intros H. apply IH in H as [Hd [-> | Hin]];
        (split; [assumption | right]); [now left | now right].
Qed.

Lemma inspectFile_metadata (st st' : Inspect) (f : WheelFile) :
  inspectFile FindStringSubmatch st f = Return st' ->
  metadata st' = metadata st
  \/ (HasSuffix (wName f) ".dist-info/METADATA" = true
      /\ wData f = Ok (metadata st')).
Proof.
  unfold inspectFile.
  destruct (HasSuffix (wName f) ".dist-info/METADATA") eqn:Em.
  { destruct (wData f) as [bytes|]; cbn [obind orFatal]; [| discriminate].
    intros [= <-]. right. now split. }
  destruct (HasSuffix (wName f) ".dist-info/WHEEL").
  { destruct (wData f); cbn [obind orFatal]; [| discriminate].
    intros [= <-]. now left. }
  destruct (HasSuffix (wName f) "-nspkg.pth"); [| intros [= <-]; now left].
  destruct (FindStringSubmatch pthRe (wName f)) as [|s0 segs];
    [intros [= <-]; now left |].
  destruct (nth_error (s0 :: segs) 1) as [version|]; [| discriminate].
  destruct (negb (String.eqb version "3.9")); [discriminate |].
  intros [= <-]. now left.
Qed.

Lemma inspectFiles_metadata (files : list WheelFile) (st st' : Inspect) :
  inspectFiles FindStringSubmatch st files = Return st' ->
  metadata st' = metadata st
  \/ exists f, In f files
               /\ HasSuffix (wName f) ".dist-info/METADATA" = true
               /\ wData f = Ok (metadata st').
Proof.
  revert st. induction files as [|f rest IH]; intros st; simpl.
  - intros [= <-]. now left.
  - destruct (inspectFile FindStringSubmatch st f) as [st1| | |] eqn:E;
      cbn [obind]; try discriminate.
    intros H. apply IH in H as [Hm | (f' & Hin & Hs & Hd)].
    + apply inspectFile_metadata in E as [E | [Hs Hd]].
      * left. congruence.
      * right. exists f. rewrite Hm. repeat split; trivial. now left.
    + right. exists f'. repeat split; trivial. now right.
Qed.

(** X11.  A statement for a wheel is returned only after the published
    wheel was downloaded and opened and holds an entry ending in
    [.dist-info/METADATA] that is not empty, the external builder accepted
    the build, the build operation was reported done and without error, and
    the source host gave the commit of the tag; the statement's one
    material is the repository at the tag with that commit. *)
Theorem rebuildWheel_only_after_build (wheel : Release)
    (pkg repo tag packageRoot : string) (stmt : ProvenanceStatement) :
  rebuildWheel project FindStringSubmatch get zipNewReader GetCommitSHA1
    BuildsCreate polls start finish wheel pkg repo tag packageRoot
  = Return stmt ->
  exists origWhl files f setuptools wheelPin op op' owner name hash,
    get (URL wheel) = Return origWhl
    /\ zipNewReader origWhl = Ok files
    /\ In f files
    /\ HasSuffix (wName f) ".dist-info/METADATA" = true
    /\ (exists bytes, wData f = Ok bytes /\ bytes <> "")
    /\ BuildsCreate project
         (wheelBuild project wheel repo tag setuptools wheelPin packageRoot)
       = Ok op
    /\ waitDone op polls = Return op'
    /\ Done op' = true
    /\ OpError op' = None
    /\ nth_error (Split repo "/") 1 = Some owner
    /\ nth_error (Split repo "/") 2 = Some name
    /\ GetCommitSHA1 owner name tag = Ok hash
    /\ Materials (Predicate stmt)
       = [{| URI := "git+https://" ++ repo ++ "@" ++ tag;
             MaterialDigest := {[ "sha1" := hash ]} |}].
Proof.
  unfold rebuildWheel.
  destruct (get (URL wheel)) as [origWhl| | |] eqn:Hget; cbn [obind];
    try discriminate.
  destruct (zipNewReader origWhl) as [files|] eqn:Hzip; cbn [obind orFatal];
    [| discriminate].
  destruct (inspectFiles FindStringSubmatch _ files) as [st| | |] eqn:Hst;
    cbn [obind]; try discriminate.
  destruct (String.length (metadata st) =? 0)%nat eqn:Hlen; [discriminate |].
  destruct (nth_error (FindStringSubmatch generatorRe (wheelInfo st)) 1)
    as [generator|]; [| discriminate].
  destruct (BuildsCreate project _) as [op|] eqn:Hop; cbn [obind orReturn];
    [| discriminate].
  destruct (waitDone op polls) as [op'| | |] eqn:Hwait; cbn [obind];
    try discriminate.
  destruct (OpError op') eqn:Herr; [discriminate |].
  destruct (nth_error (Split repo "/") 1) as [owner|] eqn:Ho;
    destruct (nth_error (Split repo "/") 2) as [name|] eqn:Hn;
    try discriminate.
  destruct (GetCommitSHA1 owner name tag) as [hash|] eqn:Hh;
    cbn [obind orFatal]; [| discriminate].
  intros [= <-].
  assert (Hne : metadata st <> "").
  { intros E. rewrite E in Hlen. discriminate. }
  apply inspectFiles_metadata in Hst as [Hm | (f & Hin & Hs & Hd)].
  { simpl in Hm. contradiction. }
  apply waitDone_Return in Hwait as Hdone. destruct Hdone as [Hdone _].
  exists origWhl, files, f, (setuptoolsPin (metadata st)), ("==" ++ generator),
    op, op', owner, name, hash.
  repeat split; trivial. exists (metadata st). now split.
Qed.

(** The loop over the entries of a wheel never leaves a call waiting. *)
Lemma inspectFiles_unsupported (pre post : list WheelFile) (f : WheelFile)
    (st : Inspect) (m v : string) (more : list string) :
  HasSuffix (wName f) "-nspkg.pth" = true ->
  FindStringSubmatch pthRe (wName f) = m :: v :: more ->
  v <> "3.9" ->
  inspectFiles FindStringSubmatch st (pre ++ f :: post)%list
  = Error "Unsupported python version"
  \/ exists msg,
       inspectFiles FindStringSubmatch st (pre ++ f :: post)%list = Fatal msg.
Proof.
  intros Hs Hm Hv. revert st.
  induction pre as [|f0 pre IH]; intros st; simpl.
  - assert (E : inspectFile FindStringSubmatch st f
                = Error "Unsupported python version").
    { unfold inspectFile.
      rewrite (suffix_not_both (wName f) "-nspkg.pth" ".dist-info/METADATA")
        by (trivial; simpl; congruence).
      rewrite (suffix_not_both (wName f) "-nspkg.pth" ".dist-info/WHEEL")
        by (trivial; simpl; congruence).
      rewrite Hs, Hm. simpl. apply String.eqb_neq in Hv. now rewrite Hv. }
    rewrite E. now left.
  - destruct (inspectFile FindStringSubmatch st f0) as [st1|e|e|] eqn:E;
      cbn [obind].
    + apply IH.
    + left. f_equal. revert E. unfold inspectFile.
      destruct (HasSuffix (wName f0) ".dist-info/METADATA").
      { destruct (wData f0); discriminate. }
      destruct (HasSuffix (wName f0) ".dist-info/WHEEL").
      { destruct (wData f0); discriminate. }
      destruct (HasSuffix (wName f0) "-nspkg.pth"); [| discriminate].
      destruct (FindStringSubmatch pthRe (wName f0)) as [|s0 segs];
        [discriminate |].
      destruct (nth_error (s0 :: segs) 1); [| discriminate].
      destruct (negb _); [| discriminate]. now intros [= <-].
    + right. now exists e.
    + exfalso. revert E. unfold inspectFile.
      destruct (HasSuffix (wName f0) ".dist-info/METADATA").
      { destruct (wData f0); discriminate. }
      destruct (HasSuffix (wName f0) ".dist-info/WHEEL").
      { destruct (wData f0); discriminate. }
      destruct (HasSuffix (wName f0) "-nspkg.pth"); [| discriminate].
      destruct (FindStringSubmatch pthRe (wName f0)) as [|s0 segs];
        [discriminate |].
      destruct (nth_error (s0 :: segs) 1); [| discriminate].
      destruct (negb _); discriminate.
Qed.

(** X12.  A published wheel that holds a [-nspkg.pth] entry naming an
    interpreter version other than 3.9 is never rebuilt: the call returns
    the error [Unsupported python version], or the process ended while an
    earlier entry was read; no statement is returned, whatever the builder
    would answer. *)
Theorem rebuildWheel_unsupported_python (wheel : Release)
    (pkg repo tag packageRoot origWhl : string)
    (pre post : list WheelFile) (f : WheelFile) (m v : string)
    (more : list string) :
  get (URL wheel) = Return origWhl ->
  zipNewReader origWhl = Ok (pre ++ f :: post)%list ->
  HasSuffix (wName f) "-nspkg.pth" = true ->
  FindStringSubmatch pthRe (wName f) = m :: v :: more ->
  v <> "3.9" ->
  rebuildWheel project FindStringSubmatch get zipNewReader GetCommitSHA1
    BuildsCreate polls start finish wheel pkg repo tag packageRoot
  = Error "Unsupported python version"
  \/ exists msg,
       rebuildWheel project FindStringSubmatch get zipNewReader GetCommitSHA1
         BuildsCreate polls start finish wheel pkg repo tag packageRoot
       = Fatal msg.
Proof.
  intros Hget Hzip Hs Hm Hv. unfold rebuildWheel.
  rewrite Hget. cbn [obind]. rewrite Hzip. cbn [obind orFatal].
  destruct (inspectFiles_unsupported pre post f
              {| metadata := ""; wheelInfo := ""; python := "python3.9" |}
              m v more Hs Hm Hv) as [E | [msg E]]; rewrite E; cbn [obind].
  - now left.
  - right. now exists msg.
Qed.

Lemma rebuildAll_wheelAny (pkg repo tag packageDir version : string)
    (rs : list Release) (stmts out : list ProvenanceStatement) :
  rebuildAll project FindStringSubmatch get zipNewReader GetCommitSHA1
    BuildsCreate polls start finish pkg repo tag packageDir version rs stmts
  = Return out ->
  Forall (fun r => getReleaseType (Filename r) = wheelAny) rs.
Proof.
  revert stmts. induction rs as [|r rest IH]; intros stmts; simpl.
  - constructor.
  - destruct (getReleaseType (Filename r)) eqn:Et; try discriminate.
    destruct (rebuildWheel _ _ _ _ _ _ _ _ _ r pkg repo tag packageDir)
      as [prov| | |]; cbn [obind]; try discriminate.
    intros H. constructor; [exact Et | now apply IH in H].
Qed.

(** X13.  [Rebuild] returns statements only when every selected release
    is a pure-Python wheel and every one of them was rebuilt: it then
    returns one statement for each selected release, in their order, and at
    least one; a selected release of another type, or one failed rebuild,
    leaves no statement at all. *)
Theorem Rebuild_all_or_nothing (pkg repo : string) (opt : RebuilderOptions)
    (stmts : list ProvenanceStatement) :
  Rebuild project FindStringSubmatch pypiMetadata get zipNewReader ListTags
    GetContents GetCommitSHA1 BuildsCreate polls start finish pkg repo opt
  = Return stmts ->
  exists proj rs,
    pypiMetadata pkg = Return proj
    /\ rs = toRebuild (releasesOf proj (resolveVersion proj (Version opt)))
              (Types opt)
    /\ rs <> []
    /\ Forall (fun r => getReleaseType (Filename r) = wheelAny) rs
    /\ map (fun stmt => map Name (Subjects stmt)) stmts
       = map (fun r => [Filename r]) rs.
Proof.
  unfold Rebuild.
  destruct (pypiMetadata pkg) as [proj| | |] eqn:Hp; cbn [obind];
    try discriminate.
  destruct (toRebuild _ (Types opt)) as [|r0 rs0] eqn:Ers;
    cbn [List.length Nat.eqb]; [discriminate |].
  destruct (nth_error (FindStringSubmatch repoRe repo) 1) as [owner|];
    destruct (nth_error (FindStringSubmatch repoRe repo) 2) as [name|];
    try discriminate.
  destruct (tagRegexp _) as [re|]; [| discriminate].
  destruct (ListTags owner name) as [tags|]; cbn [obind orReturn];
    [| discriminate].
  destruct (String.eqb (selectTag re tags) ""); [discriminate |].
  destruct (GetContents _ _ _ _); [| discriminate].
  intros H. exists proj, (r0 :: rs0).
  split; [reflexivity |]. split; [now rewrite Ers |]. split; [discriminate |].
  split.
  - now apply rebuildAll_wheelAny in H.
  - apply rebuildAll_Return in H as (added & -> & Hall).
    rewrite List.app_nil_l.
    clear Ers. generalize dependent (r0 :: rs0). intros rs Hall.
    induction Hall as [|r stmt rs' stmts' Hr Hall IH]; [reflexivity |].
    simpl. rewrite IH. f_equal.
    apply rebuildWheel_Return in Hr as (? & ? & ? & ? & _ & ->). reflexivity.
Qed.

(** X14.  When the index lists no release of the resolved version that is
    of a requested type and not built for Python 2, [Rebuild] returns the
    error [No release to rebuild], whatever the source host and the builder
    would answer. *)
Theorem Rebuild_no_release (pkg repo : string) (opt : RebuilderOptions)
    (proj : PyPiProject) :
  pypiMetadata pkg = Return proj ->
  (forall r,
     In r (releasesOf proj (resolveVersion proj (Version opt))) ->
     PythonVersion r = "py2"
     \/ ~ In (getReleaseType (Filename r)) (Types opt)) ->
  Rebuild project FindStringSubmatch pypiMetadata get zipNewReader ListTags
    GetContents GetCommitSHA1 BuildsCreate polls start finish pkg repo opt
  = Error "No release to rebuild".
Proof.
  intros Hp Hnone. unfold Rebuild. rewrite Hp. cbn [obind].
  destruct (toRebuild _ (Types opt)) as [|r0 rs0] eqn:Ers; [reflexivity |].
  exfalso.
  assert (Hin : In r0 (toRebuild
                         (releasesOf proj (resolveVersion proj (Version opt)))
                         (Types opt))) by (rewrite Ers; now left).
  apply (proj1 (toRebuild_selects _ _)) in Hin as (Hin & Hpy & Ht).
  destruct (Hnone r0 Hin); contradiction.
Qed.

End World.

Import Fixtures.

Lemma tagRegexp_accepts_documented_witness :
  exists re, tagRegexp "3.3" = Some re /\ MatchString re "release-3.3rc" = true.
Proof.
  eexists. split; [reflexivity |].
  apply (tagRegexp_accepts_documented "3.3" "release-3.3rc").
  - reflexivity.
  - simpl. repeat split; discriminate.
  - exists "release-", "rc". split; [reflexivity |]. split; right.
    + exists "release", "-"%char. now split.
    + exists "r"%char, "c". now split.
Defined.

Lemma selectTag_first_match_witness :
  exists re,
    tagRegexp "3.3" = Some re
    /\ exists pre post,
         ["docs"; "v3.3"; "3.3"] = (pre ++ "v3.3" :: post)%list
         /\ MatchString re "v3.3" = true
         /\ Forall (fun t' => MatchString re t' = false) pre.
Proof.
  eexists. split; [reflexivity |].
  apply (proj1 (selectTag_first_match _ ["docs"; "v3.3"; "3.3"]) "v3.3").
  - vm_compute. reflexivity.
  - discriminate.
Defined.

Lemma tagRegexp_plainVersion_witness :
  exists re,
    tagRegexp "2024" = Some re
    /\ (MatchString re "v2024" = true <-> RebuildSpec.tagAccepted "2024" "v2024").
Proof.
  apply (tagRegexp_plainVersion "2024" "v2024").
  - reflexivity.
  - simpl. repeat split; discriminate.
Defined.

Lemma rebuildWheel_only_after_build_witness :
  exists stmt,
    rebuildIdnaWheel = Return stmt
    /\ Materials (Predicate stmt)
       = [{| URI := "git+https://github.com/kjd/idna@v3.3";
             MaterialDigest := {[ "sha1" := "sha1-of-tag" ]} |}].
Proof.
  eexists. split; [vm_compute; reflexivity |].
  destruct (rebuildWheel_only_after_build "demo" submatch
              (fun _ => Return "bytes of the published wheel")
              (fun _ => Ok idnaFiles) (fun _ _ _ => Ok "sha1-of-tag")
              (fun _ _ => Ok pending) [Ok pending; Ok finished] 10 20
              idnaWheel "idna" "github.com/kjd/idna" "v3.3" "." _
              ltac:(vm_compute; reflexivity))
    as (? & ? & ? & ? & ? & ? & ? & ? & ? & ? & _).
  reflexivity.
Defined.

Lemma rebuildWheel_unsupported_python_witness :
  rebuildWheel "demo" submatchNspkg (fun _ => Return "bytes") (fun _ => Ok nspkgFiles)
    (fun _ _ _ => Ok "sha1-of-tag") (fun _ _ => Ok pending)
    [Ok pending; Ok finished] 10 20 idnaWheel "idna" "github.com/kjd/idna"
    "v3.3" "."
  = Error "Unsupported python version"
  \/ exists msg,
       rebuildWheel "demo" submatchNspkg (fun _ => Return "bytes")
         (fun _ => Ok nspkgFiles) (fun _ _ _ => Ok "sha1-of-tag")
         (fun _ _ => Ok pending) [Ok pending; Ok finished] 10 20 idnaWheel
         "idna" "github.com/kjd/idna" "v3.3" "."
       = Fatal msg.
Proof.
  apply (rebuildWheel_unsupported_python "demo" submatchNspkg
           (fun _ => Return "bytes") (fun _ => Ok nspkgFiles)
           (fun _ _ _ => Ok "sha1-of-tag") (fun _ _ => Ok pending)
           [Ok pending; Ok finished] 10 20 idnaWheel "idna"
           "github.com/kjd/idna" "v3.3" "." "bytes" idnaFiles []
           {| wName := "ns_pkg-1.0-py3.10-nspkg.pth"; wData := Ok "import sys" |}
           "ns_pkg-1.0-py3.10-nspkg.pth" "3.10" []).
  - reflexivity.
  - reflexivity.
  - reflexivity.
  - reflexivity.
  - discriminate.
Defined.

Lemma Rebuild_all_or_nothing_witness :
  exists stmts proj rs,
    rebuildIdna ["v3.3"] = Return stmts
    /\ (fun _ : string => Return idnaProject) "idna" = Return proj
    /\ rs = toRebuild (releasesOf proj (resolveVersion proj (Some "3.3")))
              [wheelAny]
    /\ rs <> []
    /\ Forall (fun r => getReleaseType (Filename r) = wheelAny) rs
    /\ map (fun stmt => map Name (Subjects stmt)) stmts
       = map (fun r => [Filename r]) rs.
Proof.
  eexists.
  destruct (Rebuild_all_or_nothing "demo" submatch (fun _ => Return idnaProject)
              (fun _ => Return "bytes of the published wheel")
              (fun _ => Ok idnaFiles) (fun _ _ => Ok ["v3.3"])
              (fun _ _ _ _ => Some "setup.py") (fun _ _ _ => Ok "sha1-of-tag")
              (fun _ _ => Ok pending) [Ok pending; Ok finished] 10 20
              "idna" "github.com/kjd/idna"
              {| Types := [wheelAny]; PackageRoot := Some "";
                 Version := Some "3.3" |} _
              ltac:(vm_compute; reflexivity))
    as (proj & rs & H).
  exists proj, rs. split; [vm_compute; reflexivity | exact H].
Defined.

Lemma Rebuild_no_release_witness :
  Rebuild "demo" submatch (fun _ => Return py2Project)
    (fun _ => Return "bytes") (fun _ => Ok idnaFiles) (fun _ _ => Ok ["v3.3"])
    (fun _ _ _ _ => Some "setup.py") (fun _ _ _ => Ok "sha1-of-tag")
    (fun _ _ => Ok pending) [Ok finished] 10 20 "idna" "github.com/kjd/idna"
    {| Types := [wheelAny]; PackageRoot := None; Version := Some "3.3" |}
  = Error "No release to rebuild".
Proof.
  apply (Rebuild_no_release "demo" submatch (fun _ => Return py2Project)
           (fun _ => Return "bytes") (fun _ => Ok idnaFiles)
           (fun _ _ => Ok ["v3.3"]) (fun _ _ _ _ => Some "setup.py")
           (fun _ _ _ => Ok "sha1-of-tag") (fun _ _ => Ok pending)
           [Ok finished] 10 20 "idna" "github.com/kjd/idna"
           {| Types := [wheelAny]; PackageRoot := None; Version := Some "3.3" |}
           py2Project eq_refl).
  intros r Hin. vm_compute in Hin. destruct Hin as [<- | []]. now left.
Defined.

End RebuilderMore.

(** ** More on the attestation signer *)

Module DSSEMore.
Import GoStrings DSSE DSSEViews StringFacts DSSEFacts.

Lemma itoa_no_space (d : Decimal.uint) :
  free_of " " (NilEmpty.string_of_uint d).
Proof. induction d; simpl; try exact I; split; (discriminate || assumption). Qed.

Lemma itoa_inj (n m : nat) : itoa n = itoa m -> n = m.
Proof.
  unfold itoa. intros E.
  apply (f_equal NilEmpty.uint_of_string) in E. rewrite !NilEmpty.usu in E.
  injection E as E. apply (f_equal Nat.of_uint) in E.
  now rewrite !DecimalNat.Unsigned.of_to in E.
Qed.

(** Two strings cut at the first occurrence of a byte that their heads
    do not hold. *)
Lemma cut_at (c : ascii) (a a' b b' : string) :
  free_of c a -> free_of c a' ->
  a ++ String c b = a' ++ String c b' -> a = a' /\ b = b'.
Proof.
  revert a'. induction a as [|x a IH]; intros [|x' a'] Ha Ha' E; simpl in *.
  - injection E as ->. now split.
  - injection E as <- _. now destruct Ha'.
  - injection E as -> _. now destruct Ha.
  - injection E as -> E. destruct Ha as [_ Ha], Ha' as [_ Ha'].
    destruct (IH a' Ha Ha' E) as [-> ->]. now split.
Qed.

Lemma app_inv_length (a a' b b' : string) :
  String.length a = String.length a' -> a ++ b = a' ++ b' -> a = a' /\ b = b'.
Proof.
  revert a'. induction a as [|x a IH]; intros [|x' a'] Hl E; simpl in *;
    try discriminate.
  - now split.
  - injection E as -> E. injection Hl as Hl.
    destruct (IH a' Hl E) as [-> ->]. now split.
Qed.

(** X16.  The encoding that is signed determines both of its fields: two
    payload types with two encoded payloads give the same bytes only when
    the types are equal and the payloads are equal. *)
Theorem pae_injective (t1 e1 t2 e2 : string) :
  pae t1 e1 = pae t2 e2 -> t1 = t2 /\ e1 = e2.
Proof.
  unfold pae. intros E. simpl in E. injection E as E.
  apply cut_at in E as [Ht E]; try apply itoa_no_space.
  apply itoa_inj in Ht.
  apply app_inv_length in E as [-> E]; [| assumption].
  split; [reflexivity |]. simpl in E. injection E as E.
  apply cut_at in E as [_ E]; try apply itoa_no_space. exact E.
Qed.

(** *** Base64 loses nothing *)

Lemma sextets_decoded :
  forallb
    (fun n => match decodeMap (enc6 n) with
              | Some m => N.eqb m n
              | None => false
              end
              && negb (Ascii.eqb (enc6 n) StdPadding))
    sextets = true.
Proof. vm_compute. reflexivity. Qed.

Lemma land63_lt (v : N) : (N.land v 63 < 64)%N.
Proof.
  change 63%N with (N.ones 6). rewrite N.land_ones.
  apply N.mod_upper_bound. discriminate.
Qed.

Lemma land63_sextet (v : N) : In (N.land v 63) sextets.
Proof.
  unfold sextets. apply in_map_iff. exists (N.to_nat (N.land v 63)).
  split; [apply N2Nat.id |]. apply in_seq. pose proof (land63_lt v). lia.
Qed.

Lemma enc6_land (v : N) : enc6 (N.land v 63) = enc6 v.
Proof. unfold enc6. now rewrite <- N.land_assoc, N.land_diag. Qed.

Lemma enc6_decoded (v : N) :
  decodeMap (enc6 v) = Some (N.land v 63) /\ enc6 v <> StdPadding.
Proof.
  pose proof sextets_decoded as H. rewrite forallb_forall in H.
  specialize (H _ (land63_sextet v)). rewrite enc6_land in H.
  apply andb_true_iff in H as [Hd Hp].
  destruct (decodeMap (enc6 v)) as [m|]; [| discriminate].
  apply N.eqb_eq in Hd. subst m. split; [reflexivity |].
  apply negb_true_iff in Hp. now apply Ascii.eqb_neq.
Qed.

(** Equal characters give words that agree on the six bits read. *)
Lemma enc6_bits (v w k : N) :
  enc6 (N.shiftr v k) = enc6 (N.shiftr w k) ->
  forall j, (k <= j < k + 6)%N -> N.testbit v j = N.testbit w j.
Proof.
  intros E j Hj.
  assert (El : N.land (N.shiftr v k) 63 = N.land (N.shiftr w k) 63).
  { destruct (enc6_decoded (N.shiftr v k)) as [Hv _].
    destruct (enc6_decoded (N.shiftr w k)) as [Hw _]. congruence. }
  apply (f_equal (fun x => N.testbit x (j - k))) in El.
  rewrite !N.land_spec, !N.shiftr_spec' in El.
  change 63%N with (N.ones 6) in El.
  rewrite N.ones_spec_low, !andb_true_r in El by lia.
  now replace (j - k + k)%N with j in El by lia.
Qed.

Lemma byte_bits_high (a : ascii) (i : N) :
  (8 <= i)%N -> N.testbit (byteN a) i = false.
Proof.
  intros Hi. unfold byteN. pose proof (N_ascii_bounded a) as Hb.
  destruct (N.eq_dec (N_of_ascii a) 0%N) as [-> | Hne]; [apply N.bits_0 |].
  apply N.bits_above_log2.
  assert (N.log2 (N_of_ascii a) < 8)%N; [| lia].
  apply N.log2_lt_pow2; [lia | exact Hb].
Qed.

Lemma byte_eq (a a' : ascii) :
  (forall i, (i < 8)%N -> N.testbit (byteN a) i = N.testbit (byteN a') i) ->
  a = a'.
Proof.
  intros H.
  rewrite <- (ascii_N_embedding a), <- (ascii_N_embedding a'). f_equal.
  apply N.bits_inj. intros i. destruct (N.lt_ge_cases i 8) as [Hi | Hi].
  - now apply H.
  - change (N.testbit (byteN a) i = N.testbit (byteN a') i).
    now rewrite !byte_bits_high.
Qed.

(** The bits of the word made of three bytes. *)
Lemma word_bits (a b c : ascii) (j : N) :
  N.testbit
    (N.lor (N.lor (N.shiftl (byteN a) 16) (N.shiftl (byteN b) 8)) (byteN c)) j
  = if (j <? 8)%N then N.testbit (byteN c) j
    else if (j <? 16)%N then N.testbit (byteN b) (j - 8)
         else N.testbit (byteN a) (j - 16).
Proof.
  rewrite !N.lor_spec.
  destruct (N.ltb_spec j 8); [| destruct (N.ltb_spec j 16)].
  - rewrite !N.shiftl_spec_low by lia. reflexivity.
  - rewrite N.shiftl_spec_low, N.shiftl_spec_high' by lia.
    rewrite (byte_bits_high c) by lia. simpl. now rewrite orb_false_r.
  - rewrite !N.shiftl_spec_high' by lia.
    rewrite (byte_bits_high c), (byte_bits_high b) by lia.
    now rewrite !orb_false_r.
Qed.

Lemma word2_bits (a b : ascii) (j : N) :
  N.testbit (N.lor (N.shiftl (byteN a) 16) (N.shiftl (byteN b) 8)) j
  = N.testbit
      (N.lor (N.lor (N.shiftl (byteN a) 16) (N.shiftl (byteN b) 8))
         (byteN zero)) j.
Proof.
  rewrite (N.lor_spec _ (byteN zero)). change (byteN zero) with 0%N.
  now rewrite N.bits_0, orb_false_r.
Qed.

Lemma word1_bits (a : ascii) (j : N) :
  N.testbit (N.shiftl (byteN a) 16) j
  = N.testbit
      (N.lor (N.lor (N.shiftl (byteN a) 16) (N.shiftl (byteN zero) 8))
         (byteN zero)) j.
Proof.
  change (N.shiftl (byteN zero) 8) with 0%N. change (byteN zero) with 0%N.
  now rewrite !N.lor_spec, !N.bits_0, !orb_false_r.
Qed.

(** Words that agree on bits 12 to 23 have the same first byte, and so
    on. *)
Lemma first_byte (a b c a' b' c' : ascii) :
  (forall j, (12 <= j < 24)%N ->
     N.testbit
       (N.lor (N.lor (N.shiftl (byteN a) 16) (N.shiftl (byteN b) 8)) (byteN c)) j
     = N.testbit
         (N.lor (N.lor (N.shiftl (byteN a') 16) (N.shiftl (byteN b') 8))
            (byteN c')) j) ->
  a = a'.
Proof.
  intros H. apply byte_eq. intros i Hi.
  specialize (H (i + 16)%N ltac:(lia)). rewrite !word_bits in H.
  destruct (N.ltb_spec (i + 16) 8); [lia |].
  destruct (N.ltb_spec (i + 16) 16); [lia |].
  now replace (i + 16 - 16)%N with i in H by lia.
Qed.

Lemma second_byte (a b c a' b' c' : ascii) :
  (forall j, (6 <= j < 18)%N ->
     N.testbit
       (N.lor (N.lor (N.shiftl (byteN a) 16) (N.shiftl (byteN b) 8)) (byteN c)) j
     = N.testbit
         (N.lor (N.lor (N.shiftl (byteN a') 16) (N.shiftl (byteN b') 8))
            (byteN c')) j) ->
  b = b'.
Proof.
  intros H. apply byte_eq. intros i Hi.
  specialize (H (i + 8)%N ltac:(lia)). rewrite !word_bits in H.
  destruct (N.ltb_spec (i + 8) 8); [lia |].
  destruct (N.ltb_spec (i + 8) 16); [| lia].
  now replace (i + 8 - 8)%N with i in H by lia.
Qed.

Lemma third_byte (a b c a' b' c' : ascii) :
  (forall j, (0 <= j < 12)%N ->
     N.testbit
       (N.lor (N.lor (N.shiftl (byteN a) 16) (N.shiftl (byteN b) 8)) (byteN c)) j
     = N.testbit
         (N.lor (N.lor (N.shiftl (byteN a') 16) (N.shiftl (byteN b') 8))
            (byteN c')) j) ->
  c = c'.
Proof.
  intros H. apply byte_eq. intros i Hi.
  specialize (H i ltac:(lia)). rewrite !word_bits in H.
  now destruct (N.ltb_spec i 8); [| lia].
Qed.

Lemma pad_not_enc6 (v : N) : StdPadding <> enc6 v.
Proof. intros E. destruct (enc6_decoded v) as [_ H]. congruence. Qed.

Lemma bits_12_24 (v w : N) :
  enc6 (N.shiftr v 18) = enc6 (N.shiftr w 18) ->
  enc6 (N.shiftr v 12) = enc6 (N.shiftr w 12) ->
  forall j, (12 <= j < 24)%N -> N.testbit v j = N.testbit w j.
Proof.
  intros E18 E12 j Hj. destruct (N.lt_ge_cases j 18).
  - apply (enc6_bits _ _ _ E12). lia.
  - apply (enc6_bits _ _ _ E18). lia.
Qed.

Lemma bits_6_24 (v w : N) :
  enc6 (N.shiftr v 18) = enc6 (N.shiftr w 18) ->
  enc6 (N.shiftr v 12) = enc6 (N.shiftr w 12) ->
  enc6 (N.shiftr v 6) = enc6 (N.shiftr w 6) ->
  forall j, (6 <= j < 24)%N -> N.testbit v j = N.testbit w j.
Proof.
  intros E18 E12 E6 j Hj. destruct (N.lt_ge_cases j 12).
  - apply (enc6_bits _ _ _ E6). lia.
  - apply (bits_12_24 _ _ E18 E12). lia.
Qed.

Lemma bits_0_24 (v w : N) :
  enc6 (N.shiftr v 18) = enc6 (N.shiftr w 18) ->
  enc6 (N.shiftr v 12) = enc6 (N.shiftr w 12) ->
  enc6 (N.shiftr v 6) = enc6 (N.shiftr w 6) ->
  enc6 v = enc6 w ->
  forall j, (0 <= j < 24)%N -> N.testbit v j = N.testbit w j.
Proof.
  intros E18 E12 E6 E0 j Hj. destruct (N.lt_ge_cases j 6).
  - rewrite <- (N.shiftr_0_r v), <- (N.shiftr_0_r w) in E0.
    apply (enc6_bits _ _ _ E0). lia.
  - apply (bits_6_24 _ _ E18 E12 E6). lia.
Qed.

(** X17.  Distinct payloads have distinct encodings. *)
Theorem EncodeToString_injective (a b : string) :
  EncodeToString a = EncodeToString b -> a = b.
Proof.
  remember (String.length a) as n eqn:Hn. revert a b Hn.
  induction n as [n IH] using lt_wf_ind. intros a b Hn E.
  destruct a as [| a1 [| a2 [| a3 ra]]];
    destruct b as [| b1 [| b2 [| b3 rb]]];
    cbn [EncodeToString] in E; cbv zeta in E;
    try discriminate E; try reflexivity.
  all: injection E; clear E; intros.
  all: try (exfalso; eapply pad_not_enc6; eassumption).
  all: try (exfalso; eapply pad_not_enc6; symmetry; eassumption).
  - f_equal.
    apply (first_byte a1 zero zero b1 zero zero). intros j Hj.
    rewrite <- !word1_bits. now apply bits_12_24.
  - assert (Hb : forall j, (6 <= j < 24)%N ->
        N.testbit
          (N.lor (N.lor (N.shiftl (byteN a1) 16) (N.shiftl (byteN a2) 8))
             (byteN zero)) j
        = N.testbit
            (N.lor (N.lor (N.shiftl (byteN b1) 16) (N.shiftl (byteN b2) 8))
               (byteN zero)) j).
    { intros j Hj. rewrite <- !word2_bits. now apply bits_6_24. }
    f_equal; [| f_equal].
    + eapply first_byte. intros j Hj. apply Hb. lia.
    + eapply second_byte. intros j Hj. apply Hb. lia.
  - assert (Hb : forall j, (0 <= j < 24)%N ->
        N.testbit
          (N.lor (N.lor (N.shiftl (byteN a1) 16) (N.shiftl (byteN a2) 8))
             (byteN a3)) j
        = N.testbit
            (N.lor (N.lor (N.shiftl (byteN b1) 16) (N.shiftl (byteN b2) 8))
               (byteN b3)) j).
    { now apply bits_0_24. }
    f_equal; [| f_equal; [| f_equal]].
    + eapply first_byte. intros j Hj. apply Hb. lia.
    + eapply second_byte. intros j Hj. apply Hb. lia.
    + eapply third_byte. intros j Hj. apply Hb. lia.
    + apply (IH (String.length ra)); [subst n; simpl; lia | reflexivity | assumption].
Qed.

Section Signer.
Variable NewKeyManagementClient : result unit.
Variable AsymmetricSign : SignRequest -> result string.
Variable kmsKey : string.

(** X18.  An envelope binds its payload: when two payloads were signed
    and either the envelopes carry the same payload field or the bytes
    sent last to the key service are the same, the two payloads are the
    same. *)
Theorem NewDSSE_binds_payload (p1 p2 : string)
    (sent1 sent2 sent1' sent2' : list SignRequest) (d1 d2 : DSSE)
    (none : SignRequest) :
  NewDSSE NewKeyManagementClient AsymmetricSign kmsKey p1 sent1
  = (Ok d1, sent1') ->
  NewDSSE NewKeyManagementClient AsymmetricSign kmsKey p2 sent2
  = (Ok d2, sent2') ->
  Payload d1 = Payload d2
  \/ reqData (List.last sent1' none) = reqData (List.last sent2' none) ->
  p1 = p2.
Proof.
  unfold NewDSSE, kmsSign. intros H1 H2 E.
  destruct NewKeyManagementClient as [[]|e]; [| discriminate].
  destruct (AsymmetricSign _) as [sig1|]; [| discriminate].
  destruct (AsymmetricSign _) as [sig2|]; [| discriminate].
  injection H1 as <- <-. injection H2 as <- <-.
  rewrite !List.last_last in E. cbn [Payload reqData] in E.
  apply EncodeToString_injective. destruct E as [E | E]; [exact E |].
  now apply pae_injective in E.
Qed.

(** X19.  How signing fails.  An error comes either from the creation of
    the client, and then nothing was sent to the key service, or from the
    service, which was then sent the one request for the encoding of the
    payload; in both cases the error is handed on as it is. *)
Theorem NewDSSE_failure (payload : string) (sent sent' : list SignRequest)
    (e : string) :
  NewDSSE NewKeyManagementClient AsymmetricSign kmsKey payload sent
  = (Err e, sent') ->
  (NewKeyManagementClient = Err e /\ sent' = sent)
  \/ (NewKeyManagementClient = Ok tt
      /\ AsymmetricSign (paeRequest kmsKey payload) = Err e
      /\ sent' = (sent ++ [paeRequest kmsKey payload])%list).
Proof.
  unfold NewDSSE, kmsSign. intros H.
  destruct NewKeyManagementClient as [[]|e0].
  - right.
    change {| reqName := kmsKey;
              reqData := pae inTotoPayloadType (EncodeToString payload) |}
      with (paeRequest kmsKey payload) in H.
    destruct (AsymmetricSign (paeRequest kmsKey payload)) as [sig|e1];
      [discriminate |].
    injection H as <- <-. repeat split.
  - left. injection H as <- <-. split; reflexivity.
Qed.
End Signer.

Lemma pae_injective_witness :
  "application/vnd.in-toto+json" = inTotoPayloadType /\ "YWJj" = EncodeToString "abc".
Proof.
  apply (pae_injective "application/vnd.in-toto+json" "YWJj"
           inTotoPayloadType (EncodeToString "abc")).
  reflexivity.
Defined.

Lemma EncodeToString_injective_witness :
  "foobar" = "foo" ++ "bar".
Proof. apply EncodeToString_injective. reflexivity. Defined.

Lemma NewDSSE_binds_payload_witness :
  "abc" = "abc".
Proof.
  apply (NewDSSE_binds_payload (Ok tt) Fixtures.paeOnly "key" "abc" "abc"
           [] [paeRequest "key" "xyz"] _ _ _ _ (paeRequest "" "")
           eq_refl eq_refl).
  left. reflexivity.
Defined.

Lemma NewDSSE_failure_witness :
  (Ok tt = Err "unexpected bytes" /\ [paeRequest "key" "abd"] = [])
  \/ (Ok tt = Ok tt
      /\ Fixtures.paeOnly (paeRequest "key" "abd") = Err "unexpected bytes"
      /\ [paeRequest "key" "abd"] = ([] ++ [paeRequest "key" "abd"])%list).
Proof.
  apply (NewDSSE_failure (Ok tt) Fixtures.paeOnly "key" "abd" [] _ _).
  reflexivity.
Defined.

End DSSEMore.

(** ** More on the upload handler *)

Module UploadMore.
Import GoStrings Policy Upload StringFacts UploadFacts.

Lemma TrimPrefix_bearer (t : string) : TrimPrefix ("bearer " ++ t) "bearer " = t.
Proof.
  unfold TrimPrefix, HasPrefix. simpl.
  rewrite Nat.sub_0_r, substring_all. now destruct t.
Qed.

Lemma TrimPrefix_none (s prefix : string) :
  HasPrefix s prefix = false -> TrimPrefix s prefix = s.
Proof. unfold TrimPrefix. now intros ->. Qed.

Section World.
Variable ParseUnverified : string -> result (gmap string claim).
Variable fetchPolicy : string -> string -> string -> result Policy.
Variable Statement Envelope : Type.
Variable jsonUnmarshal : string -> result Statement.
Variable EncodeCanonical : Statement -> result string.
Variable NewDSSE : string -> result Envelope.
Variable jsonMarshal : Envelope -> result string.
Variable firestoreNewClient : result unit.
Variable firestoreSet : Document -> result unit.

(** X20.  Nothing is stored for a caller that is not authorized.  When the
    handler stores a document, the token was parsed and holds the
    identity of a builder that the policy of the named scope and package
    lists; the stored statement is the canonical encoding of the uploaded
    one, not the uploaded text; the envelope is the one made for that
    encoding; and the key of the document is the package, [!] and the
    version, without the scope. *)
Theorem HandleUpload_stored (req : Request) (doc : Document) :
  HandleUpload ParseUnverified fetchPolicy Statement Envelope jsonUnmarshal
    EncodeCanonical NewDSSE jsonMarshal firestoreNewClient firestoreSet req
  = Return (Stored doc) ->
  exists claims email policy pu stmt dsse,
    ParseUnverified (TrimPrefix (Authorization req) "bearer ") = Ok claims
    /\ claims !! "email" = Some (ClaimString email)
    /\ fetchPolicy (formScope req) (formPkg req) "main" = Ok policy
    /\ provenanceUpload policy = Some pu
    /\ In email (AuthorizedBuilders pu)
    /\ jsonUnmarshal (formProvenance req) = Ok stmt
    /\ EncodeCanonical stmt = Ok (docRaw doc)
    /\ NewDSSE (docRaw doc) = Ok dsse
    /\ jsonMarshal dsse = Ok (docDSSE doc)
    /\ docKey doc = formPkg req ++ "!" ++ formVersion req
    /\ docPackage doc = formPkg req
    /\ docVersion doc = formVersion req
    /\ firestoreSet doc = Ok tt.
Proof.
  unfold HandleUpload, authenticatedUser. intros H.
  destruct (String.length _ =? 0)%nat; [discriminate |].
  destruct (ParseUnverified _) as [claims|] eqn:Hparse;
    cbn [obind orReturn] in H; [| discriminate].
  destruct (claims !! "email") as [[email|]|] eqn:Hemail; try discriminate.
  destruct (claims !! "sub") as [[userID|]|]; try discriminate.
  destruct (fetchPolicy _ _ _) as [policy|] eqn:Hpol; [| discriminate].
  destruct (provenanceUpload policy) as [pu|] eqn:Hpu; [| discriminate].
  destruct (authorized (AuthorizedBuilders pu) email) eqn:Ha;
    cbn [negb] in H; [| discriminate].
  apply authorized_iff in Ha. unfold store in H.
  destruct (jsonUnmarshal _) as [stmt|] eqn:Hstmt; [| discriminate].
  destruct (EncodeCanonical stmt) as [raw|] eqn:Hraw; [| discriminate].
  destruct (NewDSSE raw) as [dsse|] eqn:Hdsse; cbn [obind orFatal] in H;
    [| discriminate].
  destruct (jsonMarshal dsse) as [bytes|] eqn:Hbytes; cbn [obind orFatal] in H;
    [| discriminate].
  destruct firestoreNewClient; [| discriminate].
  destruct (firestoreSet _) as [[]|] eqn:Hset; [| discriminate].
  injection H as <-. cbn [docRaw docDSSE docKey docPackage docVersion].
  exists claims, email, policy, pu, stmt, dsse. repeat split; assumption.
Qed.

(** X21.  The [bearer ] prefix of the authorization header is optional: a
    request whose header is a token that does not itself begin with the
    prefix is handled as the request with the prefix put before the
    token. *)
Theorem HandleUpload_bearer_optional (token scope pkg version provenance : string) :
  HasPrefix token "bearer " = false ->
  HandleUpload ParseUnverified fetchPolicy Statement Envelope jsonUnmarshal
    EncodeCanonical NewDSSE jsonMarshal firestoreNewClient firestoreSet
    {| Authorization := "bearer " ++ token; formScope := scope;
       formPkg := pkg; formVersion := version;
       formProvenance := provenance |}
  = HandleUpload ParseUnverified fetchPolicy Statement Envelope jsonUnmarshal
      EncodeCanonical NewDSSE jsonMarshal firestoreNewClient firestoreSet
      {| Authorization := token; formScope := scope;
         formPkg := pkg; formVersion := version;
         formProvenance := provenance |}.
Proof.
  intros Hp. unfold HandleUpload, authenticatedUser, store.
  cbn [Authorization formScope formPkg formVersion formProvenance].
  now rewrite TrimPrefix_bearer, (TrimPrefix_none _ _ Hp).
Qed.

(** X22.  A token is of use only with both identity claims.  When the
    token is parsed and its [email] or its [sub] claim is absent or is
    not a string, the handler ends in a run-time panic and gives no
    reply, whatever the policy says, although the [sub] claim is not
    used afterwards. *)
Theorem HandleUpload_needs_both_claims (req : Request)
    (claims : gmap string claim) :
  TrimPrefix (Authorization req) "bearer " <> "" ->
  ParseUnverified (TrimPrefix (Authorization req) "bearer ") = Ok claims ->
  (forall email, claims !! "email" <> Some (ClaimString email))
  \/ (forall userID, claims !! "sub" <> Some (ClaimString userID)) ->
  exists m,
    HandleUpload ParseUnverified fetchPolicy Statement Envelope jsonUnmarshal
      EncodeCanonical NewDSSE jsonMarshal firestoreNewClient firestoreSet req
    = Fatal m.
Proof.
  intros Hne Hparse Hc. unfold HandleUpload, authenticatedUser.
  rewrite (length_nonzero _ Hne), Hparse. cbn [obind orReturn].
  destruct (claims !! "email") as [[email|]|]; try (eexists; reflexivity).
  destruct (claims !! "sub") as [[userID|]|]; try (eexists; reflexivity).
  destruct Hc as [Hc | Hc]; [now destruct (Hc email) | now destruct (Hc userID)].
Qed.

End World.

Import Fixtures.

Lemma HandleUpload_stored_witness :
  exists doc,
    handleUpload "bearer token-of-alice" = Return (Stored doc)
    /\ docKey doc = "idna!3.3" /\ docRaw doc = "canonical".
Proof.
  eexists. split; [reflexivity |].
  destruct (HandleUpload_stored parseToken (fun _ _ _ => Ok uploadPolicy)
              unit unit (fun _ => Ok tt) (fun _ => Ok "canonical")
              (fun _ => Ok tt) (fun _ => Ok "envelope") (Ok tt)
              (fun _ => Ok tt) (uploadRequest "bearer token-of-alice")
              _ eq_refl)
    as (? & ? & ? & ? & ? & ? & _ & _ & _ & _ & _ & _ & _ & _ & _ & Hk & _).
  split; [exact Hk | reflexivity].
Defined.

Lemma HandleUpload_bearer_optional_witness :
  handleUpload "bearer token-of-alice" = handleUpload "token-of-alice".
Proof.
  apply (HandleUpload_bearer_optional parseToken (fun _ _ _ => Ok uploadPolicy)
           unit unit (fun _ => Ok tt) (fun _ => Ok "canonical")
           (fun _ => Ok tt) (fun _ => Ok "envelope") (Ok tt)
           (fun _ => Ok tt) "token-of-alice" "pypi" "idna" "3.3" "{}").
  reflexivity.
Defined.

(** A token with the builder's address and no [sub] claim. *)
Lemma HandleUpload_needs_both_claims_witness :
  exists m,
    HandleUpload
      (fun _ => Ok {[ "email" := ClaimString "alice@example.com" ]})
      (fun _ _ _ => Ok uploadPolicy) unit unit
      (fun _ => Ok tt) (fun _ => Ok "canonical") (fun _ => Ok tt)
      (fun _ => Ok "envelope") (Ok tt) (fun _ => Ok tt)
      (uploadRequest "bearer token")
    = Fatal m.
Proof.
  apply (HandleUpload_needs_both_claims
           (fun _ => Ok {[ "email" := ClaimString "alice@example.com" ]})
           (fun _ _ _ => Ok uploadPolicy) unit unit
           (fun _ => Ok tt) (fun _ => Ok "canonical") (fun _ => Ok tt)
           (fun _ => Ok "envelope") (Ok tt) (fun _ => Ok tt)
           (uploadRequest "bearer token")
           {[ "email" := ClaimString "alice@example.com" ]}).
  - vm_compute. discriminate.
  - reflexivity.
  - right. intros userID. vm_compute. discriminate.
Defined.

End UploadMore.

(** ** More on the policy store *)

Module PolicyStoreMore.
Import GoStrings Filepath Policy PolicyStore PolicyViews StringFacts.

Lemma noSeparator_free (s : string) : noSeparator s = true -> free_of "/" s.
Proof.
  induction s as [|a s IH]; simpl; [trivial |].
  intros H. apply andb_true_iff in H as [Ha Hs]. split; [| now apply IH].
  apply negb_true_iff in Ha. now apply Ascii.eqb_neq in Ha.
Qed.

Lemma plainName_spec (name : string) :
  plainName name = true ->
  name <> "" /\ name <> "." /\ name <> ".." /\ free_of "/" name.
Proof.
  unfold plainName. intros H.
  apply andb_true_iff in H as [H H4]. apply andb_true_iff in H as [H H3].
  apply andb_true_iff in H as [H1 H2].
  apply negb_true_iff in H1, H2, H3.
  apply String.eqb_neq in H1, H2, H3. auto using noSeparator_free.
Qed.

Lemma concat_cons (e : string) (es : list string) :
  es <> [] -> String.concat "/" (e :: es) = e ++ "/" ++ String.concat "/" es.
Proof. destruct es; [congruence | reflexivity]. Qed.

Lemma Split_app_sep (t r : string) (c : ascii) :
  free_of c t -> Split (t ++ String c r) c = t :: Split r c.
Proof.
  induction t as [|a t IH]; simpl.
  - now rewrite Ascii.eqb_refl.
  - intros [Hne Hfree]. apply Ascii.eqb_neq in Hne.
    now rewrite Hne, IH.
Qed.

Lemma Split_concat (es : list string) :
  es <> [] -> Forall (fun e => plainName e = true) es ->
  Split (String.concat "/" es) Separator = es.
Proof.
  induction es as [|e es IH]; [congruence |]. intros _ Hall.
  inversion Hall as [| ? ? He Hes]; subst.
  destruct (plainName_spec _ He) as (_ & _ & _ & Hfree).
  destruct es as [|e' es'].
  - simpl. now apply Split_free.
  - rewrite concat_cons by discriminate.
    change ("/" ++ String.concat "/" (e' :: es'))
      with (String Separator (String.concat "/" (e' :: es'))).
    rewrite Split_app_sep by assumption. f_equal. now apply IH.
Qed.

Lemma cleanElems_plain (es kept : list string) :
  Forall (fun e => plainName e = true) es ->
  cleanElems false es kept = (rev es ++ kept)%list.
Proof.
  revert kept. induction es as [|e es IH]; intros kept Hall; [reflexivity |].
  inversion Hall as [| ? ? He Hes]; subst.
  destruct (plainName_spec _ He) as (H1 & H2 & H3 & _).
  apply String.eqb_neq in H1, H2, H3.
  cbn [cleanElems]. rewrite H1, H2, H3. cbn [orb].
  rewrite IH by assumption. cbn [rev]. now rewrite <- List.app_assoc.
Qed.

Lemma concat_first (e : string) (es : list string) :
  exists r, String.concat "/" (e :: es) = e ++ r.
Proof.
  destruct es; [exists ""; simpl; now rewrite app_nil_r | eexists; reflexivity].
Qed.

Lemma plain_head (e r : string) :
  plainName e = true ->
  HasPrefix (e ++ r) "/" = false /\ String.eqb (e ++ r) "" = false.
Proof.
  intros He. destruct (plainName_spec _ He) as (Hne & _ & _ & Hfree).
  destruct e as [|a e]; [congruence |]. destruct Hfree as [Ha _].
  unfold HasPrefix. cbn [String.append String.prefix String.eqb].
  split; [| reflexivity].
  destruct (ascii_dec "/"%char a); [congruence | reflexivity].
Qed.

Lemma Clean_concat (es : list string) :
  es <> [] -> Forall (fun e => plainName e = true) es ->
  Clean (String.concat "/" es) = String.concat "/" es.
Proof.
  intros Hne Hall.
  assert (Hh : HasPrefix (String.concat "/" es) "/" = false
               /\ String.eqb (String.concat "/" es) "" = false).
  { destruct es as [|e es]; [congruence |].
    inversion Hall as [| ? ? He Hes]; subst.
    destruct (concat_first e es) as [r ->]. now apply plain_head. }
  destruct Hh as [Hp He]. unfold Clean. rewrite Hp.
  rewrite (Split_concat es Hne Hall), (cleanElems_plain es [] Hall).
  rewrite List.app_nil_r, rev_involutive. now rewrite He.
Qed.

Lemma concat_not_dot (es : list string) :
  es <> [] -> Forall (fun e => plainName e = true) es ->
  String.eqb (String.concat "/" es) "." = false.
Proof.
  intros Hne Hall. apply String.eqb_neq. intros E.
  pose proof (Split_concat es Hne Hall) as Hs. rewrite E in Hs.
  simpl in Hs. subst es. inversion Hall as [| ? ? He _]. discriminate He.
Qed.

Lemma elemsOf_pathOf (es : list string) :
  Forall (fun e => plainName e = true) es -> elemsOf (pathOf es) = es.
Proof.
  intros Hall. destruct es as [|e es]; [reflexivity |].
  unfold elemsOf, pathOf.
  rewrite Clean_concat, concat_not_dot by (assumption || discriminate).
  now apply Split_concat.
Qed.

Lemma concat_snoc (es : list string) (name : string) :
  es <> [] ->
  String.concat "/" (es ++ [name]) = String.concat "/" es ++ "/" ++ name.
Proof.
  induction es as [|e es IH]; [congruence |]. intros _.
  destruct es as [|e' es']; [reflexivity |].
  change ((e :: e' :: es') ++ [name])%list with (e :: ((e' :: es') ++ [name]))%list.
  rewrite !concat_cons by (discriminate || (simpl; discriminate)).
  rewrite IH by discriminate. now rewrite !app_assoc.
Qed.

Lemma Join_pathOf (es : list string) (name : string) :
  Forall (fun e => plainName e = true) es -> plainName name = true ->
  Join [pathOf es; name] = pathOf (es ++ [name]).
Proof.
  intros Hall Hname. destruct es as [|e es].
  - cbn [pathOf Join List.app]. cbn [String.eqb Ascii.eqb Bool.eqb].
    change (String.concat "/" [name]) with name.
    change (String.concat "/" ["."; name]) with ("." ++ String Separator name).
    unfold Clean.
    destruct (plainName_spec _ Hname) as (H1 & H2 & H3 & Hfree).
    rewrite Split_app_sep by (simpl; split; [discriminate | exact I]).
    rewrite (Split_free name Separator Hfree).
    apply String.eqb_neq in H1, H2, H3.
    change (HasPrefix ("." ++ String Separator name) "/") with false.
    cbn [cleanElems]. change (String.eqb "." "" || String.eqb "." ".") with true.
    cbn iota. rewrite H1, H2, H3. cbn [orb cleanElems rev List.app].
    change (String.concat "/" [name]) with name. now rewrite H1.
  - assert (Hne : e :: es <> []) by discriminate.
    assert (Hall' : Forall (fun e => plainName e = true) ((e :: es) ++ [name])).
    { apply Forall_app. split; [assumption | now constructor]. }
    cbn [Join].
    replace (String.eqb (pathOf (e :: es)) "") with false.
    2:{ symmetry. unfold pathOf. destruct (concat_first e es) as [r ->].
        inversion Hall; subst. now apply plain_head. }
    change (String.concat "/" [pathOf (e :: es); name])
      with (String.concat "/" (e :: es) ++ "/" ++ name).
    rewrite <- concat_snoc by assumption.
    rewrite Clean_concat by (assumption || (simpl; discriminate)).
    reflexivity.
Qed.

(** *** The tree *)

Lemma wellFormed_Dir (entries : list (string * node)) :
  wellFormed (Dir entries) = true ->
  Forall (fun e => plainName e = true) (map fst entries)
  /\ distinct (map fst entries) = true
  /\ Forall (fun f => wellFormed (snd f) = true) entries.
Proof.
  cbn [wellFormed]. intros H.
  apply andb_true_iff in H as [H Hall]. apply andb_true_iff in H as [Hp Hd].
  split; [| split; [assumption |]].
  - apply List.Forall_forall. now apply forallb_forall.
  - clear Hp Hd. induction entries as [| [name c] rest IH]; constructor.
    + now apply andb_true_iff in Hall as [Hc _].
    + apply IH. now apply andb_true_iff in Hall as [_ Hr].
Qed.

Lemma policyFiles_Dir (entries : list (string * node)) (es : list string) :
  policyFiles (Dir entries) es
  = (ownPolicies entries es ++ stackFiles (subdirs entries es))%list.
Proof.
  cbn [policyFiles]. f_equal. unfold stackFiles, subdirs.
  induction entries as [| [name c] rest IH]; [reflexivity |].
  rewrite IH. cbn [List.filter snd fst]. destruct c as [content | sub].
  - cbn [IsDir policyFiles]. now rewrite List.app_nil_r.
  - cbn [IsDir map rev]. rewrite map_app, concat_app. cbn [map concat fst snd].
    now rewrite List.app_nil_r.
Qed.

Lemma dirCount_Dir (entries : list (string * node)) (es : list string) :
  dirCount (Dir entries) = S (stackCount (subdirs entries es)).
Proof.
  cbn [dirCount]. f_equal. unfold stackCount, subdirs.
  induction entries as [| [name c] rest IH]; [reflexivity |].
  rewrite IH. cbn [List.filter snd fst]. destruct c as [content | sub].
  - reflexivity.
  - reflexivity.
Qed.

Lemma lookupNode_snoc (fs : node) (es : list string)
    (entries : list (string * node)) (name : string) :
  lookupNode fs es = Some (Dir entries) ->
  lookupNode fs (es ++ [name]) = child name entries.
Proof.
  revert fs. induction es as [|e es IH]; intros fs H.
  - cbn in H. injection H as ->. cbn. now destruct (child name entries).
  - cbn [List.app lookupNode] in *. destruct fs as [| ents]; [discriminate |].
    destruct (child e ents); [| discriminate]. now apply IH.
Qed.

Lemma child_In (entries : list (string * node)) (name : string) (c : node) :
  distinct (map fst entries) = true -> In (name, c) entries ->
  child name entries = Some c.
Proof.
  induction entries as [| [n0 c0] rest IH]; [contradiction |].
  cbn [map fst distinct child]. intros Hd Hin.
  apply andb_true_iff in Hd as [Hn Hd]. destruct Hin as [E | Hin].
  - injection E as -> ->. now rewrite String.eqb_refl.
  - destruct (String.eqb_spec n0 name) as [-> | Hne]; [| now apply IH].
    apply negb_true_iff in Hn.
    assert (Hex : existsb (String.eqb name) (map fst rest) = true).
    { apply existsb_exists. exists name. split; [| apply String.eqb_refl].
      apply in_map_iff. now exists (name, c). }
    congruence.
Qed.

(** *** The walk *)

Lemma walk_step (k : nat) (fs : node) (dirs paths : list string) :
  dirs <> [] ->
  walk (S k) fs dirs paths
  = obind (orReturn (ReadDir fs (List.last dirs "")))
      (fun files =>
         let '(dirs'', paths') :=
           fold_left (visit (List.last dirs "")) files (removelast dirs, paths) in
         walk k fs dirs'' paths').
Proof. destruct dirs; [congruence | reflexivity]. Qed.

Lemma fold_visit (es : list string) (entries : list (string * node))
    (dirs paths : list string) :
  Forall (fun e => plainName e = true) es ->
  Forall (fun e => plainName e = true) (map fst entries) ->
  fold_left (visit (pathOf es)) entries (dirs, paths)
  = ((dirs ++ stackPaths (subdirs entries es))%list,
     (paths ++ map pathOf (ownPolicies entries es))%list).
Proof.
  intros Hes. revert dirs paths.
  induction entries as [| [name c] rest IH]; intros dirs paths Hall.
  - cbn. now rewrite !List.app_nil_r.
  - inversion Hall as [| ? ? Hname Hrest]; subst.
    cbn [fold_left visit fst snd]. unfold subdirs, ownPolicies, stackPaths.
    cbn [List.filter fst snd].
    destruct (IsDir c); cbn [negb andb].
    + rewrite IH by assumption. rewrite Join_pathOf by assumption.
      unfold subdirs, ownPolicies, stackPaths. cbn [map fst snd].
      now rewrite <- List.app_assoc.
    + destruct (String.eqb name "policy.yaml").
      * rewrite IH by assumption. rewrite Join_pathOf by assumption.
        unfold subdirs, ownPolicies, stackPaths. cbn [map fst snd].
        now rewrite <- List.app_assoc.
      * now rewrite IH by assumption.
Qed.

Lemma good_subdirs (fs : node) (es : list string)
    (entries : list (string * node)) :
  good fs (es, Dir entries) -> Forall (good fs) (subdirs entries es).
Proof.
  intros (Hes & Hl & _ & Hw). cbn [fst snd] in *.
  destruct (wellFormed_Dir _ Hw) as (Hp & Hd & Hc).
  unfold subdirs. apply List.Forall_forall. intros s Hs.
  apply in_map_iff in Hs as ([name c] & <- & Hin).
  apply filter_In in Hin as [Hin Hdir]. cbn [fst snd] in *.
  repeat split; cbn [fst snd].
  - apply Forall_app. split; [assumption |]. constructor; [| constructor].
    rewrite List.Forall_forall in Hp. apply Hp.
    apply in_map_iff. now exists (name, c).
  - rewrite (lookupNode_snoc _ _ _ _ Hl). now apply child_In.
  - assumption.
  - rewrite List.Forall_forall in Hc. now apply (Hc (name, c)).
Qed.

Lemma stackCount_app (a b : list (list string * node)) :
  stackCount (a ++ b) = stackCount a + stackCount b.
Proof. unfold stackCount. now rewrite map_app, list_sum_app. Qed.

Lemma stackFiles_app (a b : list (list string * node)) :
  stackFiles (a ++ b) = (stackFiles b ++ stackFiles a)%list.
Proof. unfold stackFiles. now rewrite rev_app_distr, map_app, concat_app. Qed.

(** The loop empties a stack of directories of the tree within as many
    rounds as these hold directories, and adds the policy files in and
    below them, the directory put on the stack last first. *)
Lemma walk_stack (fs : node) (k : nat) :
  forall (stack : list (list string * node)) (paths : list string),
    Forall (good fs) stack -> stackCount stack <= k ->
    walk k fs (stackPaths stack) paths
    = Return (paths ++ map pathOf (stackFiles stack))%list.
Proof.
  induction k as [|k IH]; intros stack paths Hgood Hk.
  - destruct stack as [| [es n] rest].
    + cbn. now rewrite List.app_nil_r.
    + inversion Hgood as [| ? ? (_ & _ & Hd & _) _]; subst. cbn [snd] in Hd.
      destruct n as [| entries]; [discriminate |]. unfold stackCount in Hk.
      cbn [map list_sum fold_right snd] in Hk. rewrite (dirCount_Dir entries es) in Hk. lia.
  - destruct stack as [| s0 rest0] using rev_ind.
    + cbn. now rewrite List.app_nil_r.
    + clear IHrest0. destruct s0 as [es n].
      apply Forall_app in Hgood as [Hrest Hlast].
      inversion Hlast as [| ? ? Hg _]; subst.
      destruct n as [| entries]; [now destruct Hg as (_ & _ & Hd & _) |].
      pose proof Hg as (Hes & Hl & _ & Hw). cbn [fst snd] in Hes, Hl, Hw.
      destruct (wellFormed_Dir _ Hw) as (Hp & _ & _).
      unfold stackPaths. rewrite map_app. cbn [map fst].
      rewrite walk_step by (intros E; now apply app_eq_nil in E as [_ E]).
      rewrite List.last_last, List.removelast_last.
      unfold ReadDir. rewrite (elemsOf_pathOf es Hes), Hl.
      cbn [orReturn obind]. rewrite (fold_visit es entries _ _ Hes Hp).
      change (map (fun s => pathOf (fst s)) rest0) with (stackPaths rest0).
      replace (stackPaths rest0 ++ stackPaths (subdirs entries es))%list
        with (stackPaths (rest0 ++ subdirs entries es))
        by (unfold stackPaths; now rewrite map_app).
      rewrite IH.
      * rewrite !stackFiles_app. unfold stackFiles at 3.
        cbn [rev map concat List.app fst snd].
        rewrite policyFiles_Dir, List.app_nil_r, !map_app.
        now rewrite !List.app_assoc.
      * apply Forall_app. split; [assumption | now apply good_subdirs].
      * rewrite stackCount_app in *. unfold stackCount at 2 in Hk.
        cbn [map list_sum fold_right snd] in Hk.
        rewrite (dirCount_Dir entries es) in Hk. lia.
Qed.

Lemma dirCount_size (n : node) : dirCount n <= size n.
Proof.
  revert n. fix IH 1. intros [content | entries]; cbn [dirCount size]; [lia |].
  apply le_n_S. induction entries as [| [name c] rest IHrest]; [lia |].
  specialize (IH c). lia.
Qed.

Lemma child_Some_In (entries : list (string * node)) (name : string) (c : node) :
  child name entries = Some c -> In (name, c) entries.
Proof.
  induction entries as [| [n0 c0] rest IH]; [discriminate |].
  cbn [child]. destruct (String.eqb_spec n0 name) as [-> | Hne].
  - intros E. injection E as ->. now left.
  - intros H. right. now apply IH.
Qed.

Lemma child_size (entries : list (string * node)) (name : string) (c : node) :
  child name entries = Some c -> size c < size (Dir entries).
Proof.
  intros H. apply child_Some_In in H. cbn [size]. apply Nat.lt_succ_r.
  induction entries as [| [n0 c0] rest IH]; [contradiction |].
  destruct H as [E | Hin]; [injection E as -> ->; lia |].
  specialize (IH Hin). lia.
Qed.

Lemma lookupNode_size (fs d : node) (es : list string) :
  lookupNode fs es = Some d -> size d <= size fs.
Proof.
  revert fs. induction es as [|e es IH]; intros fs H.
  - cbn in H. injection H as ->. lia.
  - cbn [lookupNode] in H. destruct fs as [| entries]; [discriminate |].
    destruct (child e entries) as [c|] eqn:Hc; [| discriminate].
    apply IH in H. apply child_size in Hc. lia.
Qed.

Lemma lookupNode_app (fs d : node) (es rel : list string) :
  lookupNode fs es = Some d ->
  lookupNode fs (es ++ rel) = lookupNode d rel.
Proof.
  revert fs. induction es as [|e es IH]; intros fs H.
  - cbn in H. now injection H as ->.
  - cbn [List.app lookupNode] in *. destruct fs as [| entries]; [discriminate |].
    destruct (child e entries); [| discriminate]. now apply IH.
Qed.

Lemma lookupNode_plain (d x : node) (rel : list string) :
  wellFormed d = true -> lookupNode d rel = Some x ->
  Forall (fun e => plainName e = true) rel.
Proof.
  revert d. induction rel as [|e rel IH]; intros d Hw H; [constructor |].
  cbn [lookupNode] in H. destruct d as [| entries]; [discriminate |].
  destruct (child e entries) as [c|] eqn:Hc; [| discriminate].
  apply child_Some_In in Hc.
  destruct (wellFormed_Dir _ Hw) as (Hp & _ & Hcs).
  rewrite List.Forall_forall in Hp, Hcs. constructor.
  - apply Hp. apply in_map_iff. now exists (e, c).
  - apply (IH c); [apply (Hcs (e, c) Hc) | assumption].
Qed.

Lemma node_induction (P : node -> Prop) :
  (forall content, P (File content)) ->
  (forall entries, Forall (fun f => P (snd f)) entries -> P (Dir entries)) ->
  forall n, P n.
Proof.
  intros HF HD. fix IH 1. intros [content | entries]; [apply HF |].
  apply HD. induction entries as [| [name c] rest IHrest]; constructor.
  - apply IH.
  - exact IHrest.
Qed.

Lemma In_stackFiles (stack : list (list string * node)) (p : list string) :
  In p (stackFiles stack) <->
  exists s, In s stack /\ In p (policyFiles (snd s) (fst s)).
Proof.
  unfold stackFiles. rewrite in_concat. split.
  - intros (l & Hl & Hp). apply in_map_iff in Hl as (s & <- & Hs).
    exists s. split; [now apply in_rev | assumption].
  - intros (s & Hs & Hp). exists (policyFiles (snd s) (fst s)).
    split; [| assumption]. apply in_map_iff. exists s.
    split; [reflexivity | now apply in_rev in Hs].
Qed.

Lemma In_subdirs (entries : list (string * node)) (es : list string)
    (s : list string * node) :
  In s (subdirs entries es) <->
  exists name c, s = ((es ++ [name])%list, c) /\ In (name, c) entries
                 /\ IsDir c = true.
Proof.
  unfold subdirs. rewrite in_map_iff. split.
  - intros ([name c] & <- & Hin). apply filter_In in Hin as [Hin Hd].
    now exists name, c.
  - intros (name & c & -> & Hin & Hd). exists (name, c).
    split; [reflexivity |]. apply filter_In. now split.
Qed.

Lemma In_ownPolicies (entries : list (string * node)) (es p : list string) :
  In p (ownPolicies entries es) <->
  p = (es ++ ["policy.yaml"])%list
  /\ exists content, In ("policy.yaml", File content) entries.
Proof.
  unfold ownPolicies. rewrite in_map_iff. split.
  - intros ([name c] & <- & Hin). apply filter_In in Hin as [Hin Hc].
    cbn [fst snd] in *. apply andb_true_iff in Hc as [Hf Hn].
    apply String.eqb_eq in Hn. subst name.
    destruct c as [content |]; [| discriminate]. eauto.
  - intros (-> & content & Hin). exists ("policy.yaml", File content).
    split; [reflexivity |]. apply filter_In. now split.
Qed.

(** The files listed are those named [policy.yaml] that names lead to. *)
Lemma policyFiles_sound (d : node) :
  forall (es p : list string),
    wellFormed d = true -> In p (policyFiles d es) ->
    exists rel content,
      p = (es ++ rel ++ ["policy.yaml"])%list
      /\ lookupNode d (rel ++ ["policy.yaml"])%list = Some (File content).
Proof.
  induction d as [content | entries IH] using node_induction;
    intros es p Hw Hin; [contradiction |].
  destruct (wellFormed_Dir _ Hw) as (_ & Hd & Hcs).
  rewrite policyFiles_Dir in Hin. apply in_app_or in Hin as [Hin | Hin].
  - apply In_ownPolicies in Hin as (-> & content & Hin).
    exists [], content. split; [reflexivity |].
    cbn [List.app lookupNode]. now rewrite (child_In _ _ _ Hd Hin).
  - apply In_stackFiles in Hin as (s & Hs & Hp).
    apply In_subdirs in Hs as (name & c & -> & Hin & _). cbn [fst snd] in Hp.
    rewrite List.Forall_forall in IH, Hcs.
    destruct (IH (name, c) Hin _ _ (Hcs (name, c) Hin) Hp)
      as (rel & content & -> & Hl).
    exists (name :: rel), content. split.
    + now rewrite <- List.app_assoc.
    + cbn [List.app lookupNode]. now rewrite (child_In _ _ _ Hd Hin).
Qed.

Lemma policyFiles_complete (rel : list string) :
  forall (d : node) (es : list string) (content : string),
    lookupNode d (rel ++ ["policy.yaml"])%list = Some (File content) ->
    In (es ++ rel ++ ["policy.yaml"])%list (policyFiles d es).
Proof.
  induction rel as [| name rel IH]; intros d es content H.
  - cbn [List.app lookupNode] in H. destruct d as [| entries]; [discriminate |].
    destruct (child _ entries) as [c|] eqn:Hc; [| discriminate].
    injection H as ->. apply child_Some_In in Hc.
    rewrite policyFiles_Dir. apply in_or_app. left.
    apply In_ownPolicies. eauto.
  - cbn [List.app lookupNode] in H. destruct d as [| entries]; [discriminate |].
    destruct (child name entries) as [c|] eqn:Hc; [| discriminate].
    apply child_Some_In in Hc. rewrite policyFiles_Dir.
    apply in_or_app. right. apply In_stackFiles.
    exists ((es ++ [name])%list, c). split.
    + apply In_subdirs. exists name, c. repeat split; [assumption |].
      destruct c; [| reflexivity]. now destruct rel.
    + cbn [fst snd].
      replace (es ++ (name :: rel) ++ ["policy.yaml"])%list
        with ((es ++ [name]) ++ rel ++ ["policy.yaml"])%list
        by now rewrite <- List.app_assoc.
      now apply (IH c _ content).
Qed.

Lemma walk_policyFiles (fs d : node) (es0 : list string) :
  Forall (fun e => plainName e = true) es0 ->
  lookupNode fs es0 = Some d -> IsDir d = true -> wellFormed d = true ->
  walk (size fs) fs [pathOf es0] [] = Return (map pathOf (policyFiles d es0)).
Proof.
  intros Hes Hl Hd Hw.
  pose proof (walk_stack fs (size fs) [(es0, d)] []) as H.
  unfold stackPaths, stackFiles in H. cbn [map rev List.app concat fst snd] in H.
  rewrite List.app_nil_r in H. apply H.
  - constructor; [| constructor]. repeat split; assumption.
  - unfold stackCount. cbn [map list_sum fold_right snd].
    pose proof (dirCount_size d). pose proof (lookupNode_size _ _ _ Hl). lia.
Qed.

(** X23.  The search of the bulk fetch ends, and finds the files named
    [policy.yaml] at every depth below the policy directory and nothing
    else: in a tree whose directories list plain names, each once, the
    loop started at an existing directory returns a list of paths within
    as many rounds as the tree has nodes, and a path is in the list
    exactly when it is the path of a file [policy.yaml] reached from the
    policy directory by names of the tree. *)
Theorem walk_finds_policy_files (fs d : node) (es0 : list string) :
  Forall (fun e => plainName e = true) es0 ->
  lookupNode fs es0 = Some d -> IsDir d = true -> wellFormed d = true ->
  exists paths,
    walk (size fs) fs [pathOf es0] [] = Return paths
    /\ forall path,
         In path paths <->
         exists rel content,
           path = pathOf (es0 ++ rel ++ ["policy.yaml"])
           /\ lookupNode fs (es0 ++ rel ++ ["policy.yaml"]) = Some (File content).
Proof.
  intros Hes Hl Hd Hw. exists (map pathOf (policyFiles d es0)).
  split; [now apply walk_policyFiles |].
  intros path. rewrite in_map_iff. split.
  - intros (p & <- & Hin).
    destruct (policyFiles_sound d es0 p Hw Hin) as (rel & content & -> & Hf).
    exists rel, content. split; [reflexivity |].
    now rewrite (lookupNode_app _ _ _ _ Hl).
  - intros (rel & content & -> & Hf). eexists. split; [reflexivity |].
    rewrite (lookupNode_app _ _ _ _ Hl) in Hf.
    now apply (policyFiles_complete rel d es0 content).
Qed.

Lemma ReadFile_pathOf (fs : node) (els : list string) (content : string) :
  Forall (fun e => plainName e = true) els ->
  lookupNode fs els = Some (File content) ->
  ReadFile fs (pathOf els) = Ok content.
Proof. intros Hp Hl. unfold ReadFile. now rewrite (elemsOf_pathOf els Hp), Hl. Qed.

Lemma Split_pathOf (els : list string) :
  els <> [] -> Forall (fun e => plainName e = true) els ->
  Split (pathOf els) Separator = els.
Proof.
  intros Hne Hp. destruct els as [|e els]; [congruence |].
  now apply Split_concat.
Qed.

Section World.
Variable policyRepoOwner policyRepoName policyRepoDir : string.
Variable Clone : string -> string -> result node.
Variable yamlUnmarshal : string -> result Policy.
Variable sha256hex : string -> string.

Lemma parsePolicies_files (fs : node) (files : list (list string)) :
  forall (acc ps : list Policy),
    Forall (fun els => Forall (fun e => plainName e = true) els
                       /\ els <> []
                       /\ exists content, lookupNode fs els = Some (File content))
      files ->
    parsePolicies yamlUnmarshal sha256hex fs (map pathOf files) acc = Return ps ->
    exists news, ps = (acc ++ news)%list /\ Forall2 (parsed yamlUnmarshal sha256hex fs) files news.
Proof.
  induction files as [| els files IH]; intros acc ps Hall H.
  - cbn in H. injection H as <-. exists []. split; [now rewrite List.app_nil_r | constructor].
  - inversion Hall as [| ? ? (Hp & Hne & content & Hl) Hrest]; subst.
    cbn [map parsePolicies] in H.
    rewrite (ReadFile_pathOf fs els content Hp Hl) in H.
    cbn [orReturn obind] in H.
    destruct (yamlUnmarshal content) as [np|] eqn:Hy; [| discriminate].
    cbn [orReturn obind] in H. rewrite (Split_pathOf els Hne Hp) in H.
    destruct (nth_error els 0) as [scope|] eqn:H0; [| discriminate].
    destruct (nth_error els 1) as [pkg|] eqn:H1; [| discriminate].
    destruct (IH _ _ Hrest H) as (news & -> & Hf).
    exists (withIdentity sha256hex np content scope pkg :: news).
    split; [now rewrite <- List.app_assoc |]. constructor; [| assumption].
    exists content, np. repeat split; try assumption.
    now rewrite (nth_error_nth _ _ _ H0), (nth_error_nth _ _ _ H1).
Qed.

(** X25.  The bulk fetch gives one policy for each policy file, in the
    order of the search.  In a tree whose directories list plain names,
    each once, the policies returned correspond one to one to a list of
    files that are exactly the files [policy.yaml] below the policy
    directory; each policy is the decoded file with the hash of the
    file's content as its digest, and with the first and the second name
    of the file's path from the root of the repository as its scope and
    package. *)
Theorem fetchPolicies_one_per_file (ref : string) (fs d : node)
    (es0 : list string) (ps : list Policy) :
  Clone ("https://github.com/" ++ policyRepoOwner ++ "/" ++ policyRepoName
         ++ ".git") ref = Ok fs ->
  policyRepoDir = pathOf es0 ->
  Forall (fun e => plainName e = true) es0 ->
  lookupNode fs es0 = Some d -> IsDir d = true -> wellFormed d = true ->
  fetchPolicies policyRepoOwner policyRepoName policyRepoDir Clone
    yamlUnmarshal sha256hex ref = Return ps ->
  exists files,
    Forall2 (parsed yamlUnmarshal sha256hex fs) files ps
    /\ forall els,
         In els files <->
         exists rel content,
           els = (es0 ++ rel ++ ["policy.yaml"])%list
           /\ lookupNode fs els = Some (File content).
Proof.
  intros Hc -> Hes Hl Hd Hw H. unfold fetchPolicies in H.
  rewrite Hc in H. cbn [orReturn obind] in H.
  rewrite (walk_policyFiles fs d es0 Hes Hl Hd Hw) in H. cbn [obind] in H.
  assert (Hfiles : forall els, In els (policyFiles d es0) ->
            exists rel content,
              els = (es0 ++ rel ++ ["policy.yaml"])%list
              /\ lookupNode fs els = Some (File content)).
  { intros els Hin.
    destruct (policyFiles_sound d es0 els Hw Hin) as (rel & content & -> & Hf).
    exists rel, content. split; [reflexivity |].
    now rewrite (lookupNode_app _ _ _ _ Hl). }
  exists (policyFiles d es0). split.
  - apply parsePolicies_files in H as (news & -> & Hf); [exact Hf |].
    apply List.Forall_forall. intros els Hin.
    destruct (Hfiles els Hin) as (rel & content & -> & Hf).
    split; [| split; [| eauto]].
    2:{ intros E. apply app_eq_nil in E as [_ E].
        now apply app_eq_nil in E as [_ E]. }
    apply Forall_app. split; [assumption |].
    rewrite (lookupNode_app _ _ _ _ Hl) in Hf.
    apply (lookupNode_plain d _ _ Hw Hf).
  - intros els. split; [apply Hfiles |].
    intros (rel & content & -> & Hf).
    rewrite (lookupNode_app _ _ _ _ Hl) in Hf.
    now apply (policyFiles_complete rel d es0 content).
Qed.

(** X24.  A policy file at the top of the repository ends the bulk
    fetch.  With the default policy directory [.], when the root of the
    tree lists a file [policy.yaml] that decodes, the path of that file
    has one element only and the bulk fetch ends in a run-time panic on
    the index of the package. *)
Theorem fetchPolicies_root_policy_panics (ref : string)
    (entries : list (string * node)) (content : string) (np : Policy) :
  Clone ("https://github.com/" ++ policyRepoOwner ++ "/" ++ policyRepoName
         ++ ".git") ref = Ok (Dir entries) ->
  policyRepoDir = "." ->
  wellFormed (Dir entries) = true ->
  child "policy.yaml" entries = Some (File content) ->
  yamlUnmarshal content = Ok np ->
  fetchPolicies policyRepoOwner policyRepoName policyRepoDir Clone
    yamlUnmarshal sha256hex ref = Fatal "index out of range".
Proof.
  intros Hc -> Hw Hchild Hy. unfold fetchPolicies.
  rewrite Hc. cbn [orReturn obind].
  change "." with (pathOf []).
  rewrite (walk_policyFiles (Dir entries) (Dir entries) []
             ltac:(constructor) eq_refl eq_refl Hw).
  cbn [obind]. rewrite policyFiles_Dir.
  pose proof (child_Some_In _ _ _ Hchild) as Hin.
  assert (Hown : In ["policy.yaml"] (ownPolicies entries [])).
  { apply In_ownPolicies. split; [reflexivity | eauto]. }
  destruct (ownPolicies entries []) as [| p rest] eqn:Eown; [contradiction |].
  assert (Hp : p = ["policy.yaml"]).
  { assert (Hin' : In p (ownPolicies entries [])) by (rewrite Eown; now left).
    now apply In_ownPolicies in Hin' as [-> _]. }
  subst p. cbn [List.app map parsePolicies].
  change (pathOf ["policy.yaml"]) with "policy.yaml".
  replace (ReadFile (Dir entries) "policy.yaml") with (@Ok string content).
  2:{ symmetry. unfold ReadFile.
      change (elemsOf "policy.yaml") with ["policy.yaml"].
      cbn [lookupNode]. now rewrite Hchild. }
  cbn [orReturn obind]. rewrite Hy. reflexivity.
Qed.

End World.

Import Fixtures.

Lemma walk_finds_policy_files_witness :
  exists paths,
    walk (size policyTree) policyTree ["policy"] [] = Return paths
    /\ forall path,
         In path paths <->
         exists rel content,
           path = pathOf (["policy"] ++ rel ++ ["policy.yaml"])
           /\ lookupNode policyTree (["policy"] ++ rel ++ ["policy.yaml"])
              = Some (File content).
Proof.
  eapply (walk_finds_policy_files policyTree _ ["policy"]);
    [repeat constructor | reflexivity | reflexivity | reflexivity].
Defined.

Lemma fetchPolicies_root_policy_panics_witness :
  fetchAll topTree "." = Fatal "index out of range".
Proof.
  unfold fetchAll, topTree.
  eapply fetchPolicies_root_policy_panics; reflexivity.
Defined.

Lemma fetchPolicies_one_per_file_witness :
  exists ps files,
    fetchAll policyTree "policy" = Return ps
    /\ Forall2 (parsed decode tagged policyTree) files ps
    /\ forall els,
         In els files <->
         exists rel content,
           els = (["policy"] ++ rel ++ ["policy.yaml"])%list
           /\ lookupNode policyTree els = Some (File content).
Proof.
  eexists.
  epose proof (fetchPolicies_one_per_file "slsa-framework"
                 "provenance-architecture-demo" "policy"
                 (fun _ _ => Ok policyTree) decode tagged "main" policyTree _
                 ["policy"] _ eq_refl eq_refl ltac:(repeat constructor)
                 eq_refl eq_refl eq_refl eq_refl)
    as (files & Hf & Hin).
  exists files. split; [reflexivity |]. split; assumption.
Defined.

End PolicyStoreMore.

(** ** The archive metadata tool *)

Module TransferMetadataFacts.
Import TransferMetadata.

Lemma find_app_entries (f : File -> bool) (l l' : list File) :
  find f (l ++ l')
  = match find f l with Some x => Some x | None => find f l' end.
Proof. induction l as [|a l IH]; simpl; [reflexivity |]. now destruct (f a). Qed.

Lemma index_fold (files : list File) (m : gmap string File) (n : string) :
  fold_left (fun m f => <[Name f := f]> m) files m !! n
  = match lastNamed files n with Some f => Some f | None => m !! n end.
Proof.
  unfold lastNamed. revert m.
  induction files as [|f rest IH]; intros m; simpl; [reflexivity |].
  rewrite IH, find_app_entries. destruct (find _ (rev rest)); [reflexivity |]. simpl.
  destruct (String.eqb_spec (Name f) n) as [<- | Hne].
  - now rewrite lookup_insert_eq.
  - now rewrite lookup_insert_ne.
Qed.

Lemma indexByName_lookup (files : list File) (n : string) :
  indexByName files !! n = lastNamed files n.
Proof.
  unfold indexByName. rewrite index_fold, lookup_empty.
  now destruct (lastNamed files n).
Qed.

Lemma lastNamed_Some (files : list File) (n : string) (f : File) :
  lastNamed files n = Some f -> In f files /\ Name f = n.
Proof.
  unfold lastNamed. intros H. apply find_some in H as [Hin Hn].
  apply in_rev in Hin. now apply String.eqb_eq in Hn.
Qed.

Lemma lastNamed_None (files : list File) (n : string) :
  lastNamed files n = None <-> ~ In n (map Name files).
Proof.
  unfold lastNamed. split.
  - intros H Hin. apply in_map_iff in Hin as (f & Hn & Hin).
    apply in_rev in Hin. apply (find_none _ _ H) in Hin.
    apply String.eqb_neq in Hin. contradiction.
  - intros Hnot. destruct (find _ (rev files)) as [f|] eqn:E; [| reflexivity].
    apply find_some in E as [Hin Hn]. apply in_rev in Hin.
    apply String.eqb_eq in Hn. exfalso. apply Hnot.
    apply in_map_iff. now exists f.
Qed.

Lemma named_iff (files : list File) (n : string) :
  named files n = true <-> In n (map Name files).
Proof.
  unfold named. rewrite existsb_exists. split.
  - intros (x & Hin & E). apply String.eqb_eq in E. now subst.
  - intros Hin. exists n. split; [assumption | apply String.eqb_refl].
Qed.

Lemma named_lastNamed (files : list File) (n : string) :
  named files n = match lastNamed files n with Some _ => true | None => false end.
Proof.
  destruct (lastNamed files n) as [f|] eqn:E.
  - apply named_iff. apply lastNamed_Some in E as [Hin <-].
    apply in_map_iff. now exists f.
  - apply lastNamed_None in E. destruct (named files n) eqn:Hn; [| reflexivity].
    apply named_iff in Hn. contradiction.
Qed.

(** With names that occur once, the last entry of a name is the entry. *)
Lemma lastNamed_NoDup (files : list File) (f : File) :
  List.NoDup (map Name files) -> In f files -> lastNamed files (Name f) = Some f.
Proof.
  intros Hnd Hin. destruct (lastNamed files (Name f)) as [g|] eqn:E.
  - apply lastNamed_Some in E as [Hg Hn]. f_equal.
    clear -Hnd Hin Hg Hn. induction files as [|a rest IH]; [contradiction |].
    cbn [map] in Hnd. inversion Hnd as [| ? ? Hnot Hnd']; subst.
    destruct Hin as [-> | Hin], Hg as [-> | Hg]; trivial.
    + exfalso. apply Hnot. rewrite <- Hn. apply in_map_iff. now exists g.
    + exfalso. apply Hnot. rewrite Hn. apply in_map_iff. now exists f.
    + now apply IH.
  - apply lastNamed_None in E. exfalso. apply E. apply in_map_iff. now exists f.
Qed.

(** *** [transferMetadata] *)

(** X26.  The destination keeps its entries, their names, their order and
    the rest of each entry; an entry whose name some entry of the source
    bears gets the modification time, the two legacy time fields and the
    external attributes of the last such source entry, and an entry whose
    name the source does not hold is left as it is. *)
Theorem transferMetadata_entries (source dest : list File) :
  map Name (transferMetadata source dest) = map Name dest
  /\ map Entry (transferMetadata source dest) = map Entry dest
  /\ Forall2
       (fun d r =>
          match lastNamed source (Name d) with
          | Some s =>
              Modified r = Modified s /\ ModifiedTime r = ModifiedTime s
              /\ ModifiedDate r = ModifiedDate s
              /\ ExternalAttrs r = ExternalAttrs s
          | None => r = d
          end)
       dest (transferMetadata source dest).
Proof.
  unfold transferMetadata. induction dest as [|d rest (IHn & IHe & IHf)].
  - repeat split; constructor.
  - cbn [map]. rewrite IHn, IHe. rewrite indexByName_lookup.
    destruct (lastNamed source (Name d)) as [s|] eqn:E.
    + repeat split. constructor; [| exact IHf]. rewrite E. repeat split.
    + repeat split. constructor; [| exact IHf]. now rewrite E.
Qed.

(** *** [transferFileOrder] *)

Lemma keyed_index (files : list File) : keyed (indexByName files).
Proof.
  intros n f H. rewrite indexByName_lookup in H.
  now apply lastNamed_Some in H.
Qed.

Lemma keyed_delete (m : gmap string File) (n : string) :
  keyed m -> keyed (delete n m).
Proof.
  intros Hk n' f H. apply lookup_delete_Some in H as [_ H]. now apply Hk.
Qed.

(** The loop over the source: what it adds and what it leaves. *)
Lemma place_fold (source : list File) :
  forall (r : list File) (m : gmap string File),
    keyed m ->
    exists added,
      fst (fold_left place source (r, m)) = (r ++ added)%list
      /\ Forall (fun g => m !! Name g = Some g) added
      /\ Forall (fun g => named source (Name g) = true) added
      /\ List.NoDup (map Name added)
      /\ (forall n, In n (map Name source) -> present m n = true ->
                    In n (map Name added))
      /\ (forall n, snd (fold_left place source (r, m)) !! n
                    = if named source n then None else m !! n)
      /\ (List.NoDup (map Name source) ->
          map Name added = List.filter (present m) (map Name source)).
Proof.
  induction source as [|f rest IH]; intros r m Hk.
  - exists []. cbn. rewrite List.app_nil_r.
    repeat split; try constructor; try contradiction.
  - cbn [fold_left]. unfold place at 2 4. cbn [fst snd].
    destruct (m !! Name f) as [d|] eqn:Hd.
    + destruct (IH (r ++ [d])%list (delete (Name f) m) (keyed_delete _ _ Hk))
        as (added & Hfst & Hall & Hsrc & Hnd & Hin & Hsnd & Hord).
      assert (Hdn : Name d = Name f) by now apply Hk.
      assert (Hall' : Forall (fun g => m !! Name g = Some g /\ Name g <> Name f)
                        added).
      { apply List.Forall_forall. intros g Hg.
        rewrite List.Forall_forall in Hall. specialize (Hall g Hg).
        apply lookup_delete_Some in Hall as [Hne Hl]. now split. }
      exists (d :: added).
      split; [| split; [| split; [| split; [| split; [| split]]]]].
      * rewrite Hfst. now rewrite <- List.app_assoc.
      * constructor; [now rewrite Hdn |].
        apply List.Forall_forall. intros g Hg.
        rewrite List.Forall_forall in Hall'. now apply Hall'.
      * constructor.
        -- rewrite Hdn. unfold named. cbn [map existsb].
           now rewrite String.eqb_refl.
        -- apply List.Forall_forall. intros g Hg.
           rewrite List.Forall_forall in Hsrc. specialize (Hsrc g Hg).
           unfold named in *. cbn [map existsb]. rewrite Hsrc.
           apply orb_true_r.
      * cbn [map]. constructor; [| assumption]. intros Hc.
        apply in_map_iff in Hc as (g & Hgn & Hg).
        rewrite List.Forall_forall in Hall'. destruct (Hall' g Hg) as [_ Hne].
        congruence.
      * intros n Hn Hp. cbn [map]. destruct (String.eqb_spec (Name f) n) as [E | Hne].
        -- left. congruence.
        -- right. destruct Hn as [E | Hn]; [contradiction |].
           apply Hin; [assumption |]. unfold present in *.
           now rewrite lookup_delete_ne.
      * intros n. rewrite Hsnd. unfold named. cbn [map existsb].
        destruct (String.eqb_spec n (Name f)) as [-> | Hne]; cbn [orb].
        -- destruct (existsb _ _); [reflexivity | apply lookup_delete_eq].
        -- destruct (existsb _ _); [reflexivity |].
           now rewrite lookup_delete_ne.
      * intros Hs. cbn [map] in Hs. inversion Hs as [| ? ? Hnot Hs']; subst.
        cbn [map List.filter]. unfold present at 1. rewrite Hd. rewrite Hdn.
        f_equal. rewrite (Hord Hs'). apply filter_ext_in. intros n Hn.
        unfold present. rewrite lookup_delete_ne; [reflexivity |].
        intros E. subst n. contradiction.
    + destruct (IH r m Hk)
        as (added & Hfst & Hall & Hsrc & Hnd & Hin & Hsnd & Hord).
      exists added. split; [| split; [| split; [| split; [| split; [| split]]]]];
        try assumption.
      * apply List.Forall_forall. intros g Hg.
        rewrite List.Forall_forall in Hsrc. specialize (Hsrc g Hg).
        unfold named in *. cbn [map existsb]. rewrite Hsrc.
        apply orb_true_r.
      * intros n Hn Hp. destruct Hn as [E | Hn]; [| now apply Hin].
        subst n. unfold present in Hp. now rewrite Hd in Hp.
      * intros n. rewrite Hsnd. unfold named. cbn [map existsb].
        destruct (String.eqb_spec n (Name f)) as [-> | Hne]; cbn [orb];
          [| reflexivity].
        now destruct (existsb _ _).
      * intros Hs. cbn [map] in Hs. inversion Hs as [| ? ? Hnot Hs']; subst.
        cbn [map List.filter]. unfold present at 1. rewrite Hd. now apply Hord.
Qed.

Lemma range_In (rangeMap : gmap string File -> list File)
    (m : gmap string File) (f : File) :
  anyOrder rangeMap -> keyed m ->
  In f (rangeMap m) <-> m !! Name f = Some f.
Proof.
  intros Hr Hk. split.
  - intros Hin. apply (Permutation_in _ (Hr m)) in Hin.
    apply in_map_iff in Hin as ([n g] & <- & Hin). cbn [snd].
    apply list_elem_of_In, elem_of_map_to_list in Hin.
    now rewrite (Hk _ _ Hin).
  - intros Hl. apply (Permutation_in _ (Permutation_sym (Hr m))).
    apply in_map_iff. exists (Name f, f). split; [reflexivity |].
    now apply list_elem_of_In, elem_of_map_to_list.
Qed.

Lemma range_NoDup (rangeMap : gmap string File -> list File)
    (m : gmap string File) :
  anyOrder rangeMap -> keyed m -> List.NoDup (map Name (rangeMap m)).
Proof.
  intros Hr Hk.
  apply (Permutation_NoDup (l := map Name (map snd (map_to_list m)))).
  - apply Permutation_map, Permutation_sym, Hr.
  - replace (map Name (map snd (map_to_list m))) with (map fst (map_to_list m)).
    + apply NoDup_ListNoDup, NoDup_fst_map_to_list.
    + rewrite map_map. apply map_ext_in. intros [n g] Hin. cbn [fst snd].
      apply list_elem_of_In, elem_of_map_to_list in Hin.
      symmetry. now apply Hk.
Qed.

Lemma name_inj (files : list File) (f g : File) :
  List.NoDup (map Name files) -> In f files -> In g files ->
  Name f = Name g -> f = g.
Proof.
  intros Hnd Hf Hg Hn. pose proof (lastNamed_NoDup files f Hnd Hf) as E1.
  pose proof (lastNamed_NoDup files g Hnd Hg) as E2. congruence.
Qed.

Section Order.
Variable rangeMap : gmap string File -> list File.
Hypothesis Hrange : anyOrder rangeMap.

(** The new order, in two parts. *)
Lemma transferFileOrder_parts (source dest : list File) :
  exists front back,
    transferFileOrder rangeMap source dest = (front ++ back)%list
    /\ List.NoDup (map Name (front ++ back))
    /\ (forall f, In f (front ++ back) <-> lastNamed dest (Name f) = Some f)
    /\ Forall (fun f => named source (Name f) = true) front
    /\ Forall (fun f => named source (Name f) = false) back
    /\ (List.NoDup (map Name source) ->
        map Name front = List.filter (named dest) (map Name source)).
Proof.
  unfold transferFileOrder.
  destruct (place_fold source [] (indexByName dest) (keyed_index dest))
    as (added & Hfst & Hall & Hsrc & Hnd & Hin & Hsnd & Hord).
  cbn [List.app] in Hfst. rewrite Hfst.
  set (left := snd (fold_left place source ([], indexByName dest))) in *.
  assert (Hleft : forall n f, left !! n = Some f ->
            named source n = false /\ indexByName dest !! n = Some f).
  { intros n f H. rewrite Hsnd in H.
    destruct (named source n); [discriminate | now split]. }
  assert (Hk : keyed left).
  { intros n f H. apply Hleft in H as [_ H]. now apply (keyed_index dest). }
  assert (Hback : Forall (fun f => named source (Name f) = false) (rangeMap left)).
  { apply List.Forall_forall. intros f Hf.
    apply (range_In _ _ _ Hrange Hk) in Hf. now apply Hleft in Hf. }
  exists added, (rangeMap left).
  split; [reflexivity |]. split; [| split; [| split; [| split]]];
    try assumption.
  - rewrite map_app. apply List.NoDup_app;
      [assumption | now apply range_NoDup |].
    intros n Hn Hn'. apply in_map_iff in Hn as (g & <- & Hg).
    apply in_map_iff in Hn' as (g' & E & Hg').
    rewrite List.Forall_forall in Hsrc, Hback.
    specialize (Hsrc g Hg). specialize (Hback g' Hg'). congruence.
  - intros f. rewrite <- indexByName_lookup. split.
    + intros Hf. apply in_app_or in Hf as [Hf | Hf].
      * rewrite List.Forall_forall in Hall. now apply Hall.
      * apply (range_In _ _ _ Hrange Hk) in Hf. now apply Hleft in Hf.
    + intros Hl. apply in_or_app.
      destruct (named source (Name f)) eqn:Hn.
      * left. apply named_iff in Hn.
        assert (Hp : present (indexByName dest) (Name f) = true)
          by (unfold present; now rewrite Hl).
        specialize (Hin _ Hn Hp). apply in_map_iff in Hin as (g & Hgn & Hg).
        rewrite List.Forall_forall in Hall. specialize (Hall g Hg).
        rewrite Hgn in Hall. assert (g = f) by congruence. now subst.
      * right. apply (range_In _ _ _ Hrange Hk). rewrite Hsnd. now rewrite Hn.
  - intros Hs. rewrite (Hord Hs). apply filter_ext. intros n.
    unfold present. rewrite indexByName_lookup. symmetry.
    apply named_lastNamed.
Qed.

(** X27.  The new order of the destination.  Every name of the
    destination is kept once, with the last entry that bears it; entries
    whose names the source holds come first, entries with other names
    after them, in whatever order the table gives them; when the source
    holds each name once, the first part follows the order of the source;
    and when the destination holds each name once, no entry is lost: the
    new order is a permutation of the old. *)
Theorem transferFileOrder_order (source dest : list File) :
  exists front back,
    transferFileOrder rangeMap source dest = (front ++ back)%list
    /\ List.NoDup (map Name (front ++ back))
    /\ (forall f, In f (front ++ back) <-> lastNamed dest (Name f) = Some f)
    /\ Forall (fun f => named source (Name f) = true) front
    /\ Forall (fun f => named source (Name f) = false) back
    /\ (List.NoDup (map Name source) ->
        map Name front = List.filter (named dest) (map Name source))
    /\ (List.NoDup (map Name dest) -> Permutation (front ++ back) dest).
Proof.
  destruct (transferFileOrder_parts source dest)
    as (front & back & E & Hnd & Hin & Hf & Hb & Hord).
  exists front, back.
  split; [assumption |]. split; [assumption |]. split; [assumption |].
  split; [assumption |]. split; [assumption |]. split; [assumption |].
  intros Hd. apply Stdlib.Sorting.Permutation.NoDup_Permutation.
  - now apply List.NoDup_map_inv in Hnd.
  - now apply List.NoDup_map_inv in Hd.
  - intros f. rewrite Hin. split.
    + intros H. now apply lastNamed_Some in H.
    + now apply lastNamed_NoDup.
Qed.

End Order.

(** *** [main] *)

Lemma copyAll_ok (Copy : File -> result unit) (files written : list File) :
  (forall f, In f files -> Copy f = Ok tt) ->
  copyAll Copy files written = Return (written ++ files)%list.
Proof.
  revert written. induction files as [|f rest IH]; intros written Hc.
  - cbn. now rewrite List.app_nil_r.
  - cbn [copyAll]. rewrite (Hc f) by now left. cbn [orFatal obind].
    rewrite IH by (intros g Hg; apply Hc; now right).
    now rewrite <- List.app_assoc.
Qed.

Lemma transferMetadata_In (source dest : list File) (o : File) :
  In o (transferMetadata source dest) ->
  exists d, In d dest /\ Name d = Name o
            /\ o = match lastNamed source (Name d) with
                   | Some s => withMetadata d s
                   | None => d
                   end.
Proof.
  unfold transferMetadata. intros H. apply in_map_iff in H as (d & <- & Hd).
  exists d. rewrite indexByName_lookup.
  split; [assumption |]. split; [| reflexivity].
  now destruct (lastNamed source (Name d)).
Qed.

(** Entries that follow the names of the source entry by entry. *)
Lemma aligned (source dest out : list File) :
  List.NoDup (map Name source) ->
  map Name out = map Name source ->
  (forall o, In o out ->
     exists d s, In d dest /\ In s source /\ Name s = Name d
                 /\ o = withMetadata d s) ->
  Forall2 (fun s o => exists d, In d dest /\ Name d = Name s
                                /\ o = withMetadata d s)
    source out.
Proof.
  revert out. induction source as [|s0 rest IH]; intros out Hnd Hn Ho.
  - destruct out; [constructor | discriminate].
  - destruct out as [|o out]; [discriminate |].
    cbn [map] in Hn. injection Hn as Hn0 Hn'. constructor.
    + destruct (Ho o (or_introl eq_refl)) as (d & s & Hd & Hs & Hsd & ->).
      cbn [withMetadata Name] in Hn0.
      assert (s = s0).
      { apply (name_inj (s0 :: rest)); [assumption | assumption | now left |].
        congruence. }
      subst s. now exists d.
    + cbn [map] in Hnd. inversion Hnd as [| ? ? Hnot Hnd']; subst.
      apply IH; [assumption | assumption |].
      intros o' Ho'. destruct (Ho o' (or_intror Ho'))
        as (d & s & Hd & Hs & Hsd & ->).
      exists d, s. repeat split; try assumption.
      destruct Hs as [<- | Hs]; [| assumption].
      exfalso. apply Hnot. rewrite <- Hn'. apply in_map_iff.
      exists (withMetadata d s0). split; [| assumption].
      cbn [withMetadata Name]. congruence.
Qed.

Section Main.
Variable rangeMap : gmap string File -> list File.
Variable ReadFile : string -> result string.
Variable NewReader : string -> result (list File).
Variable Create : string -> result unit.
Variable Copy : File -> result unit.
Hypothesis Hrange : anyOrder rangeMap.

(** X28.  What the tool writes.  When the two archives are read, hold the
    same names, each once, and the entries can be written, the tool
    writes the destination anew with one entry for each entry of the
    source, in the order of the source: the entry of the destination of
    the same name, with its own content, under the times and the
    attributes of the source entry. *)
Theorem main_aligns (prog sourcePath destPath sourceBytes destBytes : string)
    (source dest : list File) :
  ReadFile sourcePath = Ok sourceBytes -> NewReader sourceBytes = Ok source ->
  ReadFile destPath = Ok destBytes -> NewReader destBytes = Ok dest ->
  Create destPath = Ok tt -> (forall f, Copy f = Ok tt) ->
  List.NoDup (map Name source) -> List.NoDup (map Name dest) ->
  (forall n, In n (map Name source) <-> In n (map Name dest)) ->
  exists out,
    main rangeMap ReadFile NewReader Create Copy [prog; sourcePath; destPath]
    = Return out
    /\ Forall2 (fun s o => exists d, In d dest /\ Name d = Name s
                                     /\ o = withMetadata d s)
         source out.
Proof.
  intros Hrs Hzs Hrd Hzd Hcr Hcp Hns Hnd Hsame. unfold main.
  rewrite Hrs. cbn [orFatal obind]. rewrite Hzs. cbn [orFatal obind].
  rewrite Hrd. cbn [orFatal obind]. rewrite Hzd. cbn [orFatal obind].
  rewrite Hcr. cbn [orFatal obind].
  rewrite copyAll_ok by (intros f _; apply Hcp). cbn [List.app].
  eexists. split; [reflexivity |].
  destruct (transferMetadata_entries source dest) as (Hnames & _ & _).
  destruct (transferFileOrder_parts rangeMap Hrange source
              (transferMetadata source dest))
    as (front & back & -> & _ & Hin & _ & Hb & Hord).
  assert (Hnamed : forall o, lastNamed (transferMetadata source dest) (Name o)
                             = Some o -> named source (Name o) = true).
  { intros o Ho. apply lastNamed_Some in Ho as [Ho _].
    apply named_iff, Hsame. rewrite <- Hnames.
    apply in_map_iff. now exists o. }
  assert (back = []) as ->.
  { destruct back as [|f back]; [reflexivity |]. exfalso.
    inversion Hb as [| ? ? Hf _]; subst.
    assert (Ho : In f (front ++ f :: back)) by (apply in_or_app; right; now left).
    apply Hin, Hnamed in Ho. congruence. }
  rewrite List.app_nil_r in *. apply aligned; [assumption | |].
  - rewrite (Hord Hns). rewrite <- (filter_ext_in (fun _ => true)).
    + clear. induction (map Name source) as [|n l IH]; [reflexivity |].
      cbn [List.filter]. now rewrite IH.
    + intros n Hn. symmetry. apply named_iff. rewrite Hnames. now apply Hsame.
  - intros o Ho. apply Hin in Ho. apply lastNamed_Some in Ho as [Ho _].
    apply transferMetadata_In in Ho as (d & Hd & Hdn & E).
    assert (Hs : In (Name d) (map Name source)).
    { apply Hsame. apply in_map_iff. now exists d. }
    destruct (lastNamed source (Name d)) as [s|] eqn:El.
    + apply lastNamed_Some in El as [Hs' Hsn]. now exists d, s.
    + apply lastNamed_None in El. contradiction.
Qed.

End Main.

Import Fixtures.

Lemma key_order : anyOrder keyOrder.
Proof. intros m. reflexivity. Qed.

Lemma transferFileOrder_order_witness :
  exists front back,
    transferFileOrder keyOrder publishedZip rebuiltZip = (front ++ back)%list
    /\ List.NoDup (map Name (front ++ back))
    /\ (forall f, In f (front ++ back) <-> lastNamed rebuiltZip (Name f) = Some f)
    /\ Forall (fun f => named publishedZip (Name f) = true) front
    /\ Forall (fun f => named publishedZip (Name f) = false) back
    /\ (List.NoDup (map Name publishedZip) ->
        map Name front = List.filter (named rebuiltZip) (map Name publishedZip))
    /\ (List.NoDup (map Name rebuiltZip) -> Permutation (front ++ back) rebuiltZip).
Proof. exact (transferFileOrder_order keyOrder key_order publishedZip rebuiltZip). Defined.

Lemma main_aligns_witness :
  exists out,
    main keyOrder archives readZip (fun _ => Ok tt) (fun _ => Ok tt)
      ["transfer_metadata"; "published.whl"; "rebuilt.whl"]
    = Return out
    /\ Forall2 (fun s o => exists d, In d rebuiltZip /\ Name d = Name s
                                     /\ o = withMetadata d s)
         publishedZip out.
Proof.
  apply (main_aligns keyOrder archives readZip (fun _ => Ok tt) (fun _ => Ok tt)
           key_order "transfer_metadata" "published.whl" "rebuilt.whl"
           "published" "rebuilt" publishedZip rebuiltZip);
    try reflexivity.
  - repeat constructor; simpl; intuition discriminate.
  - repeat constructor; simpl; intuition discriminate.
  - intros n. simpl. tauto.
Defined.

End TransferMetadataFacts.

(** ** The rebuild and monitor handlers *)

Module HandlersFacts.
Import GoStrings Filepath Release InToto Policy Handlers.
Import Upload.

Section World.
Variable fetchPolicy : string -> string -> string -> result Policy.
Variable firestoreNewClient : result unit.
Variable Rebuild :
  string -> string -> Rebuilder.RebuilderOptions ->
  outcome (list ProvenanceStatement).
Variable MonitorBuild :
  string -> string -> Monitor.MonitorOptions ->
  outcome (option ProvenanceStatement).
Variable Envelope : Type.
Variable EncodeCanonical : ProvenanceStatement -> result string.
Variable NewDSSE : string -> result Envelope.
Variable jsonMarshal : Envelope -> result string.
Variable firestoreSet : Document -> result unit.
Variable K_REVISION : string.
Variable startTime endTime : Z.

Lemma checkVersion_Return (form : Form) (record record' : RunRecord)
    (builtVersion : string) :
  checkVersion form record builtVersion = Return record' ->
  recVersion record = fVersion form ->
  recVersion record' = builtVersion
  /\ (fVersion form = "" \/ fVersion form = builtVersion)
  /\ recPolicyVersion record' = recPolicyVersion record.
Proof.
  unfold checkVersion. intros H Hv.
  destruct (String.eqb_spec (fVersion form) "") as [E | Hne].
  - injection H as <-. cbn. auto.
  - destruct (String.eqb_spec builtVersion (fVersion form)) as [E | Hne'];
      [| discriminate].
    cbn [negb] in H. injection H as <-. split; [congruence |]. auto.
Qed.

(** What the shared tail has done when it returns. *)
Lemma attest_Return (form : Form) (stmt : ProvenanceStatement)
    (record : RunRecord) (final : RunRecord -> RunRecord) (eff : Effects) :
  attest Envelope EncodeCanonical NewDSSE jsonMarshal firestoreSet
    form stmt record final = Return eff ->
  (eff = answer "Internal Error" 500)
  \/ (exists doc,
        attested eff = Some doc /\ answered eff = None
        /\ recorded eff = Some (final record)
        /\ docKey doc = fPkg form ++ "!" ++ recVersion record
        /\ docPackage doc = fPkg form
        /\ docVersion doc = recVersion record
        /\ EncodeCanonical stmt = Ok (docRaw doc)
        /\ (exists dsse, NewDSSE (docRaw doc) = Ok dsse
                         /\ jsonMarshal dsse = Ok (docDSSE doc))
        /\ firestoreSet doc = Ok tt).
Proof.
  unfold attest. intros H.
  destruct (EncodeCanonical stmt) as [stmtBytes|] eqn:He;
    cbn [orFatal obind] in H; [| discriminate].
  destruct (NewDSSE stmtBytes) as [dsse|] eqn:Hd;
    cbn [orFatal obind] in H; [| discriminate].
  destruct (jsonMarshal dsse) as [dsseBytes|] eqn:Hj;
    cbn [orFatal obind] in H; [| discriminate].
  destruct (firestoreSet _) as [[]|] eqn:Hs; injection H as <-.
  - right. eexists. cbn [attested answered recorded].
    repeat split; try reflexivity; try assumption.
    exists dsse. now split.
  - now left.
Qed.

(** X29.  The rebuild handler never answers that nothing was found, and
    attests one statement only.  When it returns, its answer is no 404;
    and when it has set an attestation, the policy was fetched and holds
    a rebuilder section, the rebuild returned exactly one statement, the
    version in the stored document is the second field between dashes of
    the base name of that statement's first subject, it is the requested
    version unless none was requested, the key is the package, [!] and
    that version, the stored statement is the canonical encoding, no
    error was answered and the run is recorded as a success under the
    policy's digest.  A rebuild that returns any other number of
    statements ends the process. *)
Theorem HandleRebuild_attests (form : Form) :
  (forall eff,
     HandleRebuild fetchPolicy firestoreNewClient Rebuild Envelope
       EncodeCanonical NewDSSE jsonMarshal firestoreSet K_REVISION startTime
       endTime form = Return eff ->
     (forall msg, answered eff <> Some (msg, 404%Z))
     /\ forall doc,
          attested eff = Some doc ->
          exists policy rb stmt subj rest,
            fetchPolicy (fScope form) (fPkg form)
              (if String.eqb (fRef form) "" then "main" else fRef form)
            = Ok policy
            /\ rebuilder policy = Some rb
            /\ Rebuild (fPkg form) (Repo policy)
                 {| Rebuilder.Types := [wheelAny];
                    Rebuilder.PackageRoot := Some (PackageRoot rb);
                    Rebuilder.Version := Some (fVersion form) |}
               = Return [stmt]
            /\ Subjects stmt = subj :: rest
            /\ nth_error (Split (Base (Name subj)) "-") 1
               = Some (docVersion doc)
            /\ (fVersion form = "" \/ fVersion form = docVersion doc)
            /\ docKey doc = fPkg form ++ "!" ++ docVersion doc
            /\ EncodeCanonical stmt = Ok (docRaw doc)
            /\ answered eff = None
            /\ exists record,
                 recorded eff = Some record
                 /\ recStatus record = "success"
                 /\ recVersion record = docVersion doc
                 /\ recPolicyVersion record = PolicyDigest policy)
  /\ (forall policy rb stmts,
        fetchPolicy (fScope form) (fPkg form)
          (if String.eqb (fRef form) "" then "main" else fRef form)
        = Ok policy ->
        rebuilder policy = Some rb ->
        firestoreNewClient = Ok tt ->
        Rebuild (fPkg form) (Repo policy)
          {| Rebuilder.Types := [wheelAny];
             Rebuilder.PackageRoot := Some (PackageRoot rb);
             Rebuilder.Version := Some (fVersion form) |}
        = Return stmts ->
        List.length stmts <> 1 ->
        HandleRebuild fetchPolicy firestoreNewClient Rebuild Envelope
          EncodeCanonical NewDSSE jsonMarshal firestoreSet K_REVISION
          startTime endTime form
        = Fatal "Unexpected returned statements").
Proof.
  split.
  - intros eff H. unfold HandleRebuild in H. cbv zeta in H.
    destruct (fetchPolicy _ _ _) as [policy | e0] eqn:Hp;
      [| injection H as <-; split; [intros msg E | intros doc E]; discriminate E].
    destruct (rebuilder policy) as [rb|] eqn:Hrb;
      [| injection H as <-; split; [intros msg E | intros doc E]; discriminate E].
    destruct firestoreNewClient as [[] | e0];
      [| injection H as <-; split; [intros msg E | intros doc E]; discriminate E].
    destruct (Rebuild _ _ _) as [stmts | e | m |] eqn:Hr; try discriminate H.
    + destruct stmts as [| stmt [| stmt' more]]; try discriminate H.
      cbn [List.length Nat.eqb negb] in H.
      destruct (Subjects stmt) as [| subj rest] eqn:Hs; [discriminate |].
      unfold versionField in H.
      destruct (nth_error _ 1) as [builtVersion|] eqn:Hv; [| discriminate].
      cbn [obind] in H.
      destruct (checkVersion form _ builtVersion) as [record' | | |] eqn:Hc;
        try discriminate H.
      cbn [obind] in H.
      apply checkVersion_Return in Hc as (Hv' & Hreq & Hpv); [| reflexivity].
      apply attest_Return in H as [-> | (doc & Hdoc & Hans & Hrec & Hk & _ & Hdv & He & _)].
      * split; [intros msg E | intros doc E]; discriminate E.
      * split; [intros msg E; congruence |].
        intros doc' Hdoc'. assert (doc' = doc) by congruence. subst doc'.
        exists policy, rb, stmt, subj, rest.
        rewrite Hdv, Hv'. repeat split; try assumption.
        -- now rewrite Hk, Hv'.
        -- eexists. split; [exact Hrec |]. cbn. split; [reflexivity |].
           split; assumption.
    + destruct (HasPrefix e _); injection H as <-;
        (split; [intros msg E | intros doc E]; discriminate E).
  - intros policy rb stmts Hp Hrb Hc Hr Hlen. unfold HandleRebuild. cbv zeta.
    rewrite Hp, Hrb, Hc, Hr.
    destruct (Nat.eqb_spec (List.length stmts) 1); [contradiction | reflexivity].
Qed.

Lemma builtVersionOf_none (subjects : list Subject) :
  (forall subj, In subj subjects -> HasSuffix (Name subj) ".whl" = false) ->
  builtVersionOf subjects = Return "".
Proof.
  intros H. unfold builtVersionOf.
  destruct (find _ subjects) as [subj|] eqn:E; [| reflexivity].
  apply find_some in E as [Hin Hs]. rewrite (H subj Hin) in Hs. discriminate.
Qed.

(** X30.  The monitor handler answers that no build was found exactly
    when the monitor returned no statement, and attests a statement of
    the requested version only.  When it has set an attestation, the
    monitor returned a statement; the version in the stored document is
    the second field between dashes of the base name of the first
    subject that ends in [.whl], or is empty when no subject does; it is
    the requested version unless none was requested; and the key is the
    package, [!] and that version.  When a version is requested and the
    statement has no subject that ends in [.whl], the process ends. *)
Theorem HandleMonitor_attests (form : Form) :
  (forall eff,
     HandleMonitor fetchPolicy firestoreNewClient MonitorBuild Envelope
       EncodeCanonical NewDSSE jsonMarshal firestoreSet K_REVISION startTime
       endTime form = Return eff ->
     ((exists msg, answered eff = Some (msg, 404%Z)) <->
      exists policy bm,
        fetchPolicy (fScope form) (fPkg form)
          (if String.eqb (fRef form) "" then "main" else fRef form)
        = Ok policy
        /\ buildMonitor policy = Some bm
        /\ firestoreNewClient = Ok tt
        /\ MonitorBuild (fPkg form) (Repo policy)
             {| Monitor.Options := Actions bm;
                Monitor.Version := Some (fVersion form) |}
           = Return None)
     /\ forall doc,
          attested eff = Some doc ->
          exists policy bm stmt,
            fetchPolicy (fScope form) (fPkg form)
              (if String.eqb (fRef form) "" then "main" else fRef form)
            = Ok policy
            /\ buildMonitor policy = Some bm
            /\ MonitorBuild (fPkg form) (Repo policy)
                 {| Monitor.Options := Actions bm;
                    Monitor.Version := Some (fVersion form) |}
               = Return (Some stmt)
            /\ builtVersionOf (Subjects stmt) = Return (docVersion doc)
            /\ (fVersion form = "" \/ fVersion form = docVersion doc)
            /\ docKey doc = fPkg form ++ "!" ++ docVersion doc
            /\ EncodeCanonical stmt = Ok (docRaw doc)
            /\ answered eff = None)
  /\ (forall policy bm stmt,
        fetchPolicy (fScope form) (fPkg form)
          (if String.eqb (fRef form) "" then "main" else fRef form)
        = Ok policy ->
        buildMonitor policy = Some bm ->
        firestoreNewClient = Ok tt ->
        MonitorBuild (fPkg form) (Repo policy)
          {| Monitor.Options := Actions bm;
             Monitor.Version := Some (fVersion form) |}
        = Return (Some stmt) ->
        fVersion form <> "" ->
        (forall subj, In subj (Subjects stmt) ->
                      HasSuffix (Name subj) ".whl" = false) ->
        HandleMonitor fetchPolicy firestoreNewClient MonitorBuild Envelope
          EncodeCanonical NewDSSE jsonMarshal firestoreSet K_REVISION
          startTime endTime form
        = Fatal "Requested version differs from actual").
Proof.
  split.
  - intros eff H. unfold HandleMonitor in H. cbv zeta in H.
    destruct (fetchPolicy _ _ _) as [policy | e0] eqn:Hp.
    2:{ injection H as <-. split; [split |].
        - intros (msg & E). discriminate E.
        - intros (p & bm & E & _). discriminate E.
        - intros doc E. discriminate E. }
    destruct (buildMonitor policy) as [bm|] eqn:Hbm.
    2:{ injection H as <-. split; [split |].
        - intros (msg & E). discriminate E.
        - intros (p & bm & E & Hb & _). congruence.
        - intros doc E. discriminate E. }
    destruct firestoreNewClient as [[] | e0] eqn:Hc.
    2:{ injection H as <-. split; [split |].
        - intros (msg & E). discriminate E.
        - intros (p & bm' & _ & _ & E & _). discriminate E.
        - intros doc E. discriminate E. }
    destruct (MonitorBuild _ _ _) as [[stmt|] | e | m |] eqn:Hm;
      try discriminate H.
    + destruct (builtVersionOf (Subjects stmt)) as [builtVersion | | |] eqn:Hv;
        try discriminate H.
      cbn [obind] in H.
      destruct (checkVersion form _ builtVersion) as [record' | | |] eqn:Hcv;
        try discriminate H.
      cbn [obind] in H.
      apply checkVersion_Return in Hcv as (Hv' & Hreq & _); [| reflexivity].
      apply attest_Return in H
        as [-> | (doc & Hdoc & Hans & Hrec & Hk & _ & Hdv & He & _)].
      * split; [split |].
        -- intros (msg & E). discriminate E.
        -- intros (p & b & E1 & E2 & _ & E3).
           assert (p = policy) by congruence. subst p.
           assert (b = bm) by congruence. subst b. congruence.
        -- intros doc E. discriminate E.
      * split; [split |].
        -- intros (msg & E). congruence.
        -- intros (p & b & E1 & E2 & _ & E3).
           assert (p = policy) by congruence. subst p.
           assert (b = bm) by congruence. subst b. congruence.
        -- intros doc' Hdoc'. assert (doc' = doc) by congruence. subst doc'.
           exists policy, bm, stmt. rewrite Hdv, Hv'.
           repeat split; try assumption. now rewrite Hk, Hv'.
    + injection H as <-. split; [split |].
      * intros _. now exists policy, bm.
      * intros _. eexists. reflexivity.
      * intros doc E. discriminate E.
    + injection H as <-. split; [split |].
      * intros (msg & E). discriminate E.
      * intros (p & b & E1 & E2 & _ & E3).
        assert (p = policy) by congruence. subst p.
        assert (b = bm) by congruence. subst b. congruence.
      * intros doc E. discriminate E.
  - intros policy bm stmt Hp Hbm Hc Hm Hv Hnone.
    unfold HandleMonitor. cbv zeta. rewrite Hp, Hbm, Hc, Hm.
    rewrite (builtVersionOf_none _ Hnone). cbn [obind]. unfold checkVersion.
    destruct (String.eqb_spec (fVersion form) ""); [contradiction |].
    destruct (String.eqb_spec "" (fVersion form)); [congruence | reflexivity].
Qed.

End World.

Import Fixtures.

(** The rebuild of the latest version is attested under that version; a
    rebuild that returns no statement ends the process. *)
Lemma HandleRebuild_attests_witness :
  (exists eff doc,
     handleRebuild (rebuildWith ["v3.3"]) "" = Return eff
     /\ attested eff = Some doc
     /\ docKey doc = "idna" ++ "!" ++ docVersion doc
     /\ answered eff = None)
  /\ handleRebuild (fun _ _ _ => Return []) "3.3"
     = Fatal "Unexpected returned statements".
Proof.
  split.
  - eexists. eexists.
    destruct (HandleRebuild_attests (fun _ _ _ => Ok handlerPolicy) (Ok tt)
                (rebuildWith ["v3.3"]) unit (fun _ => Ok "canonical")
                (fun _ => Ok tt) (fun _ => Ok "envelope") (fun _ => Ok tt)
                "revision-1" 10%Z 20%Z
                {| fScope := "pypi"; fPkg := "idna"; fVersion := "";
                   fRef := "" |}) as [HA _].
    destruct (HA _ eq_refl) as [_ Hdoc].
    destruct (Hdoc _ eq_refl)
      as (? & ? & ? & ? & ? & _ & _ & _ & _ & _ & _ & Hk & _ & Ha & _).
    split; [reflexivity |]. split; [reflexivity |]. split; [exact Hk | exact Ha].
  - destruct (HandleRebuild_attests (fun _ _ _ => Ok handlerPolicy) (Ok tt)
                (fun _ _ _ => Return []) unit (fun _ => Ok "canonical")
                (fun _ => Ok tt) (fun _ => Ok "envelope") (fun _ => Ok tt)
                "revision-1" 10%Z 20%Z
                {| fScope := "pypi"; fPkg := "idna"; fVersion := "3.3";
                   fRef := "" |}) as [_ HB].
    apply (HB handlerPolicy {| PackageRoot := "" |} []);
      [reflexivity | reflexivity | reflexivity | reflexivity | discriminate].
Defined.

(** A run in whose window the wheel was uploaded is attested under the
    wheel's version; a run in whose window nothing was uploaded gives no
    build. *)
Lemma HandleMonitor_attests_witness :
  (exists eff doc,
     handleMonitor [run1] "1.0" = Return eff
     /\ attested eff = Some doc
     /\ docKey doc = "pkg" ++ "!" ++ docVersion doc
     /\ answered eff = None)
  /\ (exists eff,
        handleMonitor [run0] "1.0" = Return eff
        /\ exists msg, answered eff = Some (msg, 404%Z)).
Proof.
  split.
  - eexists. eexists.
    destruct (HandleMonitor_attests (fun _ _ _ => Ok monitorPolicy) (Ok tt)
                (monitorBuildWith [run1]) unit (fun _ => Ok "canonical")
                (fun _ => Ok tt) (fun _ => Ok "envelope") (fun _ => Ok tt)
                "revision-1" 10%Z 20%Z
                {| fScope := "pypi"; fPkg := "pkg"; fVersion := "1.0";
                   fRef := "" |}) as [HA _].
    destruct (HA _ eq_refl) as [_ Hdoc].
    destruct (Hdoc _ eq_refl)
      as (? & ? & ? & _ & _ & _ & _ & _ & Hk & _ & Ha).
    split; [reflexivity |]. split; [reflexivity |]. split; [exact Hk | exact Ha].
  - eexists.
    destruct (HandleMonitor_attests (fun _ _ _ => Ok monitorPolicy) (Ok tt)
                (monitorBuildWith [run0]) unit (fun _ => Ok "canonical")
                (fun _ => Ok tt) (fun _ => Ok "envelope") (fun _ => Ok tt)
                "revision-1" 10%Z 20%Z
                {| fScope := "pypi"; fPkg := "pkg"; fVersion := "1.0";
                   fRef := "" |}) as [HA _].
    destruct (HA _ eq_refl) as [[_ H404] _].
    split; [reflexivity |]. apply H404.
    exists monitorPolicy, {| Actions := Monitor.Options monitorOptions |}.
    repeat split; vm_compute; reflexivity.
Defined.

End HandlersFacts.
